(** * The Askar wallet of aries-cloudagent-python: pack, unpack and DID rotation

    A shallow embedding of [aries_cloudagent/wallet/askar.py].  The module
    level functions [create_keypair], [_load_did_entry], [pack_message],
    [unpack_message] and [extract_payload_key] and the methods of
    [AskarWallet] (all but [set_did_endpoint], which talks to a ledger) are
    written as functions in a state-and-exception monad over the Askar
    session.  The primitives of the [aries_askar] library and
    the helpers of sibling modules are an interface ([Askar], [Helpers]); what
    the proofs need of them is collected in [WalletLaws], and [Sim] is a small
    implementation that meets it.  The definitions come first; the properties
    of packing, unpacking, signing keys, signatures and DID records follow,
    and [Examples] runs them on concrete envelopes and stores. *)

From Stdlib Require Import ZArith NArith List.
From Stdlib.Strings Require Import String Ascii Byte.
From stdpp Require Import base option list strings gmap countable.

Open Scope string_scope.
Open Scope list_scope.
Set Warnings "-register-all".

(** ** Python values *)

(** [bytes]: a sequence of octets. *)
Abbreviation bytes := (list byte).

#[global] Instance byte_eq_dec : EqDecision byte := Byte.byte_eq_dec.

(** [ciphertext[-n:]] and [ciphertext[:-n]] for [n > 0]: the slice bounds
    are clamped, so on a sequence shorter than [n] the first is the whole
    sequence and the second is empty. *)
Definition slice_last {A} (n : nat) (l : list A) : list A :=
  drop (length l - n) l.
Definition slice_but_last {A} (n : nat) (l : list A) : list A :=
  take (length l - n) l.

(** A [str] is represented by its UTF-8 encoding, so that
    [s.encode("utf-8")] is the octets of [s], and [b.decode("utf-8")]
    succeeds exactly on well-formed UTF-8 (RFC 3629: shortest form, no
    surrogates, at most U+10FFFF). *)
Definition in_range (lo hi : N) (b : byte) : bool :=
  (lo <=? Byte.to_N b)%N && (Byte.to_N b <=? hi)%N.

Definition cont := in_range 128 191.

Fixpoint utf8_valid (bs : bytes) : bool :=
  match bs with
  | [] => true
  | b0 :: r0 =>
    if in_range 0 127 b0 then utf8_valid r0
    else if in_range 194 223 b0 then
      match r0 with
      | b1 :: r1 => cont b1 && utf8_valid r1
      | _ => false
      end
    else if in_range 224 239 b0 then
      match r0 with
      | b1 :: b2 :: r2 =>
        (if in_range 224 224 b0 then in_range 160 191 b1
         else if in_range 237 237 b0 then in_range 128 159 b1
         else cont b1)
        && cont b2 && utf8_valid r2
      | _ => false
      end
    else if in_range 240 244 b0 then
      match r0 with
      | b1 :: b2 :: b3 :: r3 =>
        (if in_range 240 240 b0 then in_range 144 191 b1
         else if in_range 244 244 b0 then in_range 128 143 b1
         else cont b1)
        && cont b2 && cont b3 && utf8_valid r3
      | _ => false
      end
    else false
  end.

Definition encode_utf8 (s : string) : bytes := list_byte_of_string s.

(** ** JSON values and dictionaries *)

(** The values [json.loads] produces (numbers restricted to integers).  A
    [dict] keeps its keys in insertion order. *)
Inductive json : Type :=
| JNull
| JBool (b : bool)
| JNum (z : Z)
| JStr (s : string)
| JList (l : list json)
| JDict (d : list (string * json)).

Abbreviation dict := (list (string * json)).

(** [d[k]] / [k in d]. *)
Fixpoint dict_lookup {V} (k : string) (d : list (string * V)) : option V :=
  match d with
  | [] => None
  | (k', v) :: d' => if decide (k' = k) then Some v else dict_lookup k d'
  end.

(** [d.get(k)]: [None] (here [JNull]) when the key is missing. *)
Definition dict_get (k : string) (d : dict) : json :=
  default JNull (dict_lookup k d).

(** [d[k] = v]: an existing key keeps its position. *)
Fixpoint dict_set {V} (k : string) (v : V) (d : list (string * V))
  : list (string * V) :=
  match d with
  | [] => [(k, v)]
  | (k', v') :: d' =>
    if decide (k' = k) then (k, v) :: d' else (k', v') :: dict_set k v d'
  end.

(** The dictionary after [del d[k]]. *)
Definition dict_remove {V} (k : string) (d : list (string * V))
  : list (string * V) :=
  filter (λ kv, kv.1 ≠ k) d.

(** Truth value of an object ([if x:], [not x]). *)
Definition truthy (v : json) : bool :=
  match v with
  | JNull => false
  | JBool b => b
  | JNum z => negb (z =? 0)%Z
  | JStr s => negb (String.eqb s "")
  | JList l => negb (bool_decide (l = []))
  | JDict d => negb (bool_decide (d = []))
  end.

Definition bytes_truthy (b : bytes) : bool := negb (bool_decide (b = [])).
Definition str_truthy (s : string) : bool := negb (String.eqb s "").

(** The same for a value that may be [None]. *)
Definition bytes_opt_truthy (o : option bytes) : bool :=
  if o is Some b then bytes_truthy b else false.
Definition str_opt_truthy (o : option string) : bool :=
  if o is Some s then str_truthy s else false.

(** [a == b] on JSON values: [True == 1], lists compare element by element
    and dictionaries by key, whatever the insertion order. *)
Fixpoint py_eq (a b : json) : bool :=
  match a, b with
  | JNull, JNull => true
  | JBool x, JBool y => bool_decide (x = y)
  | JBool x, JNum z | JNum z, JBool x => (z =? (if x then 1 else 0))%Z
  | JNum x, JNum y => (x =? y)%Z
  | JStr x, JStr y => String.eqb x y
  | JList l1, JList l2 =>
    (fix all2 (l1 l2 : list json) : bool :=
       match l1, l2 with
       | [], [] => true
       | x :: l1', y :: l2' => py_eq x y && all2 l1' l2'
       | _, _ => false
       end) l1 l2
  | JDict d1, JDict d2 =>
    (length d1 =? length d2)%nat &&
    (fix sub (d1 : dict) : bool :=
       match d1 with
       | [] => true
       | (k, v) :: d1' =>
         match dict_lookup k d2 with
         | Some w => py_eq v w
         | None => false
         end && sub d1'
       end) d1
  | _, _ => false
  end.

(** ** Exceptions *)

Module KeyType.
Inductive t : Type := ED25519 | BLS12381G1 | BLS12381G2 | BLS12381G1G2.
#[global] Instance eq_dec : EqDecision t.
Proof. solve_decision. Defined.
End KeyType.

Module KeyAlg.
Inductive t : Type := ED25519 | X25519 | C20P | BLS12_381_G1 | BLS12_381_G2.
#[global] Instance eq_dec : EqDecision t.
Proof. solve_decision. Defined.
End KeyAlg.

Module DIDMethod.
Inductive t : Type := SOV | KEY | Other (name : string).
#[global] Instance eq_dec : EqDecision t.
Proof. solve_decision. Defined.
End DIDMethod.

(** The text of an exception: a literal with the values that [format] or an
    f-string puts into it. *)
Inductive fmt_arg : Type :=
| FStr (s : string)
| FTuple (t : list string)
| FObj (v : json)
| FKeyType (k : KeyType.t).

Record message : Type := Message { template : string; arguments : list fmt_arg }.

Definition literal (s : string) : message := Message s [].

Module AskarErrorCode.
Inductive t : Type :=
| BACKEND | BUSY | DUPLICATE | ENCRYPTION | INPUT | NOT_FOUND | UNEXPECTED
| UNSUPPORTED | WRAPPER | CUSTOM.
#[global] Instance eq_dec : EqDecision t.
Proof. solve_decision. Defined.
End AskarErrorCode.

(** [WalletNotFoundError] and [WalletDuplicateError] are kept apart from
    their base class [WalletError]; no handler of this module catches
    [WalletError]. *)
Inductive exn : Type :=
| WalletError (msg : message)
| WalletNotFoundError (msg : message)
| WalletDuplicateError (msg : message)
| AskarError (code : AskarErrorCode.t)
| ValidationError
| ValueError
| UnicodeDecodeError
| AttributeError
| TypeError
| KeyError.

Inductive result (A : Type) : Type :=
| Ok (a : A)
| Raise (e : exn).
Arguments Ok {A} a.
Arguments Raise {A} e.

Definition result_bind {A B} (r : result A) (k : A → result B) : result B :=
  match r with
  | Ok a => k a
  | Raise e => Raise e
  end.

(** [b.decode("utf-8")]. *)
Definition decode_utf8 (b : bytes) : result string :=
  if utf8_valid b then Ok (string_of_list_byte b) else Raise UnicodeDecodeError.

(** The errors of the specification's taxonomy that the claims name, as the
    source raises them. *)
Definition NoMatchingKey (recips : list string) : exn :=
  WalletError
    (Message "No corresponding recipient key found in {}" [FTuple recips]).
Definition MissingSender : exn :=
  WalletError (literal "Sender public key not provided for Authcrypt message").
Definition RotationNotStarted : exn :=
  WalletError (literal "Cannot rotate DID key: no next key established").
Definition DuplicateDID : exn :=
  WalletDuplicateError (literal "DID already present in wallet").

(** ** The envelope *)

(** Modelled from the spec: [JweRecipient] and [JweEnvelope] of
    [aries_cloudagent/utils/jwe.py], which is not among the sources.  The
    spec's Envelope (section 3, wire format in section 6): a recipient entry
    is [{header: {kid, sender?, iv?}, encrypted_key}]; the envelope has the
    protected header, its serialized bytes (the associated data of the AEAD
    step), the ordered recipient entries, and [iv], [ciphertext], [tag]. *)
Record JweRecipient : Type := mkJweRecipient {
  encrypted_key : bytes;
  header : dict;
}.

Record JweEnvelope : Type := mkJweEnvelope {
  protected : dict;
  protected_bytes : bytes;
  recipients : list JweRecipient;
  iv : bytes;
  ciphertext : bytes;
  tag : bytes;
}.

(** [JweEnvelope()]. *)
Definition JweEnvelope_new : JweEnvelope := mkJweEnvelope [] [] [] [] [] [].

Definition add_recipient (w : JweEnvelope) (r : JweRecipient) : JweEnvelope :=
  mkJweEnvelope (protected w) (protected_bytes w) (recipients w ++ [r])
                (iv w) (ciphertext w) (tag w).

Definition set_payload (w : JweEnvelope) (ciphertext' nonce tag' : bytes)
  : JweEnvelope :=
  mkJweEnvelope (protected w) (protected_bytes w) (recipients w)
                nonce ciphertext' tag'.

(** What [extract_pack_recipients] returns for one entry: the dictionary
    [{"sender": ..., "nonce": ..., "key": ...}] that [extract_payload_key]
    reads. *)
Record RecipDetails : Type := mkRecipDetails {
  recip_sender : option bytes;
  recip_nonce : option bytes;
  recip_key : bytes;
}.

(** ** The collaborators *)

(** The primitives imported from [aries_askar].  [Key] is the library's key
    handle; [Entropy] is the state of its random source, threaded through
    every call that draws from it. *)
Class Askar : Type := {
  Key : Type;
  Entropy : Type;
  Key_generate : KeyAlg.t → Entropy → result Key * Entropy;
  Key_from_seed : KeyAlg.t → string → result Key;
  Key_from_secret_bytes : KeyAlg.t → bytes → result Key;
  Key_from_public_bytes : KeyAlg.t → bytes → result Key;
  Key_convert_key : Key → KeyAlg.t → result Key;
  Key_get_public_bytes : Key → result bytes;
  key_get_secret_bytes : Key → result bytes;
  Key_aead_random_nonce : Key → Entropy → result bytes * Entropy;
  (* key.aead_encrypt(message, nonce, aad) *)
  Key_aead_encrypt : Key → bytes → bytes → bytes → result bytes;
  (* key.aead_decrypt(ciphertext, nonce, aad) *)
  Key_aead_decrypt : Key → bytes → bytes → bytes → result bytes;
  crypto_box_random_nonce : Entropy → result bytes * Entropy;
  (* crypto_box(recip_key, sender_key, message, nonce) *)
  crypto_box : Key → Key → bytes → bytes → result bytes;
  crypto_box_open : Key → Key → bytes → bytes → result bytes;
  crypto_box_seal : Key → bytes → Entropy → result bytes * Entropy;
  crypto_box_seal_open : Key → bytes → result bytes;
}.

(** The helpers imported from sibling modules of the repository
    ([.util], [.crypto], [.did_method], [.key_type], [..did.did_key],
    [..utils.jwe]), none of which is among the sources. *)
Class Helpers : Type := {
  b58_to_bytes : string → result bytes;
  bytes_to_b58 : bytes → string;
  b64url : bytes → string;
  b64_to_bytes : string → result bytes;
  validate_seed : string → result bytes;
  supports_key_type : DIDMethod.t → KeyType.t → bool;
  supports_rotation : DIDMethod.t → bool;
  method_name : DIDMethod.t → string;
  from_did : string → DIDMethod.t;
  key_type_name : KeyType.t → string;
  (* DIDKey.from_public_key(public_key, key_type).did *)
  DIDKey_from_public_key : bytes → KeyType.t → result string;
  (* the bytes JweEnvelope.set_protected keeps for the header *)
  serialize_protected : dict → bytes;
  to_json : JweEnvelope → string;
  from_json : bytes → result JweEnvelope;
}.

(** The [message] of [sign_message] and [verify_message]: one [bytes]
    value, or a list of them. *)
Inductive signable : Type :=
| One (message : bytes)
| Many (messages : list bytes).

Definition signable_truthy (m : signable) : bool :=
  match m with
  | One b => bytes_truthy b
  | Many l => negb (bool_decide (l = []))
  end.

(** The signature primitives of [aries_askar.Key]. *)
Class Signing `{Askar} : Type := {
  (* key.sign_message(message) *)
  Key_sign_message : Key → signable → result bytes;
  (* key.verify_signature(message, signature) *)
  Key_verify_signature : Key → signable → bytes → result bool;
}.

(** The lookups by name of [.did_method] and [.key_type], which are not
    among the sources: [DIDMethod.from_method(name)] and
    [KeyType.from_key_type(name)], each [None] for a name it does not
    know. *)
Class Lookups : Type := {
  from_method : json → option DIDMethod.t;
  from_key_type : json → option KeyType.t;
}.

(** Modelled from the spec: [JweEnvelope.set_protected] of
    [aries_cloudagent/utils/jwe.py], which is not among the sources.
    [wrapper.set_protected(header, auto_flatten=False)] keeps the header and
    the bytes it serializes to, the associated data of the AEAD step
    (section 4.2 step 5).  An envelope has at least one recipient entry
    (section 3: [recipients] is non-empty; section 7 counts a missing
    recipient list among the invalid inputs): when no entry was added the
    call is refused with [ValidationError] ("Missing message recipients"). *)
Definition set_protected `{Helpers} (w : JweEnvelope) (h : dict)
  : result JweEnvelope :=
  if decide (recipients w = []) then Raise ValidationError
  else Ok (mkJweEnvelope h (serialize_protected h) (recipients w)
                         (iv w) (ciphertext w) (tag w)).

(** Modelled from the spec: [extract_pack_recipients] of
    [aries_cloudagent/wallet/crypto.py], which is not among the sources.
    Its result is the dictionary [recips] of [unpack_message], keyed by
    [kid] and iterated in the order of the envelope's entries (section 4.3
    step 3).  A dictionary holds a [kid] once: an entry with no [kid]
    ("Blank recipient key") or with the [kid] of an earlier entry
    ("Duplicate recipient key") is refused with [ValueError].  An entry
    carries [sender] and [iv] together or not at all (section 3): [sender]
    without [iv] ("Missing iv") and [iv] without [sender] ("Unexpected iv")
    are refused with [ValueError] too.  The two fields are base64url text
    (section 6); [found] is the dictionary built so far. *)
Definition extract_recipient `{Helpers} (found : list (string * RecipDetails))
    (recip : JweRecipient) : result (string * RecipDetails) :=
  let b64_field (v : json) : result (option bytes) :=
    if truthy v then
      match v with
      | JStr s => result_bind (b64_to_bytes s) (λ b, Ok (Some b))
      | _ => Raise ValueError (* not text *)
      end
    else Ok None in
  match dict_get "kid" (header recip) with
  | JStr recip_vk_b58 =>
    if negb (str_truthy recip_vk_b58) then Raise ValueError
    else if dict_lookup recip_vk_b58 found is Some _ then Raise ValueError
    else
      let sender_b64 := dict_get "sender" (header recip) in
      result_bind (b64_field sender_b64) (λ enc_sender,
      let nonce_b64 := dict_get "iv" (header recip) in
      if truthy sender_b64 && negb (truthy nonce_b64) then Raise ValueError
      else if negb (truthy sender_b64) && truthy nonce_b64 then Raise ValueError
      else
        result_bind (b64_field nonce_b64) (λ nonce,
        Ok (recip_vk_b58,
            mkRecipDetails enc_sender nonce (encrypted_key recip))))
  | _ => Raise ValueError (* no kid, or one that is not text *)
  end.

Fixpoint extract_pack_recipients_into `{Helpers}
    (found : list (string * RecipDetails)) (rs : list JweRecipient)
  : result (list (string * RecipDetails)) :=
  match rs with
  | [] => Ok found
  | recip :: rs' =>
    result_bind (extract_recipient found recip) (λ e,
    extract_pack_recipients_into (found ++ [e]) rs')
  end.

Definition extract_pack_recipients `{Helpers} (rs : list JweRecipient)
  : result (list (string * RecipDetails)) :=
  extract_pack_recipients_into [] rs.

(** ** The session and the monad *)

Section Model.
Context `{Askar}.

(** A key of the store: the handle, and the JSON document kept as its
    metadata ([json.dumps] of a dictionary, or nothing). *)
Record KeyEntry : Type := mkKeyEntry {
  key : Key;
  key_metadata : option json;
}.

(** A record of the store: its value, a JSON object, and its tags. *)
Record Entry : Type := mkEntry {
  value_json : dict;
  tags : dict;
}.

(** What a call can read and change: the random source and the store behind
    the session.  [fetch_log] is a ghost trace of the names [fetch_key] was
    asked for; no function reads it. *)
Record World : Type := mkWorld {
  entropy : Entropy;
  keys : gmap string KeyEntry;
  items : gmap (string * string) Entry;
  fetch_log : list string;
}.

Definition M (A : Type) : Type := World → result A * World.

#[export] Instance M_ret : MRet M := λ A a w, (Ok a, w).
#[export] Instance M_bind : MBind M := λ A B k m w,
  match m w with
  | (Ok a, w') => k a w'
  | (Raise e, w') => (Raise e, w')
  end.

Definition raise {A} (e : exn) : M A := λ w, (Raise e, w).
Definition lift {A} (r : result A) : M A := λ w, (r, w).

(** [try: body / except ...: handler]: [handler e] is [None] when no
    [except] clause matches [e]. *)
Definition try_except {A} (body : M A) (handler : exn → option (M A)) : M A :=
  λ w, match body w with
       | (Ok a, w') => (Ok a, w')
       | (Raise e, w') =>
         match handler e with
         | Some h => h w'
         | None => (Raise e, w')
         end
       end.

(** A call that draws from the random source. *)
Definition draw {A} (f : Entropy → result A * Entropy) : M A :=
  λ w, let '(r, g) := f (entropy w) in
       (r, mkWorld g (keys w) (items w) (fetch_log w)).

End Model.

Module Session.
Section Ops.
Context `{Askar}.

(** The [aries_askar] session, after the contract of the spec's section 6. *)
Definition fetch_key (name : string) : M (option KeyEntry) :=
  λ w, (Ok (keys w !! name),
        mkWorld (entropy w) (keys w) (items w) (fetch_log w ++ [name])).

Definition insert_key (name : string) (k : Key) (metadata : option json)
  : M unit :=
  λ w, match keys w !! name with
       | Some _ => (Raise (AskarError AskarErrorCode.DUPLICATE), w)
       | None =>
         (Ok (), mkWorld (entropy w) (<[name := mkKeyEntry k metadata]> (keys w))
                         (items w) (fetch_log w))
       end.

Definition fetch (category name : string) : M (option Entry) :=
  λ w, (Ok (items w !! (category, name)), w).

Definition insert (category name : string) (value : dict)
    (tags' : dict) : M unit :=
  λ w, match items w !! (category, name) with
       | Some _ => (Raise (AskarError AskarErrorCode.DUPLICATE), w)
       | None =>
         (Ok (), mkWorld (entropy w) (keys w)
                         (<[(category, name) := mkEntry value tags']> (items w))
                         (fetch_log w))
       end.

Definition replace (category name : string) (value : dict)
    (tags' : dict) : M unit :=
  λ w, match items w !! (category, name) with
       | None => (Raise (AskarError AskarErrorCode.NOT_FOUND), w)
       | Some _ =>
         (Ok (), mkWorld (entropy w) (keys w)
                         (<[(category, name) := mkEntry value tags']> (items w))
                         (fetch_log w))
       end.

End Ops.
End Session.

(** Two more operations of the session, after the same contract. *)
Module Handle.
Section Ops.
Context `{Askar}.

(** [update_key(name, metadata=..., tags=...)].  The one call of the
    module passes the tags the key already has, and the key entries here
    carry none: the metadata is what changes. *)
Definition update_key (name : string) (metadata : option json) : M unit :=
  λ w, match keys w !! name with
       | None => (Raise (AskarError AskarErrorCode.NOT_FOUND), w)
       | Some e =>
         (Ok (), mkWorld (entropy w)
                         (<[name := mkKeyEntry (key e) metadata]> (keys w))
                         (items w) (fetch_log w))
       end.

(** A record passes a tag filter [{name: text, ...}] when each of the named
    tags has that text. *)
Definition tag_filter_matches (tag_filter : list (string * string))
    (e : Entry) : bool :=
  forallb (λ kv, match dict_lookup kv.1 (tags e) with
                 | Some (JStr s) => String.eqb s kv.2
                 | _ => false
                 end) tag_filter.

(** [fetch_all(category, tag_filter, limit=...)].  The order in which the
    store lists its records is its own; here it is that of the listing of
    the map. *)
Definition fetch_all (category : string) (tag_filter : list (string * string))
    (limit : option nat) : M (list Entry) :=
  λ w, let found :=
         omap (λ kv : string * string * Entry,
                 if decide (kv.1.1 = category) then
                   if tag_filter_matches tag_filter kv.2 then Some kv.2 else None
                 else None)
              (map_to_list (items w)) in
       (Ok (from_option (λ n, take n found) found limit), w).

End Ops.
End Handle.

(** ** The module [aries_cloudagent.wallet.askar] *)

Definition CATEGORY_DID : string := "did".

Record DIDInfo : Type := mkDIDInfo {
  did_of : string;
  verkey_of : string;
  metadata_of : dict;
  method_of : DIDMethod.t;
  key_type_of : KeyType.t;
}.

Record KeyInfo : Type := mkKeyInfo {
  ki_verkey : string;
  ki_metadata : json;
  ki_key_type : KeyType.t;
}.

(** The [DIDInfo] that [_load_did_entry] fills from a stored record: its
    fields hold whatever the record holds, and the method and the key type
    are what the lookups by name return. *)
Record StoredDIDInfo : Type := mkStoredDIDInfo {
  stored_did : json;
  stored_verkey : json;
  stored_metadata : json;
  stored_method : option DIDMethod.t;
  stored_key_type : option KeyType.t;
}.

Section Source.
Context `{Askar} `{Helpers}.

(** [create_keypair(key_type, seed)].  When [Key.from_secret_bytes] or
    [Key.from_seed] raises an [AskarError] whose code is not [INPUT], the
    handler falls through and the function returns [None]. *)
Definition create_keypair (key_type : KeyType.t) (seed : option string)
  : M (option Key) :=
  match (if decide (key_type = KeyType.ED25519) then Some KeyAlg.ED25519
         else if decide (key_type = KeyType.BLS12381G2)
              then Some KeyAlg.BLS12_381_G2
              else None) with
  | None =>
    raise (WalletError
             (Message "Unsupported key algorithm: {}" [FKeyType key_type]))
  | Some alg =>
    match seed with
    | Some seed' =>
      if str_truthy seed' then
        try_except
          (if decide (key_type = KeyType.ED25519) then
             (* not a seed - it is the secret key *)
             seed'' ← lift (validate_seed seed');
             k ← lift (Key_from_secret_bytes alg seed'');
             mret (Some k)
           else
             k ← lift (Key_from_seed alg seed');
             mret (Some k))
          (λ err, match err with
                  | AskarError code =>
                    Some (if decide (code = AskarErrorCode.INPUT)
                          then raise (WalletError
                                 (literal "Invalid seed for key generation"))
                          else mret None)
                  | _ => None
                  end)
      else k ← draw (Key_generate alg); mret (Some k)
    | None => k ← draw (Key_generate alg); mret (Some k)
    end
  end.

(** [keypair.get_public_bytes()] on what [create_keypair] returned. *)
Definition get_public_bytes (keypair : option Key) : M bytes :=
  match keypair with
  | Some k => lift (Key_get_public_bytes k)
  | None => raise AttributeError
  end.

(** [extract_payload_key(sender_cek, recip_secret)]. *)
Definition extract_payload_key (sender_cek : RecipDetails) (recip_secret : Key)
  : result (bytes * option string) :=
  result_bind (Key_convert_key recip_secret KeyAlg.X25519) (λ recip_x,
  if bytes_opt_truthy (recip_nonce sender_cek)
     && bytes_opt_truthy (recip_sender sender_cek) then
    let nonce := default [] (recip_nonce sender_cek) in
    let sender := default [] (recip_sender sender_cek) in
    result_bind (crypto_box_seal_open recip_x sender) (λ sender_b,
    result_bind (decode_utf8 sender_b) (λ sender_vk,
    result_bind (b58_to_bytes sender_vk) (λ sender_pk_b,
    result_bind (Key_from_public_bytes KeyAlg.ED25519 sender_pk_b) (λ sender_pk,
    result_bind (Key_convert_key sender_pk KeyAlg.X25519) (λ sender_x,
    result_bind (crypto_box_open recip_x sender_x (recip_key sender_cek) nonce)
      (λ cek, Ok (cek, Some sender_vk)))))))
  else
    let sender_vk := None in
    result_bind (crypto_box_seal_open recip_x (recip_key sender_cek))
      (λ cek, Ok (cek, sender_vk))).

(** One round of the loop of [pack_message]: the entry for [target_vk] is
    added to [wrapper]. *)
Definition pack_recipient (cek_b : bytes) (sender_vk : option bytes)
    (sender_xk : option Key) (wrapper : JweEnvelope) (target_vk : string)
  : M JweEnvelope :=
  target_b ← lift (b58_to_bytes target_vk);
  target_pk ← lift (Key_from_public_bytes KeyAlg.ED25519 target_b);
  target_xk ← lift (Key_convert_key target_pk KeyAlg.X25519);
  if bytes_opt_truthy sender_vk then
    match sender_vk, sender_xk with
    | Some sender_vk', Some sender_xk' =>
      enc_sender ← draw (crypto_box_seal target_xk sender_vk');
      nonce ← draw crypto_box_random_nonce;
      enc_cek ← lift (crypto_box target_xk sender_xk' cek_b nonce);
      mret (add_recipient wrapper
              (mkJweRecipient enc_cek
                 [("kid", JStr target_vk);
                  ("sender", JStr (b64url enc_sender));
                  ("iv", JStr (b64url nonce))]))
    | _, _ => raise TypeError (* a sender_vk comes with a sender_xk *)
    end
  else
    enc_cek ← draw (crypto_box_seal target_xk cek_b);
    mret (add_recipient wrapper
            (mkJweRecipient enc_cek [("kid", JStr target_vk)])).

Fixpoint pack_recipients (cek_b : bytes) (sender_vk : option bytes)
    (sender_xk : option Key) (wrapper : JweEnvelope) (to_verkeys : list string)
  : M JweEnvelope :=
  match to_verkeys with
  | [] => mret wrapper
  | target_vk :: rest =>
    wrapper' ← pack_recipient cek_b sender_vk sender_xk wrapper target_vk;
    pack_recipients cek_b sender_vk sender_xk wrapper' rest
  end.

(** The body of [pack_message] up to its last line: the envelope that is
    then serialized. *)
Definition pack_envelope (to_verkeys : list string) (from_key : option Key)
    (message : bytes) : M JweEnvelope :=
  let wrapper := JweEnvelope_new in
  cek ← draw (Key_generate KeyAlg.C20P);
  (* avoid converting to bytes object: this way the only copy is zeroed afterward *)
  cek_b ← lift (key_get_secret_bytes cek);
  sender_vk ← match from_key with
              | Some k =>
                pk ← lift (Key_get_public_bytes k);
                mret (Some (encode_utf8 (bytes_to_b58 pk)))
              | None => mret None
              end;
  sender_xk ← match from_key with
              | Some k =>
                xk ← lift (Key_convert_key k KeyAlg.X25519); mret (Some xk)
              | None => mret None
              end;
  wrapper ← pack_recipients cek_b sender_vk sender_xk wrapper to_verkeys;
  wrapper ← lift (set_protected wrapper
      [("enc", JStr "xchacha20poly1305_ietf");
       ("typ", JStr "JWM/1.0");
       ("alg", JStr (if from_key is Some _ then "Authcrypt" else "Anoncrypt"))]);
  nonce ← draw (Key_aead_random_nonce cek);
  ciphertext ← lift (Key_aead_encrypt cek message nonce (protected_bytes wrapper));
  let tag := slice_last 16 ciphertext in
  let ciphertext := slice_but_last 16 ciphertext in
  mret (set_payload wrapper ciphertext nonce tag).

(** [pack_message(to_verkeys, from_key, message)]. *)
Definition pack_message (to_verkeys : list string) (from_key : option Key)
    (message : bytes) : M bytes :=
  wrapper ← pack_envelope to_verkeys from_key message;
  mret (encode_utf8 (to_json wrapper)).

(** The [for recip_vk in recips] loop of [unpack_message], with its
    [break].  [todo] is what is left of the keys of [recips]; the result is
    [(payload_key, sender_vk, recip_vk)] as the loop leaves them, [recip_vk]
    being the last key the loop reached. *)
Fixpoint unpack_loop (recips : list (string * RecipDetails))
    (todo : list string) (recip_vk : option string)
  : M (option bytes * option string * option string) :=
  match todo with
  | [] => mret (None, None, recip_vk)
  | recip_vk' :: todo' =>
    recip_key_entry ← Session.fetch_key recip_vk';
    match recip_key_entry with
    | Some entry =>
      match dict_lookup recip_vk' recips with
      | Some sender_cek =>
        '(payload_key, sender_vk) ← lift (extract_payload_key sender_cek (key entry));
        mret (Some payload_key, sender_vk, Some recip_vk')
      | None => raise KeyError
      end
    | None => unpack_loop recips todo' (Some recip_vk')
    end
  end.

(** The lines of [unpack_message] after the loop: the two checks, the
    decryption and the [return]. *)
Definition unpack_payload (wrapper : JweEnvelope) (is_authcrypt : bool)
    (recips : list (string * RecipDetails)) (payload_key : option bytes)
    (sender_vk recip_vk : option string)
  : result (bytes * string * option string) :=
  if negb (bytes_opt_truthy payload_key) then
    Raise (NoMatchingKey recips.*1)
  else if negb (str_opt_truthy sender_vk) && is_authcrypt then
    Raise MissingSender
  else
    result_bind (Key_from_secret_bytes KeyAlg.C20P (default [] payload_key))
      (λ cek,
    let ciphertext := ciphertext wrapper ++ tag wrapper in
    result_bind (Key_aead_decrypt cek ciphertext (iv wrapper)
                   (protected_bytes wrapper)) (λ message,
    match recip_vk with
    | Some recip_vk' => Ok (message, recip_vk', sender_vk)
    | None => Raise TypeError (* a payload key comes with its recip_vk *)
    end)).

(** [unpack_message(session, enc_message)]; the result is
    [(message, recip_vk, sender_vk)]. *)
Definition unpack_message (enc_message : bytes)
  : M (bytes * string * option string) :=
  wrapper ← try_except (lift (from_json enc_message))
              (λ err, match err with
                      | ValidationError =>
                        Some (raise (WalletError (literal "Invalid packed message")))
                      | _ => None
                      end);
  let alg := dict_get "alg" (protected wrapper) in
  let is_authcrypt := py_eq alg (JStr "Authcrypt") in
  if negb is_authcrypt && negb (py_eq alg (JStr "Anoncrypt")) then
    raise (WalletError (Message "Unsupported pack algorithm: {}" [FObj alg]))
  else
    recips ← lift (extract_pack_recipients (recipients wrapper));
    '(payload_key, sender_vk, recip_vk) ← unpack_loop recips recips.*1 None;
    lift (unpack_payload wrapper is_authcrypt recips payload_key sender_vk recip_vk).

End Source.

Section Load.
Context `{Lookups}.

(** [_load_did_entry(entry)]. *)
Definition _load_did_entry (entry : Entry) : result StoredDIDInfo :=
  let did_info := value_json entry in
  match dict_lookup "did" did_info with
  | None => Raise KeyError
  | Some did =>
    match dict_lookup "verkey" did_info with
    | None => Raise KeyError
    | Some verkey =>
      Ok (mkStoredDIDInfo did verkey (dict_get "metadata" did_info)
            (from_method (default (JStr "sov") (dict_lookup "method" did_info)))
            (from_key_type
               (default (JStr "ed25519") (dict_lookup "verkey_type" did_info))))
    end
  end.

(** The loop of [get_local_dids]: [ret] grows by one [DIDInfo] per record. *)
Fixpoint load_did_entries (items : list Entry) (ret : list StoredDIDInfo)
  : result (list StoredDIDInfo) :=
  match items with
  | [] => Ok ret
  | item :: rest =>
    result_bind (_load_did_entry item) (λ info,
    load_did_entries rest (ret ++ [info]))
  end.

End Load.

(** ** The class [AskarWallet] *)

Module AskarWallet.
Section Methods.
Context `{Askar} `{Helpers}.

(** [except AskarError as err: raise WalletError(text) from err]. *)
Definition askar_error_as (text : string) {A} (err : exn) : option (M A) :=
  match err with
  | AskarError _ => Some (raise (WalletError (literal text)))
  | _ => None
  end.

(** [except AskarError as err]: a [DUPLICATE] passes, any other code is
    raised again as [WalletError(text)]. *)
Definition duplicate_passes (text : string) (err : exn) : option (M unit) :=
  match err with
  | AskarError code =>
    Some (if decide (code = AskarErrorCode.DUPLICATE) then mret ()
          else raise (WalletError (literal text)))
  | _ => None
  end.

(** The DID that [create_local_did] stores under: derived from the key for
    method [key], the caller's when there is one, else the base58 text of
    the first 16 bytes of the public key. *)
Definition local_did (method : DIDMethod.t) (key_type : KeyType.t)
    (did : option string) (verkey_bytes : bytes) : result string :=
  if bool_decide (method = DIDMethod.KEY) then
    DIDKey_from_public_key verkey_bytes key_type
  else if negb (str_opt_truthy did) then
    Ok (bytes_to_b58 (take 16 verkey_bytes))
  else Ok (default "" did).

(** [create_local_did(method, key_type, seed, did, metadata)]. *)
Definition create_local_did (method : DIDMethod.t) (key_type : KeyType.t)
    (seed : option string) (did : option string) (metadata : option dict)
  : M DIDInfo :=
  (* validate key_type *)
  if negb (supports_key_type method key_type) then
    raise (WalletError
             (Message "Invalid key type {} for DID method {}"
                      [FStr (key_type_name key_type); FStr (method_name method)]))
  else if bool_decide (method = DIDMethod.KEY)
          && str_opt_truthy did then
    raise (WalletError (literal "Not allowed to set DID for DID method 'key'"))
  else
    let metadata := default [] metadata in
    if negb (bool_decide (method ∈ [DIDMethod.SOV; DIDMethod.KEY])) then
      raise (WalletError
               (Message "Unsupported DID method for askar storage: {}"
                        [FStr (method_name method)]))
    else
      '(did, verkey) ←
        try_except
          (keypair ← create_keypair key_type seed;
           verkey_bytes ← get_public_bytes keypair;
           let verkey := bytes_to_b58 verkey_bytes in
           try_except
             (match keypair with
              | Some k => Session.insert_key verkey k (Some (JDict metadata))
              | None => raise AttributeError
              end)
             (* update metadata? *)
             (duplicate_passes "Error inserting key");;
           did ← lift (local_did method key_type did verkey_bytes);
           item ← Session.fetch CATEGORY_DID did;
           match item with
           | Some item =>
             let did_info := value_json item in
             if negb (py_eq (dict_get "verkey" did_info) (JStr verkey)) then
               raise DuplicateDID
             else if negb (py_eq (dict_get "metadata" did_info) (JDict metadata))
             then
               let did_info := dict_set "metadata" (JDict metadata) did_info in
               Session.replace CATEGORY_DID did did_info (tags item)
             else mret ()
           | None =>
             Session.insert CATEGORY_DID did
               [("did", JStr did);
                ("method", JStr (method_name method));
                ("verkey", JStr verkey);
                ("verkey_type", JStr (key_type_name key_type));
                ("metadata", JDict metadata)]
               [("method", JStr (method_name method));
                ("verkey", JStr verkey);
                ("verkey_type", JStr (key_type_name key_type))]
           end;;
           mret (did, verkey))
          (askar_error_as "Error when creating local DID");
      mret (mkDIDInfo did verkey metadata method key_type).

(** [rotate_did_keypair_start(did, next_seed)]. *)
Definition rotate_did_keypair_start (did : string) (next_seed : option string)
  : M string :=
  (* Check if DID can rotate keys *)
  let did_method := from_did did in
  if negb (supports_rotation did_method) then
    raise (WalletError
             (Message "DID method '{}' does not support key rotation."
                      [FStr (method_name did_method)]))
  else
    (* create a new key to be rotated to (only did:sov/ED25519 supported for now) *)
    keypair ← create_keypair KeyType.ED25519 next_seed;
    verkey_bytes ← get_public_bytes keypair;
    let verkey := bytes_to_b58 verkey_bytes in
    try_except
      (match keypair with
       | Some k => Session.insert_key verkey k None
       | None => raise AttributeError
       end)
      (duplicate_passes "Error when creating new keypair for local DID");;
    try_except
      (item ← Session.fetch CATEGORY_DID did;
       match item with
       | None =>
         raise (WalletNotFoundError (Message "Unknown DID: {}" [FStr did]))
       | Some item =>
         let entry_val := value_json item in
         match default (JDict []) (dict_lookup "metadata" entry_val) with
         | JDict metadata =>
           let metadata := dict_set "next_verkey" (JStr verkey) metadata in
           let entry_val := dict_set "metadata" (JDict metadata) entry_val in
           Session.replace CATEGORY_DID did entry_val (tags item)
         | _ => raise TypeError (* no item assignment on what is not a dict *)
         end
       end)
      (askar_error_as "Error updating DID metadata");;
    mret verkey.

(** [rotate_did_keypair_apply(did)].  The body has no [return]: the call
    yields [None]. *)
Definition rotate_did_keypair_apply (did : string) : M unit :=
  try_except
    (item ← Session.fetch CATEGORY_DID did;
     match item with
     | None => raise (WalletNotFoundError (Message "Unknown DID: {}" [FStr did]))
     | Some item =>
       let entry_val := value_json item in
       match default (JDict []) (dict_lookup "metadata" entry_val) with
       | JDict metadata =>
         let next_verkey := dict_get "next_verkey" metadata in
         if negb (truthy next_verkey) then raise RotationNotStarted
         else
           let metadata := dict_remove "next_verkey" metadata in
           (* [metadata] is the object held by [entry_val] *)
           let entry_val := dict_set "metadata" (JDict metadata) entry_val in
           let entry_val := dict_set "verkey" next_verkey entry_val in
           let tags' := dict_set "verkey" next_verkey (tags item) in
           Session.replace CATEGORY_DID did entry_val tags'
       | _ => raise AttributeError (* no [get] on what is not a dict *)
       end
     end)
    (askar_error_as "Error updating DID metadata").

(** [pack_message(message, to_verkeys, from_verkey)]. *)
Definition pack_message (message : option string) (to_verkeys : list string)
    (from_verkey : option string) : M bytes :=
  match message with
  | None => raise (WalletError (literal "Message not provided"))
  | Some message =>
    try_except
      (from_key ←
         (if str_opt_truthy from_verkey then
            from_key_entry ← Session.fetch_key (default "" from_verkey);
            match from_key_entry with
            | None =>
              raise (WalletNotFoundError
                       (literal "Missing key for pack operation"))
            | Some e => mret (Some (key e))
            end
          else mret None);
       (* aead_encrypt takes the str as its UTF-8 bytes *)
       pack_message to_verkeys from_key (encode_utf8 message))
      (askar_error_as "Exception when packing message")
  end.

(** [unpack_message(enc_message)]; the result is
    [(message, from_verkey, to_verkey)]. *)
Definition unpack_message (enc_message : option bytes)
  : M (string * option string * string) :=
  if negb (bytes_opt_truthy enc_message) then
    raise (WalletError (literal "Message not provided"))
  else
    '(unpacked_json, recipient, sender) ←
      try_except (unpack_message (default [] enc_message))
                 (askar_error_as "Exception when unpacking message");
    message ← lift (decode_utf8 unpacked_json);
    mret (message, sender, recipient).

End Methods.
Section Keys.
Context `{Askar} `{Helpers}.

(** [create_signing_key(key_type, seed, metadata)].  The metadata is stored
    as the text [json.dumps] gives, represented by the value it denotes. *)
Definition create_signing_key (key_type : KeyType.t) (seed : option string)
    (metadata : option dict) : M KeyInfo :=
  let metadata := default [] metadata in
  verkey ←
    try_except
      (keypair ← create_keypair key_type seed;
       verkey_bytes ← get_public_bytes keypair;
       let verkey := bytes_to_b58 verkey_bytes in
       match keypair with
       | Some k => Session.insert_key verkey k (Some (JDict metadata))
       | None => raise AttributeError
       end;;
       mret verkey)
      (λ err, match err with
              | AskarError code =>
                Some (if decide (code = AskarErrorCode.DUPLICATE) then
                        raise (WalletDuplicateError
                                 (literal "Verification key already present in wallet"))
                      else raise (WalletError (literal "Error creating signing key")))
              | _ => None
              end);
  mret (mkKeyInfo verkey (JDict metadata) key_type).

(** [get_signing_key(verkey)]: [json.loads(key.metadata or "{}")] is the
    stored value, or [{}] when the key was stored without metadata. *)
Definition get_signing_key (verkey : string) : M KeyInfo :=
  if negb (str_truthy verkey) then
    raise (WalletNotFoundError (literal "No key identifier provided"))
  else
    key ← Session.fetch_key verkey;
    match key with
    | None =>
      raise (WalletNotFoundError (Message "Unknown key: {}" [FStr verkey]))
    | Some key =>
      let metadata := default (JDict []) (key_metadata key) in
      (* FIXME implement key types *)
      mret (mkKeyInfo verkey metadata KeyType.ED25519)
    end.

(** [replace_signing_key_metadata(verkey, metadata)]. *)
Definition replace_signing_key_metadata (verkey : string)
    (metadata : option dict) : M unit :=
  if negb (str_truthy verkey) then
    raise (WalletNotFoundError (literal "No key identifier provided"))
  else
    key ← Session.fetch_key verkey;
    match key with
    | None => raise (WalletNotFoundError (literal "Keypair not found"))
    | Some _ =>
      let metadata := default [] metadata in
      Handle.update_key verkey (Some (JDict metadata))
    end.

End Keys.

Section DIDs.
Context `{Askar} `{Helpers} `{Lookups}.

(** [get_local_dids()]. *)
Definition get_local_dids : M (list StoredDIDInfo) :=
  items ← Handle.fetch_all CATEGORY_DID [] None;
  lift (load_did_entries items []).

(** [get_local_did(did)].  The name [did] is bound again to what [fetch]
    returned, so the text of the unknown-DID error is formatted from
    [None]. *)
Definition get_local_did (did : string) : M StoredDIDInfo :=
  if negb (str_truthy did) then
    raise (WalletNotFoundError (literal "No identifier provided"))
  else
    did ← try_except (Session.fetch CATEGORY_DID did)
            (askar_error_as "Error when fetching local DID");
    match did with
    | None =>
      raise (WalletNotFoundError (Message "Unknown DID: {}" [FObj JNull]))
    | Some did => lift (_load_did_entry did)
    end.

(** [get_local_did_for_verkey(verkey)]. *)
Definition get_local_did_for_verkey (verkey : string) : M StoredDIDInfo :=
  dids ← try_except
           (Handle.fetch_all CATEGORY_DID [("verkey", verkey)] (Some 1))
           (askar_error_as "Error when fetching local DID for verkey");
  match dids with
  | did :: _ => lift (_load_did_entry did)
  | [] =>
    raise (WalletNotFoundError
             (Message "No DID defined for verkey: {}" [FStr verkey]))
  end.

(** [replace_local_did_metadata(did, metadata)]. *)
Definition replace_local_did_metadata (did : string) (metadata : dict)
  : M unit :=
  try_except
    (item ← Session.fetch CATEGORY_DID did;
     match item with
     | None => raise (WalletNotFoundError (Message "Unknown DID: {}" [FStr did]))
     | Some item =>
       let entry_val := value_json item in
       match dict_lookup "metadata" entry_val with
       | None => raise KeyError
       | Some stored =>
         if negb (py_eq stored (JDict metadata)) then
           let entry_val := dict_set "metadata" (JDict metadata) entry_val in
           Session.replace CATEGORY_DID did entry_val (tags item)
         else mret ()
       end
     end)
    (askar_error_as "Error updating DID metadata").

End DIDs.

Section Signatures.
Context `{Askar} `{Helpers} `{!Signing}.

(** [sign_message(message, from_verkey)]. *)
Definition sign_message (message : signable) (from_verkey : string) : M bytes :=
  if negb (signable_truthy message) then
    raise (WalletError (literal "Message not provided"))
  else if negb (str_truthy from_verkey) then
    raise (WalletError (literal "Verkey not provided"))
  else
    try_except
      (keypair ← Session.fetch_key from_verkey;
       match keypair with
       | None =>
         raise (WalletNotFoundError (literal "Missing key for sign operation"))
       | Some keypair => lift (Key_sign_message (key keypair) message)
       end)
      (askar_error_as "Exception when signing message").

(** [verify_message(message, signature, from_verkey, key_type)]. *)
Definition verify_message (message : signable) (signature : bytes)
    (from_verkey : string) (key_type : KeyType.t) : M bool :=
  if negb (str_truthy from_verkey) then
    raise (WalletError (literal "Verkey not provided"))
  else if negb (bytes_truthy signature) then
    raise (WalletError (literal "Signature not provided"))
  else if negb (signable_truthy message) then
    raise (WalletError (literal "Message not provided"))
  else
    verkey ← lift (b58_to_bytes from_verkey);
    try_except
      (pk ← lift (Key_from_public_bytes KeyAlg.ED25519 verkey);
       lift (Key_verify_signature pk message signature))
      (askar_error_as "Exception when verifying message signature").

End Signatures.

End AskarWallet.

(** ** What the proofs assume of the collaborators *)

Section Assumptions.
Context `{Askar} `{Helpers}.

(** An Ed25519 signing key pair, as [create_keypair] makes them. *)
Inductive ed25519_keypair : Key → Prop :=
| keypair_generated g k g' :
    Key_generate KeyAlg.ED25519 g = (Ok k, g') → ed25519_keypair k
| keypair_from_secret b k :
    Key_from_secret_bytes KeyAlg.ED25519 b = Ok k → ed25519_keypair k.

(** [k] is the local key pair of [verkey]: the pair whose public bytes
    [verkey] is the base58 text of. *)
Definition keypair_of (k : Key) (verkey : string) : Prop :=
  ed25519_keypair k ∧
  ∃ pub, Key_get_public_bytes k = Ok pub ∧ bytes_to_b58 pub = verkey.

(** [vk] is the base58 text of an Ed25519 public key, which has a key
    agreement form. *)
Definition valid_verkey (vk : string) : Prop :=
  ∃ b pk xk, b58_to_bytes vk = Ok b ∧
    Key_from_public_bytes KeyAlg.ED25519 b = Ok pk ∧
    Key_convert_key pk KeyAlg.X25519 = Ok xk.

(** The header dictionaries of the wire format hold text only. *)
Definition text_dict (d : dict) : Prop :=
  Forall (λ kv, ∃ s, kv.2 = JStr s) d.

Definition text_envelope (w : JweEnvelope) : Prop :=
  text_dict (protected w) ∧ Forall (λ r, text_dict (header r)) (recipients w).

Class WalletLaws : Prop := {
  (* base58 and base64url text *)
  b58_roundtrip : ∀ b, b58_to_bytes (bytes_to_b58 b) = Ok b;
  b58_nonempty : ∀ b, b ≠ [] → bytes_to_b58 b ≠ "";
  b58_text : ∀ b, utf8_valid (encode_utf8 (bytes_to_b58 b)) = true;
  b64_roundtrip : ∀ b, b64_to_bytes (b64url b) = Ok b;
  (* the envelope codec reads back what it wrote *)
  codec_roundtrip : ∀ w,
    recipients w ≠ [] → text_envelope w →
    protected_bytes w = serialize_protected (protected w) →
    from_json (encode_utf8 (to_json w)) = Ok w;
  (* keys *)
  public_bytes_nonempty : ∀ k pub, Key_get_public_bytes k = Ok pub → pub ≠ [];
  keypair_forms : ∀ k, ed25519_keypair k →
    ∃ pub pk xsk xpk,
      Key_get_public_bytes k = Ok pub ∧
      Key_from_public_bytes KeyAlg.ED25519 pub = Ok pk ∧
      Key_convert_key k KeyAlg.X25519 = Ok xsk ∧
      Key_convert_key pk KeyAlg.X25519 = Ok xpk;
  (* the content-encryption key and the AEAD *)
  content_key : ∀ g, ∃ cek g' cek_b cek',
    Key_generate KeyAlg.C20P g = (Ok cek, g') ∧
    key_get_secret_bytes cek = Ok cek_b ∧ cek_b ≠ [] ∧
    Key_from_secret_bytes KeyAlg.C20P cek_b = Ok cek' ∧
    ∀ g1 m aad, ∃ n g2 c,
      Key_aead_random_nonce cek g1 = (Ok n, g2) ∧
      Key_aead_encrypt cek m n aad = Ok c ∧
      Key_aead_decrypt cek' c n aad = Ok m;
  (* sealed boxes *)
  seal_total : ∀ pk xpk m g,
    Key_convert_key pk KeyAlg.X25519 = Ok xpk →
    ∃ c g', crypto_box_seal xpk m g = (Ok c, g') ∧ c ≠ [];
  seal_open : ∀ k pub pk xsk xpk m g c g',
    ed25519_keypair k →
    Key_get_public_bytes k = Ok pub →
    Key_from_public_bytes KeyAlg.ED25519 pub = Ok pk →
    Key_convert_key k KeyAlg.X25519 = Ok xsk →
    Key_convert_key pk KeyAlg.X25519 = Ok xpk →
    crypto_box_seal xpk m g = (Ok c, g') →
    crypto_box_seal_open xsk c = Ok m;
  (* authenticated boxes *)
  box_nonce : ∀ g, ∃ n g', crypto_box_random_nonce g = (Ok n, g') ∧ n ≠ [];
  box_total : ∀ pk xpk s xsk m n g g',
    Key_convert_key pk KeyAlg.X25519 = Ok xpk →
    ed25519_keypair s → Key_convert_key s KeyAlg.X25519 = Ok xsk →
    crypto_box_random_nonce g = (Ok n, g') →
    ∃ c, crypto_box xpk xsk m n = Ok c;
  box_open : ∀ r pub_r pk_r xsk_r xpk_r s pub_s pk_s xsk_s xpk_s m n c,
    ed25519_keypair r →
    Key_get_public_bytes r = Ok pub_r →
    Key_from_public_bytes KeyAlg.ED25519 pub_r = Ok pk_r →
    Key_convert_key r KeyAlg.X25519 = Ok xsk_r →
    Key_convert_key pk_r KeyAlg.X25519 = Ok xpk_r →
    ed25519_keypair s →
    Key_get_public_bytes s = Ok pub_s →
    Key_from_public_bytes KeyAlg.ED25519 pub_s = Ok pk_s →
    Key_convert_key s KeyAlg.X25519 = Ok xsk_s →
    Key_convert_key pk_s KeyAlg.X25519 = Ok xpk_s →
    crypto_box xpk_r xsk_s m n = Ok c →
    crypto_box_open xsk_r xpk_s c n = Ok m;
}.

End Assumptions.

(** ** What the proofs assume of signatures and of the lookups by name *)

Section MoreAssumptions.
Context `{Askar} `{Helpers} `{!Signing} `{Lookups}.

(** A key pair signs every [bytes] message, and what it signed verifies
    under its public key.  Nothing is assumed of a list of messages, which
    [Key.sign_message] does not take. *)
Class SigningLaws : Prop := {
  sign_total : ∀ k message, ed25519_keypair k →
    ∃ s, Key_sign_message k (One message) = Ok s ∧ s ≠ [];
  sign_verify : ∀ k pub pk m s,
    ed25519_keypair k →
    Key_get_public_bytes k = Ok pub →
    Key_from_public_bytes KeyAlg.ED25519 pub = Ok pk →
    Key_sign_message k m = Ok s →
    Key_verify_signature pk m s = Ok true;
}.

(** The lookups by name find the two methods the wallet stores and every
    key type under the names the records are written with. *)
Class LookupLaws : Prop := {
  from_method_name : ∀ method,
    method ∈ [DIDMethod.SOV; DIDMethod.KEY] →
    from_method (JStr (method_name method)) = Some method;
  from_key_type_name : ∀ key_type,
    from_key_type (JStr (key_type_name key_type)) = Some key_type;
}.

End MoreAssumptions.

(** ** Recipient resolution as the specification words it *)

Section Resolution.
Context `{Askar} `{Helpers}.

(** The first entry, in the order of the envelope, whose [kid] names a key
    the store holds. *)
Fixpoint first_match (held : gmap string KeyEntry)
    (recips : list (string * RecipDetails))
  : option (string * RecipDetails * KeyEntry) :=
  match recips with
  | [] => None
  | (kid, details) :: rest =>
    match held !! kid with
    | Some entry => Some (kid, details, entry)
    | None => first_match held rest
    end
  end.

(** The [kid]s up to and including the first one the store holds. *)
Fixpoint tried (held : gmap string KeyEntry) (kids : list string) : list string :=
  match kids with
  | [] => []
  | kid :: rest =>
    match held !! kid with
    | Some _ => [kid]
    | None => kid :: tried held rest
    end
  end.

(** Steps 3 to 8 of section 4.3 on a decoded envelope. *)
Definition unpack_first_match (held : gmap string KeyEntry)
    (wrapper : JweEnvelope) (is_authcrypt : bool)
    (recips : list (string * RecipDetails))
  : result (bytes * string * option string) :=
  match first_match held recips with
  | None => Raise (NoMatchingKey recips.*1)
  | Some (kid, details, entry) =>
    result_bind (extract_payload_key details (key entry)) (λ '(cek, sender_vk),
      unpack_payload wrapper is_authcrypt recips (Some cek) sender_vk (Some kid))
  end.

(** The world after [names] were looked up. *)
Definition logged (w : World) (names : list string) : World :=
  mkWorld (entropy w) (keys w) (items w) (fetch_log w ++ names).

End Resolution.

(** ** The vocabulary of the statements *)

Section Vocabulary.
Context `{Askar} `{Helpers}.

(** The [kid] of a recipient entry, when its header has one as text. *)
Definition kid_of (r : JweRecipient) : option string :=
  match dict_lookup "kid" (header r) with
  | Some (JStr kid) => Some kid
  | _ => None
  end.

(** The protected header [pack_message] sets. *)
Definition protected_header (from_key : option Key) : dict :=
  [("enc", JStr "xchacha20poly1305_ietf");
   ("typ", JStr "JWM/1.0");
   ("alg", JStr (if from_key is Some _ then "Authcrypt" else "Anoncrypt"))].

(** The entry one round of the loop adds for [target_vk]. *)
Definition packed_entry (cek_b : bytes) (sender_vk : option bytes)
    (sender_xk : option Key) (target_vk : string) (r : JweRecipient) : Prop :=
  ∃ b pk xk,
    b58_to_bytes target_vk = Ok b ∧
    Key_from_public_bytes KeyAlg.ED25519 b = Ok pk ∧
    Key_convert_key pk KeyAlg.X25519 = Ok xk ∧
    if bytes_opt_truthy sender_vk then
      ∃ svk sxk enc_sender nonce g1 g1' g2 g2',
        sender_vk = Some svk ∧ sender_xk = Some sxk ∧
        crypto_box_seal xk svk g1 = (Ok enc_sender, g1') ∧
        crypto_box_random_nonce g2 = (Ok nonce, g2') ∧
        crypto_box xk sxk cek_b nonce = Ok (encrypted_key r) ∧
        header r = [("kid", JStr target_vk);
                    ("sender", JStr (b64url enc_sender));
                    ("iv", JStr (b64url nonce))]
    else
      ∃ g g',
        crypto_box_seal xk cek_b g = (Ok (encrypted_key r), g') ∧
        header r = [("kid", JStr target_vk)].

(** [w] after [add_recipient] for each entry of [rs] in turn. *)
Definition add_recipients (w : JweEnvelope) (rs : list JweRecipient)
  : JweEnvelope :=
  mkJweEnvelope (protected w) (protected_bytes w) (recipients w ++ rs)
                (iv w) (ciphertext w) (tag w).

(** The run of [pack_message] read backwards: what was drawn and computed
    on the way to the envelope. *)
Definition packed (to_verkeys : list string) (from_key : option Key)
    (message : bytes) (env : JweEnvelope) : Prop :=
  ∃ g g' cek cek_b sender_vk sender_xk g1 g1' nonce c,
    Key_generate KeyAlg.C20P g = (Ok cek, g') ∧
    key_get_secret_bytes cek = Ok cek_b ∧
    match from_key with
    | Some k =>
      ∃ pub xk, Key_get_public_bytes k = Ok pub ∧
        Key_convert_key k KeyAlg.X25519 = Ok xk ∧
        sender_vk = Some (encode_utf8 (bytes_to_b58 pub)) ∧ sender_xk = Some xk
    | None => sender_vk = None ∧ sender_xk = None
    end ∧
    Forall2 (packed_entry cek_b sender_vk sender_xk) to_verkeys (recipients env) ∧
    Key_aead_random_nonce cek g1 = (Ok nonce, g1') ∧
    Key_aead_encrypt cek message nonce (protected_bytes env) = Ok c ∧
    env = mkJweEnvelope (protected_header from_key)
            (serialize_protected (protected_header from_key))
            (recipients env) nonce (slice_but_last 16 c) (slice_last 16 c).

(** The sender, when there is one, is a key pair of the wallet. *)
Definition sender_ready (from_key : option Key) : Prop :=
  if from_key is Some k then ed25519_keypair k else True.

(** The header fields of the entry for [target_vk]: [kid] always; [sender]
    and [iv] exactly in Authcrypt mode. *)
Definition entry_shape (from_key : option Key) (target_vk : string)
    (r : JweRecipient) : Prop :=
  dict_lookup "kid" (header r) = Some (JStr target_vk) ∧
  if from_key is Some _ then
    (∃ s, dict_lookup "sender" (header r) = Some (JStr s)) ∧
    (∃ i, dict_lookup "iv" (header r) = Some (JStr i))
  else
    dict_lookup "sender" (header r) = None ∧
    dict_lookup "iv" (header r) = None.

(** What [extract_pack_recipients] reads back from a packed entry. *)
Definition packed_details (cek_b : bytes) (sender_vk : option bytes)
    (sender_xk : option Key) (target_vk : string) (d : RecipDetails) : Prop :=
  ∃ b pk xk,
    b58_to_bytes target_vk = Ok b ∧
    Key_from_public_bytes KeyAlg.ED25519 b = Ok pk ∧
    Key_convert_key pk KeyAlg.X25519 = Ok xk ∧
    if bytes_opt_truthy sender_vk then
      ∃ svk sxk enc_sender nonce g1 g1' g2 g2',
        sender_vk = Some svk ∧ sender_xk = Some sxk ∧
        crypto_box_seal xk svk g1 = (Ok enc_sender, g1') ∧
        crypto_box_random_nonce g2 = (Ok nonce, g2') ∧
        crypto_box xk sxk cek_b nonce = Ok (recip_key d) ∧
        recip_sender d = Some enc_sender ∧ recip_nonce d = Some nonce
    else
      ∃ g g',
        crypto_box_seal xk cek_b g = (Ok (recip_key d), g') ∧
        recip_sender d = None ∧ recip_nonce d = None.

(** The base64url text of bytes is empty for no bytes only, so that a
    header field [pack_message] wrote is there for the reader
    ([if sender_b64], [if nonce_b64]). *)
Definition b64url_text : Prop := ∀ b, b ≠ [] → b64url b ≠ "".

(** The sender verkey a recipient learns. *)
Definition sender_verkey (from_key : option Key) : option string :=
  match from_key with
  | Some k =>
    match Key_get_public_bytes k with
    | Ok pub => Some (bytes_to_b58 pub)
    | Raise _ => None
    end
  | None => None
  end.

(** Whether [extract_payload_key] takes its sender branch on an entry
    ([if sender_cek["nonce"] and sender_cek["sender"]]). *)
Definition carries_sender (d : RecipDetails) : bool :=
  bytes_opt_truthy (recip_nonce d) && bytes_opt_truthy (recip_sender d).

(** A record with no rotation pending: its metadata, when it has any, is a
    dictionary without [next_verkey]. *)
Definition no_next_verkey (entry : Entry) : Prop :=
  match dict_lookup "metadata" (value_json entry) with
  | None => True
  | Some (JDict metadata) => dict_lookup "next_verkey" metadata = None
  | Some _ => False
  end.

(** The record [rotate_did_keypair_apply] writes for a pending [next_verkey]. *)
Definition rotated (entry : Entry) (metadata : dict) (next_verkey : json)
  : Entry :=
  mkEntry
    (dict_set "verkey" next_verkey
       (dict_set "metadata" (JDict (dict_remove "next_verkey" metadata))
          (value_json entry)))
    (dict_set "verkey" next_verkey (tags entry)).

(** The store of [w] with [entry] as the DID record [name]. *)
Definition with_item (w : World) (name : string) (entry : Entry) : World :=
  mkWorld (entropy w) (keys w) (<[(CATEGORY_DID, name) := entry]> (items w))
          (fetch_log w).

End Vocabulary.

(** ** The vocabulary of the further statements *)

Section Stores.
Context `{Askar} `{Helpers}.

(** A call that leaves the store and the random source as they were,
    whatever it returns or raises. *)
Definition reads_only {A} (m : M A) : Prop :=
  ∀ w, keys (m w).2 = keys w ∧ items (m w).2 = items w ∧
       entropy (m w).2 = entropy w.

(** A call that leaves the store as it was, and looks no key up. *)
Definition draws_only {A} (m : M A) : Prop :=
  ∀ w, keys (m w).2 = keys w ∧ items (m w).2 = items w ∧
       fetch_log (m w).2 = fetch_log w.

(** A call started where [P] holds ends where [Q] holds of what it
    returned, or where [E] holds when it raised. *)
Definition hoare {A} (P : World → Prop) (m : M A)
    (Q : A → World → Prop) (E : World → Prop) : Prop :=
  ∀ w, P w → match m w with
             | (Ok a, w') => Q a w'
             | (Raise _, w') => E w'
             end.

(** A call that keeps [I], whatever it returns or raises. *)
Definition keeps {A} (I : World → Prop) (m : M A) : Prop :=
  hoare I m (λ _, I) I.

(** The [DIDInfo] that [create_local_did] returns, with the field types
    of a loaded one. *)
Definition stored (info : DIDInfo) : StoredDIDInfo :=
  mkStoredDIDInfo (JStr (did_of info)) (JStr (verkey_of info))
    (JDict (metadata_of info)) (Some (method_of info)) (Some (key_type_of info)).

(** The record is tagged with the verkey it names. *)
Definition tag_agrees (entry : Entry) : Prop :=
  dict_lookup "verkey" (tags entry) = dict_lookup "verkey" (value_json entry).

(** Every DID record of the store is. *)
Definition tags_agree (w : World) : Prop :=
  ∀ name entry, items w !! (CATEGORY_DID, name) = Some entry → tag_agrees entry.

(** The store of [w] with [k] under [name], unless [name] is taken. *)
Definition with_key (w : World) (name : string) (e : KeyEntry) : World :=
  mkWorld (entropy w)
          (if keys w !! name is Some _ then keys w else <[name := e]> (keys w))
          (items w) (fetch_log w).

(** The record carries the verkey as its tag. *)
Definition tagged (verkey : string) (entry : Entry) : Prop :=
  dict_lookup "verkey" (tags entry) = Some (JStr verkey).

(** The record [create_local_did] inserts for a new DID. *)
Definition new_did_record (did : string) (method : DIDMethod.t)
    (key_type : KeyType.t) (verkey : string) (metadata : dict) : Entry :=
  mkEntry [("did", JStr did);
           ("method", JStr (method_name method));
           ("verkey", JStr verkey);
           ("verkey_type", JStr (key_type_name key_type));
           ("metadata", JDict metadata)]
          [("method", JStr (method_name method));
           ("verkey", JStr verkey);
           ("verkey_type", JStr (key_type_name key_type))].

(** A record with its metadata replaced. *)
Definition with_metadata (entry : Entry) (metadata : dict) : Entry :=
  mkEntry (dict_set "metadata" (JDict metadata) (value_json entry)) (tags entry).

End Stores.

(** ** A reference implementation of the collaborators

    A simple, insecure implementation of [Askar] and [Helpers]: keys are
    byte strings that serve as their own public half, every "encryption"
    frames its inputs so that opening can check them, base58 and base64url
    are hexadecimal.  It shows that [WalletLaws] can be met and gives the
    theorems concrete inputs to run on. *)

Module Sim.

#[global] Instance byte_countable : Countable byte :=
  inj_countable Byte.to_N Byte.of_N Byte.of_to_N.

(** A positive number as binary digits, least significant first. *)
Fixpoint pos_digits (p : positive) : bytes :=
  match p with
  | xH => []
  | xO p' => "0"%byte :: pos_digits p'
  | xI p' => "1"%byte :: pos_digits p'
  end.

Fixpoint digits_pos (bs : bytes) : option positive :=
  match bs with
  | [] => Some xH
  | b :: bs' =>
    if decide (b = "0"%byte) then xO <$> digits_pos bs'
    else if decide (b = "1"%byte) then xI <$> digits_pos bs'
    else None
  end.

(** A framing of any countable value as bytes; never empty. *)
Definition pickle `{Countable A} (a : A) : bytes :=
  "#"%byte :: pos_digits (encode a).

Definition unpickle `{Countable A} (bs : bytes) : option A :=
  match bs with
  | b :: ds => if decide (b = "#"%byte) then digits_pos ds ≫= decode else None
  | [] => None
  end.

(** Hexadecimal text. *)
Definition hex_digit (n : N) : byte :=
  default "0"%byte (Byte.of_N (if (n <? 10)%N then 48 + n else 87 + n)).

Definition hex_value (b : byte) : option N :=
  let n := Byte.to_N b in
  if (48 <=? n)%N && (n <=? 57)%N then Some (n - 48)%N
  else if (97 <=? n)%N && (n <=? 102)%N then Some (n - 87)%N
  else None.

Fixpoint hex_encode (bs : bytes) : bytes :=
  match bs with
  | [] => []
  | b :: bs' =>
    hex_digit (Byte.to_N b / 16) :: hex_digit (Byte.to_N b mod 16)
    :: hex_encode bs'
  end.

Fixpoint hex_decode (bs : bytes) : option bytes :=
  match bs with
  | [] => Some []
  | h :: l :: bs' =>
    hi ← hex_value h; lo ← hex_value l;
    b ← Byte.of_N (16 * hi + lo);
    (b ::.) <$> hex_decode bs'
  | _ => None
  end.

Definition to_hex (b : bytes) : string := string_of_list_byte (hex_encode b).
Definition of_hex (s : string) : result bytes :=
  match hex_decode (list_byte_of_string s) with
  | Some b => Ok b
  | None => Raise ValueError
  end.

(** Keys. *)
Record sim_key : Type := SimKey {
  sim_alg : KeyAlg.t;
  sim_secret : bool;
  sim_bytes : bytes;
}.

Definition fresh (g : nat) : bytes := "*"%byte :: pos_digits (Pos.of_succ_nat g).

Definition failed {A} (code : AskarErrorCode.t) : result A :=
  Raise (AskarError code).

Definition sim_from_bytes (secret : bool) (alg : KeyAlg.t) (b : bytes)
  : result sim_key :=
  if decide (b = []) then failed AskarErrorCode.INPUT
  else Ok (SimKey alg secret b).

Definition sim_convert_key (k : sim_key) (alg : KeyAlg.t) : result sim_key :=
  if decide (sim_alg k = KeyAlg.ED25519 ∧ alg = KeyAlg.X25519)
  then Ok (SimKey KeyAlg.X25519 (sim_secret k) (sim_bytes k))
  else failed AskarErrorCode.UNSUPPORTED.

Definition sim_get_public_bytes (k : sim_key) : result bytes :=
  if decide (sim_alg k = KeyAlg.C20P ∨ sim_bytes k = [])
  then failed AskarErrorCode.INPUT
  else Ok (sim_bytes k).

Definition sim_get_secret_bytes (k : sim_key) : result bytes :=
  if sim_secret k then Ok (sim_bytes k) else failed AskarErrorCode.INPUT.

Definition sim_aead_encrypt (k : sim_key) (message nonce aad : bytes)
  : result bytes :=
  if decide (sim_alg k = KeyAlg.C20P ∧ sim_secret k = true)
  then Ok (pickle (sim_bytes k, nonce, aad, message))
  else failed AskarErrorCode.UNSUPPORTED.

Definition sim_aead_decrypt (k : sim_key) (ciphertext nonce aad : bytes)
  : result bytes :=
  match unpickle ciphertext with
  | Some (kb, nonce', aad', message) =>
    if decide (sim_alg k = KeyAlg.C20P ∧ sim_secret k = true ∧
               kb = sim_bytes k ∧ nonce' = nonce ∧ aad' = aad)
    then Ok message else failed AskarErrorCode.ENCRYPTION
  | None => failed AskarErrorCode.ENCRYPTION
  end.

Definition sim_box (recip sender : sim_key) (message nonce : bytes)
  : result bytes :=
  if decide (sim_alg recip = KeyAlg.X25519 ∧ sim_alg sender = KeyAlg.X25519 ∧
             sim_secret sender = true)
  then Ok (pickle (sim_bytes recip, sim_bytes sender, nonce, message))
  else failed AskarErrorCode.UNSUPPORTED.

Definition sim_box_open (recip sender : sim_key) (ciphertext nonce : bytes)
  : result bytes :=
  match unpickle ciphertext with
  | Some (rb, sb, nonce', message) =>
    if decide (sim_alg recip = KeyAlg.X25519 ∧ sim_secret recip = true ∧
               rb = sim_bytes recip ∧ sb = sim_bytes sender ∧ nonce' = nonce)
    then Ok message else failed AskarErrorCode.ENCRYPTION
  | None => failed AskarErrorCode.ENCRYPTION
  end.

Definition sim_seal (recip : sim_key) (message : bytes) (g : nat)
  : result bytes * nat :=
  if decide (sim_alg recip = KeyAlg.X25519)
  then (Ok (pickle (sim_bytes recip, message)), S g)
  else (failed AskarErrorCode.UNSUPPORTED, g).

Definition sim_seal_open (recip : sim_key) (ciphertext : bytes) : result bytes :=
  match unpickle ciphertext with
  | Some (rb, message) =>
    if decide (sim_alg recip = KeyAlg.X25519 ∧ sim_secret recip = true ∧
               rb = sim_bytes recip)
    then Ok message else failed AskarErrorCode.ENCRYPTION
  | None => failed AskarErrorCode.ENCRYPTION
  end.

#[local] Instance askar : Askar := {|
  Key := sim_key;
  Entropy := nat;
  Key_generate alg g := (Ok (SimKey alg true (fresh g)), S g);
  Key_from_seed alg seed := Ok (SimKey alg true ("s"%byte :: encode_utf8 seed));
  Key_from_secret_bytes := sim_from_bytes true;
  Key_from_public_bytes := sim_from_bytes false;
  Key_convert_key := sim_convert_key;
  Key_get_public_bytes := sim_get_public_bytes;
  key_get_secret_bytes := sim_get_secret_bytes;
  Key_aead_random_nonce _ g := (Ok (fresh g), S g);
  Key_aead_encrypt := sim_aead_encrypt;
  Key_aead_decrypt := sim_aead_decrypt;
  crypto_box_random_nonce g := (Ok (fresh g), S g);
  crypto_box := sim_box;
  crypto_box_open := sim_box_open;
  crypto_box_seal := sim_seal;
  crypto_box_seal_open := sim_seal_open;
|}.

(** The envelope codec: the text fields of the dictionaries are framed. *)
Definition flatten (d : dict) : list (string * string) :=
  omap (λ kv, match kv.2 with JStr s => Some (kv.1, s) | _ => None end) d.

Definition unflatten (d : list (string * string)) : dict :=
  map (λ kv, (kv.1, JStr kv.2)) d.

Definition flat_envelope (w : JweEnvelope) :=
  (flatten (protected w), protected_bytes w,
   map (λ r, (encrypted_key r, flatten (header r))) (recipients w),
   iv w, ciphertext w, tag w).

Definition sim_to_json (w : JweEnvelope) : string :=
  string_of_list_byte (pickle (flat_envelope w)).

Definition sim_from_json (bs : bytes) : result JweEnvelope :=
  match unpickle bs with
  | Some (p, pb, rs, iv', ct, tag') =>
    Ok (mkJweEnvelope (unflatten p) pb
          (map (λ r, mkJweRecipient r.1 (unflatten r.2)) rs) iv' ct tag')
  | None => Raise ValidationError
  end.

#[local] Instance helpers : Helpers := {|
  b58_to_bytes := of_hex;
  bytes_to_b58 := to_hex;
  b64url := to_hex;
  b64_to_bytes := of_hex;
  validate_seed seed :=
    if decide (String.length seed = 32) then Ok (encode_utf8 seed)
    else Raise (WalletError (literal "Seed value must be 32 bytes in length"));
  supports_key_type method key_type :=
    match method with
    | DIDMethod.SOV => bool_decide (key_type = KeyType.ED25519)
    | DIDMethod.KEY => true
    | DIDMethod.Other _ => false
    end;
  supports_rotation method := bool_decide (method = DIDMethod.SOV);
  method_name method :=
    match method with
    | DIDMethod.SOV => "sov"
    | DIDMethod.KEY => "key"
    | DIDMethod.Other name => name
    end;
  from_did did :=
    if String.prefix "did:key:" did then DIDMethod.KEY else DIDMethod.SOV;
  key_type_name key_type :=
    match key_type with
    | KeyType.ED25519 => "ed25519"
    | KeyType.BLS12381G1 => "bls12381g1"
    | KeyType.BLS12381G2 => "bls12381g2"
    | KeyType.BLS12381G1G2 => "bls12381g1g2"
    end;
  DIDKey_from_public_key public_key _ := Ok ("did:key:z" +:+ to_hex public_key);
  serialize_protected d :=
    concat (map (λ kv, encode_utf8 (kv.1 +:+ "=" +:+ kv.2 +:+ ";")) (flatten d));
  to_json := sim_to_json;
  from_json := sim_from_json;
|}.

(** An empty store. *)
Definition world0 : World := mkWorld 0 ∅ ∅ [].

(** A store holding the key pairs of [ks], each under its verkey. *)
Definition holding (ks : list sim_key) : World :=
  mkWorld 0
    (list_to_map (map (λ k, (to_hex (sim_bytes k), mkKeyEntry k None)) ks))
    ∅ [].

(** Signatures: the signer's bytes framed with what was signed.  A list
    of messages is not an argument the primitives take. *)
Definition sim_sign (k : sim_key) (m : signable) : result bytes :=
  match m with
  | One b =>
    if decide (sim_alg k = KeyAlg.ED25519 ∧ sim_secret k = true)
    then Ok (pickle (sim_bytes k, b))
    else failed AskarErrorCode.UNSUPPORTED
  | Many _ => Raise TypeError
  end.

Definition sim_verify (k : sim_key) (m : signable) (s : bytes) : result bool :=
  match m with
  | One b =>
    if decide (sim_alg k = KeyAlg.ED25519)
    then Ok (bool_decide (unpickle s = Some (sim_bytes k, b)))
    else failed AskarErrorCode.UNSUPPORTED
  | Many _ => Raise TypeError
  end.

#[local] Instance signing : Signing := {|
  Key_sign_message := sim_sign;
  Key_verify_signature := sim_verify;
|}.

#[local] Instance lookups : Lookups := {|
  from_method name :=
    match name with
    | JStr s =>
      if decide (s = "sov") then Some DIDMethod.SOV
      else if decide (s = "key") then Some DIDMethod.KEY
      else None
    | _ => None
    end;
  from_key_type name :=
    match name with
    | JStr s =>
      if decide (s = "ed25519") then Some KeyType.ED25519
      else if decide (s = "bls12381g1") then Some KeyType.BLS12381G1
      else if decide (s = "bls12381g2") then Some KeyType.BLS12381G2
      else if decide (s = "bls12381g1g2") then Some KeyType.BLS12381G1G2
      else None
    | _ => None
    end;
|}.

(** The same primitives in a build that has no BLS keys: [Key.from_seed]
    fails, and not with the code [INPUT]. *)
Definition askar_no_bls : Askar := {|
  Key := sim_key;
  Entropy := nat;
  Key_generate alg g := (Ok (SimKey alg true (fresh g)), S g);
  Key_from_seed alg seed := failed AskarErrorCode.UNSUPPORTED;
  Key_from_secret_bytes := sim_from_bytes true;
  Key_from_public_bytes := sim_from_bytes false;
  Key_convert_key := sim_convert_key;
  Key_get_public_bytes := sim_get_public_bytes;
  key_get_secret_bytes := sim_get_secret_bytes;
  Key_aead_random_nonce _ g := (Ok (fresh g), S g);
  Key_aead_encrypt := sim_aead_encrypt;
  Key_aead_decrypt := sim_aead_decrypt;
  crypto_box_random_nonce g := (Ok (fresh g), S g);
  crypto_box := sim_box;
  crypto_box_open := sim_box_open;
  crypto_box_seal := sim_seal;
  crypto_box_seal_open := sim_seal_open;
|}.

End Sim.

(** ** Concrete inputs for the reference implementation *)

Module Inputs.
Import Sim.
#[local] Existing Instance Sim.askar.
#[local] Existing Instance Sim.helpers.

(** The key pair whose secret is the text [name]; its verkey is the
    hexadecimal text of [name] (["41"] for ["A"], ["42"] for ["B"], ...). *)
Definition key_of (name : string) : sim_key :=
  SimKey KeyAlg.ED25519 true (encode_utf8 name).

Definition entry_of (name : string) : KeyEntry := mkKeyEntry (key_of name) None.

Definition hello : bytes := encode_utf8 "hello".

Definition the {A} (d : A) (r : result A) : A :=
  match r with
  | Ok a => a
  | Raise _ => d
  end.

(** The envelope [pack_message] builds, from an empty store. *)
Definition packed_env (to_verkeys : list string) (from_key : option sim_key)
  : JweEnvelope :=
  the JweEnvelope_new (pack_envelope to_verkeys from_key hello world0).1.

Definition wire (env : JweEnvelope) : bytes := encode_utf8 (to_json env).

Definition details (env : JweEnvelope) : list (string * RecipDetails) :=
  the [] (extract_pack_recipients (recipients env)).

(** [env] with its mode set to [alg], the payload encrypted again under the
    new header: what a sender obtains by naming another mode. *)
Definition relabel (alg : string) (env : JweEnvelope) : JweEnvelope :=
  let hdr := dict_set "alg" (JStr alg) (protected env) in
  let aad := serialize_protected hdr in
  let c := the [] (sim_aead_encrypt (SimKey KeyAlg.C20P true (fresh 0))
                     hello (iv env) aad) in
  mkJweEnvelope hdr aad (recipients env) (iv env)
                (slice_but_last 16 c) (slice_last 16 c).

(** [env] with the [sender] and [iv] fields taken out of every entry. *)
Definition without_sender (env : JweEnvelope) : JweEnvelope :=
  mkJweEnvelope (protected env) (protected_bytes env)
    (map (λ r, mkJweRecipient (encrypted_key r)
                 (dict_remove "iv" (dict_remove "sender" (header r))))
         (recipients env))
    (iv env) (ciphertext env) (tag env).

(** A store with one DID record. *)
Definition did_name : string := "WgWxqztrNooG92RXvxSTWv".
Definition seed32 : string := "00000000000000000000000000000001".

Definition did_record (verkey : string) (metadata : dict) : Entry :=
  mkEntry [("did", JStr did_name); ("method", JStr "sov");
           ("verkey", JStr verkey); ("verkey_type", JStr "ed25519");
           ("metadata", JDict metadata)]
          [("method", JStr "sov"); ("verkey", JStr verkey);
           ("verkey_type", JStr "ed25519")].

Definition with_did (verkey : string) (metadata : dict) : World :=
  mkWorld 0 ∅ {[ (CATEGORY_DID, did_name) := did_record verkey metadata ]} [].

(** An empty store of the build that has no BLS keys. *)
Definition world_no_bls : @World askar_no_bls := @mkWorld askar_no_bls 0 ∅ ∅ [].

(** Metadata of a DID that was written to the ledger. *)
Definition posted : dict := [("posted", JBool true)].

End Inputs.

(** * Properties *)

(** ** Running the monad *)

Section Monad.
Context `{Askar}.

Lemma bind_ok {A B} (m : M A) (k : A → M B) w a w' :
  m w = (Ok a, w') → (m ≫= k) w = k a w'.
Proof. intros Hm. unfold mbind, M_bind. by rewrite Hm. Qed.

Lemma bind_raise {A B} (m : M A) (k : A → M B) w e w' :
  m w = (Raise e, w') → (m ≫= k) w = (Raise e, w').
Proof. intros Hm. unfold mbind, M_bind. by rewrite Hm. Qed.

Lemma bind_inv {A B} (m : M A) (k : A → M B) w b w' :
  (m ≫= k) w = (Ok b, w') →
  ∃ a w1, m w = (Ok a, w1) ∧ k a w1 = (Ok b, w').
Proof.
  unfold mbind, M_bind. destruct (m w) as [[a|e] w1]; [eauto | discriminate].
Qed.

Lemma lift_inv {A} (r : result A) w a w' :
  lift r w = (Ok a, w') → r = Ok a ∧ w' = w.
Proof. unfold lift. by intros [= -> ->]. Qed.

Lemma draw_inv {A} (f : Entropy → result A * Entropy) w a w' :
  draw f w = (Ok a, w') →
  ∃ g', f (entropy w) = (Ok a, g') ∧
        w' = mkWorld g' (keys w) (items w) (fetch_log w).
Proof.
  unfold draw. destruct (f (entropy w)) as [r g'] eqn:Hf.
  intros [= -> <-]. eauto.
Qed.

Lemma draw_ok {A} (f : Entropy → result A * Entropy) w a g' :
  f (entropy w) = (Ok a, g') →
  draw f w = (Ok a, mkWorld g' (keys w) (items w) (fetch_log w)).
Proof. intros Hf. unfold draw. by rewrite Hf. Qed.

Lemma mret_inv {A} (a b : A) w w' :
  (mret a : M A) w = (Ok b, w') → a = b ∧ w' = w.
Proof. unfold mret, M_ret. by intros [= -> ->]. Qed.

Lemma logged_nil w : logged w [] = w.
Proof. destruct w. unfold logged. simpl. by rewrite app_nil_r. Qed.

Lemma logged_logged w l1 l2 : logged (logged w l1) l2 = logged w (l1 ++ l2).
Proof. unfold logged. simpl. by rewrite app_assoc. Qed.

Lemma fetch_key_run name w :
  Session.fetch_key name w = (Ok (keys w !! name), logged w [name]).
Proof. reflexivity. Qed.

End Monad.

(** ** Lists, slices and dictionaries *)

Lemma slice_rejoin {A} (n : nat) (l : list A) :
  slice_but_last n l ++ slice_last n l = l.
Proof. unfold slice_but_last, slice_last. apply take_drop. Qed.

Lemma dict_lookup_set_eq {V} k (v : V) d : dict_lookup k (dict_set k v d) = Some v.
Proof.
  induction d as [|[k' v'] d IH]; simpl.
  - by rewrite decide_True.
  - destruct (decide (k' = k)) as [->|Hne]; simpl.
    + by rewrite decide_True.
    + by rewrite decide_False.
Qed.

Lemma dict_lookup_set_ne {V} k k' (v : V) d :
  k ≠ k' → dict_lookup k' (dict_set k v d) = dict_lookup k' d.
Proof.
  intros Hne. induction d as [|[k0 v0] d IH]; simpl.
  - by rewrite decide_False.
  - destruct (decide (k0 = k)) as [->|Hne0]; simpl.
    + by rewrite !decide_False.
    + by rewrite IH.
Qed.

Lemma dict_lookup_remove_eq {V} k (d : list (string * V)) :
  dict_lookup k (dict_remove k d) = None.
Proof.
  unfold dict_remove. induction d as [|[k' v'] d IH]; simpl; [done|].
  rewrite filter_cons. simpl. destruct (decide (k' ≠ k)) as [Hne|Heq]; simpl.
  - by rewrite decide_False.
  - done.
Qed.

Lemma dict_lookup_app_l {V} k (d1 d2 : list (string * V)) v :
  dict_lookup k d1 = Some v → dict_lookup k (d1 ++ d2) = Some v.
Proof.
  induction d1 as [|[k' v'] d1 IH]; simpl; [done|].
  by destruct (decide (k' = k)).
Qed.

Lemma dict_lookup_app_r {V} k (d1 d2 : list (string * V)) :
  k ∉ d1.*1 → dict_lookup k (d1 ++ d2) = dict_lookup k d2.
Proof.
  induction d1 as [|[k' v'] d1 IH]; simpl; [done|].
  intros Hk. apply not_elem_of_cons in Hk as [Hne Hk].
  rewrite decide_False by done. by apply IH.
Qed.

Lemma encode_utf8_nil s : encode_utf8 s = [] → s = "".
Proof.
  unfold encode_utf8. intros Hs.
  rewrite <- (string_of_list_byte_of_string s), Hs. reflexivity.
Qed.

Lemma str_truthy_true s : s ≠ "" → str_truthy s = true.
Proof.
  intros Hs. unfold str_truthy. destruct (String.eqb_spec s ""); done.
Qed.

Lemma bytes_truthy_true (b : bytes) : b ≠ [] → bytes_truthy b = true.
Proof. intros Hb. unfold bytes_truthy. by rewrite bool_decide_eq_false_2. Qed.

Lemma decode_encode_utf8 s :
  utf8_valid (encode_utf8 s) = true → decode_utf8 (encode_utf8 s) = Ok s.
Proof.
  intros Hv. unfold decode_utf8. rewrite Hv. unfold encode_utf8.
  by rewrite string_of_list_byte_of_string.
Qed.

(** ** Recipient resolution in [unpack_message] *)

Section Unpack.
Context `{Askar} `{Helpers}.

Lemma extract_recipient_kid found r kid d :
  extract_recipient found r = Ok (kid, d) →
  kid_of r = Some kid ∧ recip_key d = encrypted_key r.
Proof.
  unfold extract_recipient, kid_of, dict_get.
  destruct (dict_lookup "kid" (header r)) as [[| | |s| |]|];
    simpl; try discriminate.
  unfold result_bind.
  repeat (match goal with
          | |- context [match ?x with _ => _ end] => destruct x
          end; try discriminate);
    by intros [= <- <-].
Qed.

Lemma extract_pack_recipients_into_kids rs : ∀ found recips,
  extract_pack_recipients_into found rs = Ok recips →
  ∃ new, recips = found ++ new ∧
    Forall2 (λ r kd, kid_of r = Some kd.1 ∧ recip_key kd.2 = encrypted_key r)
            rs new.
Proof.
  induction rs as [|r rs IH]; simpl; intros found recips.
  - intros [= <-]. exists []. split; [by rewrite app_nil_r|constructor].
  - destruct (extract_recipient found r) as [[kid d]|] eqn:Hr; [|discriminate].
    simpl. intros (new & -> & Hnew)%IH.
    exists ((kid, d) :: new). split; [by rewrite <- app_assoc|].
    constructor; [|done]. by eapply extract_recipient_kid.
Qed.

Lemma extract_pack_recipients_kids rs recips :
  extract_pack_recipients rs = Ok recips →
  Forall2 (λ r kd, kid_of r = Some kd.1 ∧ recip_key kd.2 = encrypted_key r)
          rs recips.
Proof. by intros (new & -> & Hnew)%extract_pack_recipients_into_kids. Qed.

Lemma dict_lookup_absent {V} k (d : list (string * V)) :
  dict_lookup k d = None → k ∉ d.*1.
Proof.
  induction d as [|[k' v'] d IH]; simpl; [intros _; apply not_elem_of_nil|].
  destruct (decide (k' = k)) as [->|Hne]; [done|].
  intros Hk. apply not_elem_of_cons. split; [done|by apply IH].
Qed.

Lemma extract_recipient_new found r kid d :
  extract_recipient found r = Ok (kid, d) → kid ≠ "" ∧ kid ∉ found.*1.
Proof.
  unfold extract_recipient.
  destruct (dict_get "kid" (header r)) as [| | |s| |]; try discriminate.
  destruct (str_truthy s) eqn:Hs; [|discriminate]. cbn [negb].
  destruct (dict_lookup s found) eqn:Hfound; [discriminate|].
  unfold result_bind.
  repeat (match goal with
          | |- context [match ?x with _ => _ end] => destruct x
          end; try discriminate);
    intros [= <- <-]; (split; [by intros ->|by apply dict_lookup_absent]).
Qed.

(** The dictionary [extract_pack_recipients] returns names every [kid]
    once, and none is blank. *)
Lemma extract_pack_recipients_distinct rs recips :
  extract_pack_recipients rs = Ok recips →
  NoDup recips.*1 ∧ "" ∉ recips.*1.
Proof.
  unfold extract_pack_recipients.
  assert (∀ found, NoDup found.*1 → "" ∉ found.*1 →
            extract_pack_recipients_into found rs = Ok recips →
            NoDup recips.*1 ∧ "" ∉ recips.*1) as Hinto.
  { induction rs as [|r rs IH]; simpl; intros found Hnodup Hblank.
    - by intros [= <-].
    - destruct (extract_recipient found r) as [[kid d]|] eqn:Hr; [|discriminate].
      apply extract_recipient_new in Hr as [Hkid Hnew]. simpl.
      apply IH; rewrite fmap_app; simpl.
      + apply list.NoDup_app. split_and!; [done| |apply NoDup_singleton].
        by intros k Hk ->%list_elem_of_singleton.
      + apply not_elem_of_app. split; [done|].
        by intros ?%list_elem_of_singleton. }
  apply Hinto; [constructor|apply not_elem_of_nil].
Qed.

Lemma tried_prefix held kids : ∃ rest, kids = tried held kids ++ rest.
Proof.
  induction kids as [|k kids [rest IH]]; csimpl; [by exists []|].
  destruct (held !! k).
  - by exists kids.
  - exists rest. simpl. by f_equal.
Qed.

Lemma first_match_spec held recips kid d e :
  first_match held recips = Some (kid, d, e) →
  ∃ pre post, recips = pre ++ (kid, d) :: post ∧ held !! kid = Some e ∧
    (∀ k, k ∈ pre.*1 → held !! k = None) ∧
    tried held recips.*1 = pre.*1 ++ [kid].
Proof.
  induction recips as [|[k0 d0] recips IH]; csimpl; [done|].
  destruct (held !! k0) as [e0|] eqn:Hk0.
  - intros [= -> -> ->]. exists [], recips. split_and!; try done.
    intros k Hk. by apply elem_of_nil in Hk.
  - intros Hm. destruct (IH Hm) as (pre & post & Heq & Hkid & Hpre & Htried).
    exists ((k0, d0) :: pre), post. split_and!; try done.
    + by rewrite Heq.
    + intros k Hk. csimpl in Hk. apply elem_of_cons in Hk as [->|Hk]; auto.
    + by rewrite Htried.
Qed.

Lemma first_match_none held recips :
  first_match held recips = None →
  (∀ k, k ∈ recips.*1 → held !! k = None) ∧ tried held recips.*1 = recips.*1.
Proof.
  induction recips as [|[k0 d0] recips IH]; csimpl.
  - intros _. split; [|done]. intros k Hk. by apply elem_of_nil in Hk.
  - destruct (held !! k0) as [e0|] eqn:Hk0; [done|].
    intros Hm. destruct (IH Hm) as [Hall Htried]. split.
    + intros k Hk. apply elem_of_cons in Hk as [->|Hk]; auto.
    + by rewrite Htried.
Qed.

Lemma first_match_all_none held recips :
  (∀ k, k ∈ recips.*1 → held !! k = None) → first_match held recips = None.
Proof.
  induction recips as [|[k0 d0] recips IH]; csimpl; [done|].
  intros Hall. rewrite Hall by (apply elem_of_cons; by left).
  apply IH. intros k Hk. apply Hall. apply elem_of_cons. by right.
Qed.

(** The loop, started anywhere in the dictionary once the keys before that
    place resolved to nothing, ends as [first_match] says. *)
Lemma unpack_loop_run pre suffix last w :
  (∀ k, k ∈ pre.*1 → keys w !! k = None) →
  unpack_loop (pre ++ suffix) suffix.*1 last w =
  (match first_match (keys w) suffix with
   | Some (kid, d, e) =>
     result_bind (extract_payload_key d (key e))
       (λ '(cek, sender_vk), Ok (Some cek, sender_vk, Some kid))
   | None => Ok (None, None, from_option Some last (list.last suffix.*1))
   end,
   logged w (tried (keys w) suffix.*1)).
Proof.
  revert pre last w. induction suffix as [|[k d] suffix IH]; intros pre last w Hpre.
  - simpl. by rewrite logged_nil.
  - cbn [fmap list_fmap unpack_loop first_match tried fst].
    erewrite bind_ok by apply fetch_key_run.
    destruct (keys w !! k) as [e|] eqn:Hk.
    + rewrite dict_lookup_app_r.
      2:{ intros Hin. apply Hpre in Hin. congruence. }
      simpl. rewrite decide_True by done.
      unfold mbind, M_bind, lift.
      by destruct (extract_payload_key d (key e)) as [[cek sv]|err].
    + replace (pre ++ (k, d) :: suffix) with ((pre ++ [(k, d)]) ++ suffix)
        by by rewrite <- app_assoc.
      rewrite IH.
      2:{ intros k' Hk'. rewrite fmap_app in Hk'. simpl in Hk'.
          apply elem_of_app in Hk' as [Hk'|Hk']; [by apply Hpre|].
          apply list_elem_of_singleton in Hk' as ->. done. }
      rewrite logged_logged. simpl. f_equal.
      destruct (first_match (keys w) suffix) as [[[kid' d'] e']|]; [done|].
      f_equal. f_equal. destruct suffix as [|[k1 d1] suffix]; [done|].
      change (((k1, d1) :: suffix).*1) with (k1 :: suffix.*1).
      rewrite last_cons_cons.
      destruct (list.last (k1 :: suffix.*1)) eqn:Hlast; [done|].
      by apply last_None in Hlast.
Qed.

(** Once the envelope is decoded and its mode accepted, [unpack_message] is
    the resolution of section 4.3, and the lookups it made are the tried
    [kid]s. *)
Lemma unpack_message_run enc_message wrapper recips w :
  from_json enc_message = Ok wrapper →
  py_eq (dict_get "alg" (protected wrapper)) (JStr "Authcrypt")
  || py_eq (dict_get "alg" (protected wrapper)) (JStr "Anoncrypt") = true →
  extract_pack_recipients (recipients wrapper) = Ok recips →
  unpack_message enc_message w =
  (unpack_first_match (keys w) wrapper
     (py_eq (dict_get "alg" (protected wrapper)) (JStr "Authcrypt")) recips,
   logged w (tried (keys w) recips.*1)).
Proof.
  intros Hjson Halg Hrecips. unfold unpack_message.
  erewrite bind_ok.
  2:{ unfold try_except, lift. by rewrite Hjson. }
  apply orb_true_iff in Halg.
  destruct (negb _ && negb _) eqn:Hmode.
  { apply andb_true_iff in Hmode as [H1 H2].
    apply negb_true_iff in H1, H2. destruct Halg; congruence. }
  erewrite bind_ok.
  2:{ unfold lift. by rewrite Hrecips. }
  unfold mbind, M_bind.
  pose proof (unpack_loop_run [] recips None w) as Hloop.
  cbn [app] in Hloop. rewrite Hloop.
  2:{ intros k Hk. by apply elem_of_nil in Hk. }
  unfold unpack_first_match.
  destruct (first_match (keys w) recips) as [[[kid d] e]|] eqn:Hm.
  - destruct (extract_payload_key d (key e)) as [[cek sv]|err]; reflexivity.
  - reflexivity.
Qed.

(** An envelope whose entries [extract_pack_recipients] refuses is refused
    with the helper's error, before any key is looked up. *)
Lemma unpack_message_unreadable enc_message wrapper e w :
  from_json enc_message = Ok wrapper →
  py_eq (dict_get "alg" (protected wrapper)) (JStr "Authcrypt")
  || py_eq (dict_get "alg" (protected wrapper)) (JStr "Anoncrypt") = true →
  extract_pack_recipients (recipients wrapper) = Raise e →
  unpack_message enc_message w = (Raise e, w).
Proof.
  intros Hjson Halg Hrecips. unfold unpack_message.
  erewrite bind_ok.
  2:{ unfold try_except, lift. by rewrite Hjson. }
  apply orb_true_iff in Halg.
  destruct (negb _ && negb _) eqn:Hmode.
  { apply andb_true_iff in Hmode as [H1 H2].
    apply negb_true_iff in H1, H2. destruct Halg; congruence. }
  erewrite bind_raise; [done|]. unfold lift. by rewrite Hrecips.
Qed.

(** C3: [unpack_message] resolves the recipient by a first-match trial loop.
    For every envelope that decodes, has an accepted mode and whose entries
    are readable, and for every store: the names looked up are [kid]s of the
    envelope's entries, in the envelope's order, up to and including the
    first one the store holds (a prefix of the list: later entries are not
    tried), and the entry used to recover the content-encryption key is the
    first entry whose [kid] the store holds. *)
Theorem unpack_message_first_match enc_message wrapper recips w :
  from_json enc_message = Ok wrapper →
  py_eq (dict_get "alg" (protected wrapper)) (JStr "Authcrypt")
  || py_eq (dict_get "alg" (protected wrapper)) (JStr "Anoncrypt") = true →
  extract_pack_recipients (recipients wrapper) = Ok recips →
  let held := keys w in
  let is_authcrypt :=
    py_eq (dict_get "alg" (protected wrapper)) (JStr "Authcrypt") in
  (* the entries of [recips] are those of the envelope, in order *)
  Forall2 (λ r kd, kid_of r = Some kd.1 ∧ recip_key kd.2 = encrypted_key r)
          (recipients wrapper) recips ∧
  (* the lookups *)
  fetch_log (unpack_message enc_message w).2 =
    fetch_log w ++ tried held recips.*1 ∧
  (∃ rest, recips.*1 = tried held recips.*1 ++ rest) ∧
  (* the entry used *)
  match first_match held recips with
  | Some (kid, details, entry) =>
    (∃ pre post, recips = pre ++ (kid, details) :: post ∧
       held !! kid = Some entry ∧ (∀ k, k ∈ pre.*1 → held !! k = None) ∧
       tried held recips.*1 = pre.*1 ++ [kid]) ∧
    (unpack_message enc_message w).1 =
      result_bind (extract_payload_key details (key entry)) (λ '(cek, sender_vk),
        unpack_payload wrapper is_authcrypt recips (Some cek) sender_vk (Some kid))
  | None =>
    (∀ k, k ∈ recips.*1 → held !! k = None) ∧
    tried held recips.*1 = recips.*1 ∧
    (unpack_message enc_message w).1 = Raise (NoMatchingKey recips.*1)
  end.
Proof.
  intros Hjson Halg Hrecips held is_authcrypt.
  rewrite (unpack_message_run _ _ _ _ Hjson Halg Hrecips). simpl.
  split_and!.
  - by apply extract_pack_recipients_kids.
  - done.
  - apply tried_prefix.
  - unfold unpack_first_match. fold held.
    destruct (first_match held recips) as [[[kid d] e]|] eqn:Hm.
    + split; [by apply first_match_spec|done].
    + destruct (first_match_none _ _ Hm). done.
Qed.

(** C6, as the code has it: when no recipient entry names a key the store
    holds, [unpack_message] fails with the no-matching-key error, and the
    text of that error lists the [kid]s of all the envelope's entries, in
    order.  Two envelopes get the same error exactly when their [kid] lists
    are the same. *)
Theorem unpack_message_no_match enc_message wrapper recips w :
  from_json enc_message = Ok wrapper →
  py_eq (dict_get "alg" (protected wrapper)) (JStr "Authcrypt")
  || py_eq (dict_get "alg" (protected wrapper)) (JStr "Anoncrypt") = true →
  extract_pack_recipients (recipients wrapper) = Ok recips →
  (∀ k, k ∈ recips.*1 → keys w !! k = None) →
  (unpack_message enc_message w).1 = Raise (NoMatchingKey recips.*1) ∧
  omap kid_of (recipients wrapper) = recips.*1 ∧
  ∀ kids, NoMatchingKey kids = NoMatchingKey recips.*1 ↔ kids = recips.*1.
Proof.
  intros Hjson Halg Hrecips Hnone.
  rewrite (unpack_message_run _ _ _ _ Hjson Halg Hrecips). simpl.
  unfold unpack_first_match. rewrite first_match_all_none by done.
  split_and!; [done| |].
  - apply extract_pack_recipients_kids in Hrecips. clear Hnone Hjson Halg.
    induction Hrecips as [|r [k d] rs recips' [Hk _] _ IH]; [done|].
    csimpl in *. rewrite Hk. csimpl. by f_equal.
  - intros kids. unfold NoMatchingKey. split; [by intros [= ->]|by intros ->].
Qed.

End Unpack.

(** ** The reference implementation meets the assumptions *)

Module SimFacts.
Import Sim.
#[local] Existing Instance Sim.askar.
#[local] Existing Instance Sim.helpers.

Lemma digits_pos_digits p : digits_pos (pos_digits p) = Some p.
Proof. induction p as [p IH|p IH|]; simpl; by rewrite ?IH. Qed.

Lemma unpickle_pickle `{Countable A} (a : A) : unpickle (pickle a) = Some a.
Proof.
  unfold unpickle, pickle. rewrite decide_True by done.
  rewrite digits_pos_digits. simpl. apply decode_encode.
Qed.

Lemma hex_byte_roundtrip (b : byte) :
  hex_value (hex_digit (Byte.to_N b / 16)) = Some (Byte.to_N b / 16)%N ∧
  hex_value (hex_digit (Byte.to_N b mod 16)) = Some (Byte.to_N b mod 16)%N ∧
  Byte.of_N (16 * (Byte.to_N b / 16) + Byte.to_N b mod 16) = Some b.
Proof. destruct b; vm_compute; done. Qed.

Lemma hex_decode_encode b : hex_decode (hex_encode b) = Some b.
Proof.
  induction b as [|x b IH]; [done|].
  cbn [hex_encode hex_decode].
  destruct (hex_byte_roundtrip x) as (-> & -> & Hb). simpl.
  rewrite Hb. simpl. by rewrite IH.
Qed.

Lemma of_to_hex b : of_hex (to_hex b) = Ok b.
Proof.
  unfold of_hex, to_hex.
  by rewrite list_byte_of_string_of_list_byte, hex_decode_encode.
Qed.

Lemma hex_digit_ascii (b : byte) :
  in_range 0 127 (hex_digit (Byte.to_N b / 16)) = true ∧
  in_range 0 127 (hex_digit (Byte.to_N b mod 16)) = true.
Proof. destruct b; vm_compute; done. Qed.

Lemma hex_encode_utf8 b : utf8_valid (hex_encode b) = true.
Proof.
  induction b as [|x b IH]; [done|].
  cbn [hex_encode utf8_valid]. by destruct (hex_digit_ascii x) as [-> ->].
Qed.

Lemma to_hex_nonempty b : b ≠ [] → to_hex b ≠ "".
Proof.
  destruct b as [|x b]; [done|]. intros _ Hs.
  apply (f_equal list_byte_of_string) in Hs. unfold to_hex in Hs.
  rewrite list_byte_of_string_of_list_byte in Hs. discriminate.
Qed.

Lemma unflatten_flatten d : text_dict d → unflatten (flatten d) = d.
Proof.
  unfold text_dict. induction 1 as [|[k v] d [s Hs] _ IH]; [done|].
  simpl in Hs. subst v. unfold flatten in *. csimpl. by rewrite IH.
Qed.

Lemma sim_codec_roundtrip w :
  text_envelope w → sim_from_json (encode_utf8 (sim_to_json w)) = Ok w.
Proof.
  intros [Hp Hr]. unfold sim_from_json, sim_to_json, encode_utf8.
  rewrite list_byte_of_string_of_list_byte, unpickle_pickle.
  unfold flat_envelope. destruct w as [p pb rs i c t]. simpl in *.
  rewrite unflatten_flatten by done. do 2 f_equal.
  induction Hr as [|[ek h] rs Hh _ IH]; [done|].
  csimpl. rewrite IH. simpl in Hh. by rewrite unflatten_flatten.
Qed.

Lemma sim_keypair k :
  ed25519_keypair k →
  sim_alg k = KeyAlg.ED25519 ∧ sim_secret k = true ∧ sim_bytes k ≠ [].
Proof.
  destruct 1 as [g k g' Hg|b k Hb].
  - simpl in Hg. by injection Hg as <- _.
  - simpl in Hb. unfold sim_from_bytes in Hb.
    destruct (decide (b = [])); [done|]. by injection Hb as <-.
Qed.

Lemma sim_converted pk xk :
  sim_convert_key pk KeyAlg.X25519 = Ok xk →
  xk = SimKey KeyAlg.X25519 (sim_secret pk) (sim_bytes pk).
Proof. unfold sim_convert_key. case_decide; [by intros [= <-]|done]. Qed.

Lemma sim_public k pub :
  sim_get_public_bytes k = Ok pub → pub = sim_bytes k ∧ pub ≠ [].
Proof.
  unfold sim_get_public_bytes. case_decide as Hd; [done|].
  intros [= <-]. split; [done|]. intros Hn. apply Hd. by right.
Qed.

Lemma sim_from_public alg b k :
  sim_from_bytes false alg b = Ok k → k = SimKey alg false b.
Proof. unfold sim_from_bytes. case_decide; [done|]. by intros [= <-]. Qed.

(** The reference implementation satisfies every assumption. *)
Lemma laws : WalletLaws.
Proof.
  constructor.
  - apply of_to_hex.
  - apply to_hex_nonempty.
  - intros b. simpl. unfold to_hex, encode_utf8.
    rewrite list_byte_of_string_of_list_byte. apply hex_encode_utf8.
  - apply of_to_hex.
  - intros w _ Htext _. by apply sim_codec_roundtrip.
  - intros k pub Hpub. by apply sim_public in Hpub as [_ ?].
  - intros k (Halg & Hsec & Hne)%sim_keypair.
    exists (sim_bytes k), (SimKey KeyAlg.ED25519 false (sim_bytes k)),
      (SimKey KeyAlg.X25519 (sim_secret k) (sim_bytes k)),
      (SimKey KeyAlg.X25519 false (sim_bytes k)).
    simpl. unfold sim_get_public_bytes, sim_from_bytes, sim_convert_key. simpl.
    rewrite Halg. rewrite decide_False by (intros [|]; done).
    rewrite decide_False by done. by rewrite !decide_True.
  - intros g. exists (SimKey KeyAlg.C20P true (fresh g)), (S g), (fresh g),
      (SimKey KeyAlg.C20P true (fresh g)).
    split_and!; try done.
    intros g1 m aad. exists (fresh g1), (S g1), (pickle (fresh g, fresh g1, aad, m)).
    split_and!; try done. simpl. unfold sim_aead_decrypt.
    rewrite unpickle_pickle. by rewrite decide_True.
  - intros pk xpk m g ->%sim_converted. simpl. unfold sim_seal. simpl. eauto.
  - intros k pub pk xsk xpk m g c g' (Halg & Hsec & Hne)%sim_keypair
      [-> _]%sim_public ->%sim_from_public ->%sim_converted ->%sim_converted.
    simpl. unfold sim_seal, sim_seal_open. simpl. intros [= <- _].
    rewrite unpickle_pickle. by rewrite decide_True.
  - intros g. by exists (fresh g), (S g).
  - intros pk xpk s xsk m n g g' ->%sim_converted
      (Halg & Hsec & Hne)%sim_keypair ->%sim_converted _.
    simpl. unfold sim_box. simpl. rewrite decide_True by done. eauto.
  - intros r pub_r pk_r xsk_r xpk_r s pub_s pk_s xsk_s xpk_s m n c
      (Halg & Hsec & Hne)%sim_keypair [-> _]%sim_public ->%sim_from_public
      ->%sim_converted ->%sim_converted
      (Halg' & Hsec' & Hne')%sim_keypair [-> _]%sim_public ->%sim_from_public
      ->%sim_converted ->%sim_converted.
    simpl. unfold sim_box, sim_box_open. simpl.
    rewrite decide_True by done. intros [= <-].
    rewrite unpickle_pickle. by rewrite decide_True.
Qed.

#[local] Existing Instance Sim.signing.
#[local] Existing Instance Sim.lookups.

Lemma signing_laws : SigningLaws.
Proof.
  constructor.
  - intros k m (Halg & Hsec & Hne)%sim_keypair.
    cbn [Key_sign_message signing sim_sign].
    rewrite decide_True by done. eauto.
  - intros k pub pk [m|l] s (Halg & Hsec & Hne)%sim_keypair [-> _]%sim_public
      ->%sim_from_public; [|done].
    cbn [Key_sign_message Key_verify_signature signing sim_sign sim_verify].
    rewrite decide_True by done.
    intros [= <-]. cbn [sim_alg sim_bytes]. rewrite decide_True by done.
    by rewrite unpickle_pickle, bool_decide_eq_true_2.
Qed.

Lemma lookup_laws : LookupLaws.
Proof.
  constructor.
  - intros method Hm. apply elem_of_cons in Hm as [->|Hm]; [done|].
    apply elem_of_cons in Hm as [->|Hm]; [done|]. by apply elem_of_nil in Hm.
  - by intros [].
Qed.

End SimFacts.

(** ** What [pack_message] builds *)

Section Pack.
Context `{Askar} `{Helpers}.

Lemma add_recipients_nil w : add_recipients w [] = w.
Proof. destruct w. unfold add_recipients. simpl. by rewrite app_nil_r. Qed.

Lemma add_recipients_cons w r rs :
  add_recipients (add_recipient w r) rs = add_recipients w (r :: rs).
Proof. unfold add_recipients, add_recipient. simpl. by rewrite <- app_assoc. Qed.

Ltac mstep H :=
  let a := fresh "a" in
  let w1 := fresh "w" in
  let Hs := fresh "Hs" in
  apply bind_inv in H as (a & w1 & Hs & H);
  first [ apply lift_inv in Hs as [Hs ->]
        | apply draw_inv in Hs as (? & Hs & ->)
        | apply mret_inv in Hs as [<- ->]
        | idtac ].

Lemma pack_recipient_inv cek_b sender_vk sender_xk wrapper target_vk w wrapper' w' :
  pack_recipient cek_b sender_vk sender_xk wrapper target_vk w = (Ok wrapper', w') →
  ∃ r, wrapper' = add_recipient wrapper r ∧
       packed_entry cek_b sender_vk sender_xk target_vk r.
Proof.
  unfold pack_recipient. intros Hrun.
  mstep Hrun. mstep Hrun. mstep Hrun.
  destruct (bytes_opt_truthy sender_vk) eqn:Hmode.
  - destruct sender_vk as [svk|]; [|done].
    destruct sender_xk as [sxk|]; [|done].
    mstep Hrun. mstep Hrun. mstep Hrun.
    apply mret_inv in Hrun as [<- ->].
    eexists. split; [done|]. exists a, a0, a1. split_and!; try done.
    rewrite Hmode. repeat eexists; eauto.
  - mstep Hrun. apply mret_inv in Hrun as [<- ->].
    eexists. split; [done|]. exists a, a0, a1. split_and!; try done.
    rewrite Hmode. repeat eexists; eauto.
Qed.

Lemma pack_recipients_inv cek_b sender_vk sender_xk to_verkeys :
  ∀ wrapper w wrapper' w',
  pack_recipients cek_b sender_vk sender_xk wrapper to_verkeys w
    = (Ok wrapper', w') →
  ∃ rs, wrapper' = add_recipients wrapper rs ∧
        Forall2 (packed_entry cek_b sender_vk sender_xk) to_verkeys rs.
Proof.
  induction to_verkeys as [|t tv IH]; intros wrapper w wrapper' w' Hrun; simpl in Hrun.
  - apply mret_inv in Hrun as [<- ->]. exists []. split; [|constructor].
    by rewrite add_recipients_nil.
  - apply bind_inv in Hrun as (w1 & w2 & Hone & Hrest).
    apply pack_recipient_inv in Hone as (r & -> & Hr).
    apply IH in Hrest as (rs & -> & Hrs).
    exists (r :: rs). split; [apply add_recipients_cons|by constructor].
Qed.

Lemma set_protected_inv wrapper h wrapper' :
  set_protected wrapper h = Ok wrapper' →
  recipients wrapper ≠ [] ∧
  wrapper' = mkJweEnvelope h (serialize_protected h) (recipients wrapper)
                           (iv wrapper) (ciphertext wrapper) (tag wrapper).
Proof. unfold set_protected. case_decide; [done|]. by intros [= <-]. Qed.

Lemma pack_envelope_run_inv to_verkeys from_key message w env w' :
  pack_envelope to_verkeys from_key message w = (Ok env, w') →
  packed to_verkeys from_key message env ∧ recipients env ≠ [].
Proof.
  unfold pack_envelope. intros Hrun.
  mstep Hrun. mstep Hrun.
  apply bind_inv in Hrun as (sender_vk & w1 & Hvk & Hrun).
  apply bind_inv in Hrun as (sender_xk & w2 & Hxk & Hrun).
  apply bind_inv in Hrun as (wrapper & w3 & Hloop & Hrun).
  apply bind_inv in Hrun as (wrapper' & w4 & Hset & Hrun).
  apply lift_inv in Hset as [[Hsome ->]%set_protected_inv ->].
  mstep Hrun. mstep Hrun. apply mret_inv in Hrun as [<- ->].
  apply pack_recipients_inv in Hloop as (rs & -> & Hrs).
  split; [|done].
  exists (entropy w), x, a, a0, sender_vk, sender_xk, (entropy w3), x0, a1, a2.
  split_and!; try done.
  destruct from_key as [k|].
  - mstep Hvk. apply mret_inv in Hvk as [<- ->].
    mstep Hxk. apply mret_inv in Hxk as [<- ->]. eauto 10.
  - apply mret_inv in Hvk as [<- ->]. by apply mret_inv in Hxk as [<- ->].
Qed.

Lemma pack_envelope_inv to_verkeys from_key message w env w' :
  pack_envelope to_verkeys from_key message w = (Ok env, w') →
  packed to_verkeys from_key message env.
Proof. by intros [? _]%pack_envelope_run_inv. Qed.

Lemma pack_message_run_inv to_verkeys from_key message w out w' :
  pack_message to_verkeys from_key message w = (Ok out, w') →
  ∃ env, out = encode_utf8 (to_json env) ∧
         packed to_verkeys from_key message env ∧ recipients env ≠ [].
Proof.
  unfold pack_message. intros Hrun.
  apply bind_inv in Hrun as (env & w1 & Henv & Hrun).
  apply mret_inv in Hrun as [<- ->].
  exists env. split; [done|]. by eapply pack_envelope_run_inv.
Qed.

Lemma pack_message_inv to_verkeys from_key message w out w' :
  pack_message to_verkeys from_key message w = (Ok out, w') →
  ∃ env, out = encode_utf8 (to_json env) ∧
         packed to_verkeys from_key message env.
Proof. intros (env & ? & ? & _)%pack_message_run_inv. eauto. Qed.

End Pack.

(** ** [pack_message] under the assumptions *)

Section PackLaws.
Context `{Askar} `{Helpers} `{!WalletLaws}.

Lemma lift_ok {A} (r : result A) a w : r = Ok a → lift r w = (Ok a, w).
Proof. by intros ->. Qed.

Lemma pack_recipient_ok cek_b sender_vk sender_xk wrapper target_vk w :
  valid_verkey target_vk →
  (bytes_opt_truthy sender_vk = true →
   ∃ s xs, ed25519_keypair s ∧ Key_convert_key s KeyAlg.X25519 = Ok xs ∧
           sender_xk = Some xs) →
  ∃ wrapper' w',
    pack_recipient cek_b sender_vk sender_xk wrapper target_vk w
      = (Ok wrapper', w').
Proof.
  intros (b & pk & xk & Hb & Hpk & Hxk) Hsender. unfold pack_recipient.
  erewrite bind_ok by by apply lift_ok.
  erewrite bind_ok by by apply lift_ok.
  erewrite bind_ok by by apply lift_ok.
  destruct (bytes_opt_truthy sender_vk) eqn:Hmode.
  - destruct (Hsender eq_refl) as (s & xs & Hs & Hxs & ->).
    destruct sender_vk as [svk|]; [|done].
    destruct (seal_total pk xk svk (entropy w) Hxk) as (es & g1 & Hseal & _).
    erewrite bind_ok by by apply draw_ok.
    destruct (box_nonce g1) as (n & g2 & Hn & _).
    erewrite bind_ok by by apply draw_ok.
    destruct (box_total pk xk s xs cek_b n g1 g2 Hxk Hs Hxs Hn) as (c & Hc).
    erewrite bind_ok by by apply lift_ok.
    unfold mret, M_ret. eauto.
  - destruct (seal_total pk xk cek_b (entropy w) Hxk) as (c & g1 & Hseal & _).
    erewrite bind_ok by by apply draw_ok.
    unfold mret, M_ret. eauto.
Qed.

Lemma pack_recipients_ok cek_b sender_vk sender_xk to_verkeys :
  Forall valid_verkey to_verkeys →
  (bytes_opt_truthy sender_vk = true →
   ∃ s xs, ed25519_keypair s ∧ Key_convert_key s KeyAlg.X25519 = Ok xs ∧
           sender_xk = Some xs) →
  ∀ wrapper w, ∃ wrapper' w',
    pack_recipients cek_b sender_vk sender_xk wrapper to_verkeys w
      = (Ok wrapper', w').
Proof.
  intros Hvalid Hsender.
  induction Hvalid as [|t tv Ht _ IH]; intros wrapper w; simpl.
  - unfold mret, M_ret. eauto.
  - destruct (pack_recipient_ok cek_b sender_vk sender_xk wrapper t w Ht Hsender)
      as (wrapper1 & w1 & Hone).
    erewrite bind_ok by done. apply IH.
Qed.

Lemma pack_recipients_some cek_b sender_vk sender_xk to_verkeys
    wrapper w wrapper' w' :
  to_verkeys ≠ [] →
  pack_recipients cek_b sender_vk sender_xk wrapper to_verkeys w
    = (Ok wrapper', w') →
  recipients wrapper' ≠ [].
Proof.
  intros Hsome (rs & -> & Hrs)%pack_recipients_inv. simpl.
  destruct Hrs; [done|]. by destruct (recipients wrapper).
Qed.

Lemma set_protected_ok wrapper h :
  recipients wrapper ≠ [] →
  set_protected wrapper h
    = Ok (mkJweEnvelope h (serialize_protected h) (recipients wrapper)
                        (iv wrapper) (ciphertext wrapper) (tag wrapper)).
Proof. intros Hsome. unfold set_protected. by rewrite decide_False. Qed.

Lemma pack_envelope_ok to_verkeys from_key message w :
  to_verkeys ≠ [] →
  Forall valid_verkey to_verkeys → sender_ready from_key →
  ∃ env w', pack_envelope to_verkeys from_key message w = (Ok env, w').
Proof.
  intros Hsome Hvalid Hsender. unfold pack_envelope.
  destruct (content_key (entropy w))
    as (cek & g' & cek_b & cek' & Hgen & Hsec & _ & _ & Haead).
  erewrite bind_ok by by apply draw_ok.
  erewrite bind_ok by by apply lift_ok.
  assert (∀ sender_vk sender_xk wa,
    (bytes_opt_truthy sender_vk = true →
     ∃ s xs, ed25519_keypair s ∧ Key_convert_key s KeyAlg.X25519 = Ok xs ∧
             sender_xk = Some xs) →
    ∃ env w',
      (wrapper ← pack_recipients cek_b sender_vk sender_xk JweEnvelope_new
                   to_verkeys;
       wrapper ← lift (set_protected wrapper (protected_header from_key));
       nonce ← draw (Key_aead_random_nonce cek);
       ciphertext ← lift (Key_aead_encrypt cek message nonce
                            (protected_bytes wrapper));
       mret (set_payload wrapper (slice_but_last 16 ciphertext) nonce
               (slice_last 16 ciphertext))) wa = (Ok env, w')) as Htail.
  { intros sender_vk sender_xk wa Hmode.
    destruct (pack_recipients_ok cek_b sender_vk sender_xk to_verkeys Hvalid
                Hmode JweEnvelope_new wa) as (wrapper & w1 & Hloop).
    erewrite bind_ok by done.
    erewrite bind_ok.
    2:{ apply lift_ok, set_protected_ok.
        by eapply pack_recipients_some. }
    destruct (Haead (entropy w1) message
                (serialize_protected (protected_header from_key)))
      as (n & g2 & c & Hn & Henc & _).
    erewrite bind_ok by by apply draw_ok.
    erewrite bind_ok by by apply lift_ok.
    unfold mret, M_ret. eauto. }
  destruct from_key as [k|]; simpl in Hsender.
  - destruct (keypair_forms k Hsender)
      as (pub & pk & xsk & xpk & Hpub & _ & Hxsk & _).
    erewrite bind_ok.
    2:{ erewrite bind_ok by by apply lift_ok. reflexivity. }
    erewrite bind_ok.
    2:{ erewrite bind_ok by by apply lift_ok. reflexivity. }
    apply Htail. eauto.
  - erewrite bind_ok by reflexivity. erewrite bind_ok by reflexivity.
    apply Htail. done.
Qed.

Lemma pack_message_ok to_verkeys from_key message w :
  to_verkeys ≠ [] →
  Forall valid_verkey to_verkeys → sender_ready from_key →
  ∃ out w', pack_message to_verkeys from_key message w = (Ok out, w').
Proof.
  intros Hsome Hvalid Hsender. unfold pack_message.
  destruct (pack_envelope_ok to_verkeys from_key message w Hsome Hvalid Hsender)
    as (env & w' & Henv).
  erewrite bind_ok by done. unfold mret, M_ret. eauto.
Qed.

Lemma try_except_ok {A} (body : M A) handler w a w' :
  body w = (Ok a, w') → try_except body handler w = (Ok a, w').
Proof. intros Hb. unfold try_except. by rewrite Hb. Qed.

Lemma try_except_askar_inv {A} (body : M A) text w a w' :
  try_except body (AskarWallet.askar_error_as text) w = (Ok a, w') →
  body w = (Ok a, w').
Proof.
  unfold try_except. destruct (body w) as [[a0|e] w1]; [done|].
  by destruct e.
Qed.

Lemma try_except_raise {A} (body : M A) handler w e w' :
  body w = (Raise e, w') → handler e = None →
  try_except body handler w = (Raise e, w').
Proof. intros Hb Hh. unfold try_except. by rewrite Hb, Hh. Qed.

Lemma sender_vk_truthy k pub :
  Key_get_public_bytes k = Ok pub →
  bytes_opt_truthy (Some (encode_utf8 (bytes_to_b58 pub))) = true.
Proof.
  intros Hpub. simpl. apply bytes_truthy_true. intros Hnil.
  apply encode_utf8_nil in Hnil. revert Hnil. apply b58_nonempty.
  by eapply public_bytes_nonempty.
Qed.

Lemma packed_entry_shape from_key cek_b sender_vk sender_xk t r :
  bytes_opt_truthy sender_vk = (if from_key is Some _ then true else false) →
  packed_entry cek_b sender_vk sender_xk t r → entry_shape from_key t r.
Proof.
  intros Hmode (b & pk & xk & _ & _ & _ & Hr). rewrite Hmode in Hr.
  unfold entry_shape. destruct from_key.
  - destruct Hr as (? & ? & es & n & ? & ? & ? & ? & _ & _ & _ & _ & _ & ->).
    simpl. eauto.
  - destruct Hr as (? & ? & _ & ->). done.
Qed.

Lemma packed_mode to_verkeys from_key message env :
  packed to_verkeys from_key message env →
  Forall2 (entry_shape from_key) to_verkeys (recipients env) ∧
  protected env = protected_header from_key.
Proof.
  intros (g & g' & cek & cek_b & svk & sxk & g1 & g1' & n & c
          & _ & _ & Hsender & Hrs & _ & _ & Henv).
  split; [|by rewrite Henv].
  assert (bytes_opt_truthy svk = (if from_key is Some _ then true else false))
    as Hmode.
  { destruct from_key as [k|].
    - destruct Hsender as (pub & xk & Hpub & _ & -> & _).
      by eapply sender_vk_truthy.
    - by destruct Hsender as [-> _]. }
  clear Henv. induction Hrs; constructor; eauto using packed_entry_shape.
Qed.

(** C2: the envelope [pack_message] produces.  Whenever it returns, what
    it returns is the serialization of an envelope whose mode is Authcrypt
    exactly when a sender key was given and Anoncrypt otherwise, with one
    entry per recipient verkey, in the caller's order, duplicates kept, and
    at least one entry; in Anoncrypt mode no entry has a [sender] or [iv]
    header field, in Authcrypt mode every entry has [kid], [sender] and
    [iv].  It does return when there is a verkey, the verkeys are valid and
    the sender is a key pair. *)
Theorem pack_message_envelope_structure to_verkeys from_key message w :
  (∀ out w',
     pack_message to_verkeys from_key message w = (Ok out, w') →
     ∃ env,
       out = encode_utf8 (to_json env) ∧
       dict_lookup "alg" (protected env)
         = Some (JStr (if from_key is Some _ then "Authcrypt" else "Anoncrypt")) ∧
       length (recipients env) = length to_verkeys ∧
       Forall2 (entry_shape from_key) to_verkeys (recipients env) ∧
       recipients env ≠ []) ∧
  (to_verkeys ≠ [] → Forall valid_verkey to_verkeys → sender_ready from_key →
   ∃ out w', pack_message to_verkeys from_key message w = (Ok out, w')).
Proof.
  split.
  - intros out w' Hrun.
    apply pack_message_run_inv in Hrun as (env & -> & Hpacked & Hsome).
    apply packed_mode in Hpacked as [Hshape Hprot].
    exists env. split_and!; [done| | |done|done].
    + rewrite Hprot. by destruct from_key.
    + symmetry. by eapply Forall2_length.
  - apply pack_message_ok.
Qed.

Lemma pack_envelope_no_recipients from_key message w :
  sender_ready from_key →
  ∃ g, pack_envelope [] from_key message w
       = (Raise ValidationError, mkWorld g (keys w) (items w) (fetch_log w)).
Proof.
  intros Hsender. unfold pack_envelope.
  destruct (content_key (entropy w))
    as (cek & g' & cek_b & cek' & Hgen & Hsec & _).
  erewrite bind_ok by by apply draw_ok.
  erewrite bind_ok by by apply lift_ok.
  destruct from_key as [k|]; simpl in Hsender.
  - destruct (keypair_forms k Hsender)
      as (pub & pk & xsk & xpk & Hpub & _ & Hxsk & _).
    erewrite bind_ok.
    2:{ erewrite bind_ok by by apply lift_ok. reflexivity. }
    erewrite bind_ok.
    2:{ erewrite bind_ok by by apply lift_ok. reflexivity. }
    erewrite bind_ok by reflexivity.
    erewrite bind_raise by reflexivity. eauto.
  - erewrite bind_ok by reflexivity. erewrite bind_ok by reflexivity.
    erewrite bind_ok by reflexivity.
    erewrite bind_raise by reflexivity. eauto.
Qed.

Lemma pack_message_some_recipient to_verkeys from_key message w out w' :
  pack_message to_verkeys from_key message w = (Ok out, w') → to_verkeys ≠ [].
Proof.
  intros (env & _ & Hpacked & Hsome)%pack_message_run_inv ->.
  destruct Hpacked as (? & ? & ? & ? & ? & ? & ? & ? & ? & ?
                       & _ & _ & _ & Hrs & _).
  by apply Forall2_nil_inv_l in Hrs.
Qed.

(** C10, as the code has it: [pack_message] has no check of its own that
    there is a recipient, but it does not complete without one.  With no
    recipient verkey and a message that is not [None], the wallet's
    [pack_message] makes the content key, runs the loop over no verkey and
    then fails where the protected header is set, with the envelope's
    [ValidationError], which the handler for [AskarError] lets through (the
    sender, when one is named, being a key pair of the store); neither the
    wallet's [pack_message] nor the module's ever returns an envelope for
    no recipient.  The one input check of the wallet itself is that the
    message is not [None]. *)
Theorem pack_message_no_recipients message from_verkey w :
  (∀ v, from_verkey = Some v → str_truthy v = true →
        ∃ e, keys w !! v = Some e ∧ ed25519_keypair (key e)) →
  (∃ w',
     AskarWallet.pack_message (Some message) [] from_verkey w
       = (Raise ValidationError, w') ∧
     keys w' = keys w ∧ items w' = items w) ∧
  (∀ message' from_verkey' w0 out w',
     AskarWallet.pack_message message' [] from_verkey' w0 ≠ (Ok out, w')) ∧
  (∀ from_key message' w0 out w',
     pack_message [] from_key message' w0 ≠ (Ok out, w')) ∧
  (∀ to_verkeys,
     AskarWallet.pack_message None to_verkeys from_verkey w
       = (Raise (WalletError (literal "Message not provided")), w)).
Proof.
  intros Hsender. split_and!; [| | |done].
  - unfold AskarWallet.pack_message.
    assert (∃ from_key wa,
      (if str_opt_truthy from_verkey then
         from_key_entry ← Session.fetch_key (default "" from_verkey);
         match from_key_entry with
         | None =>
           raise (WalletNotFoundError (literal "Missing key for pack operation"))
         | Some e => mret (Some (key e))
         end
       else mret None) w = (Ok from_key, wa) ∧ sender_ready from_key ∧
      keys wa = keys w ∧ items wa = items w)
      as (from_key & wa & Hfrom & Hready & Hkeys & Hitems).
    { destruct from_verkey as [v|]; [|by exists None, w].
      cbn [str_opt_truthy].
      destruct (str_truthy v) eqn:Hv; [|by exists None, w].
      destruct (Hsender v eq_refl Hv) as (e & He & Hkp).
      exists (Some (key e)), (logged w [v]). split; [|done].
      erewrite bind_ok by apply fetch_key_run. simpl. by rewrite He. }
    destruct (pack_envelope_no_recipients from_key (encode_utf8 message) wa
                Hready) as (g & Hrun).
    eexists. split.
    + apply try_except_raise; [|done].
      erewrite bind_ok by done. unfold pack_message.
      by erewrite bind_raise by done.
    + done.
  - intros [message'|] from_verkey' w0 out w'; [|done].
    unfold AskarWallet.pack_message.
    intros Hrun%try_except_askar_inv.
    apply bind_inv in Hrun as (from_key & wa & _ & Hrun).
    by apply pack_message_some_recipient in Hrun.
  - intros from_key message' w0 out w' Hrun.
    by apply pack_message_some_recipient in Hrun.
Qed.

(** ** Round trip *)

Lemma dict_lookup_fresh {V} k (d : list (string * V)) :
  k ∉ d.*1 → dict_lookup k d = None.
Proof.
  intros Hk. rewrite <- (app_nil_r d). by rewrite dict_lookup_app_r.
Qed.

Lemma truthy_text s : s ≠ "" → truthy (JStr s) = true.
Proof. apply str_truthy_true. Qed.

Lemma packed_entry_extract cek_b sender_vk sender_xk t r found :
  b64url_text → t ≠ "" → t ∉ found.*1 →
  packed_entry cek_b sender_vk sender_xk t r →
  text_dict (header r) ∧
  ∃ d, extract_recipient found r = Ok (t, d) ∧
       packed_details cek_b sender_vk sender_xk t d.
Proof.
  intros Hb64 Ht Hfresh (b & pk & xk & Hb & Hpk & Hxk & Hr).
  unfold extract_recipient.
  destruct (bytes_opt_truthy sender_vk) eqn:Hmode.
  - destruct Hr as (svk & sxk & es & n & g1 & g1' & g2 & g2'
                    & -> & -> & Hseal & Hn & Hbox & Hhdr).
    destruct (seal_total pk xk svk g1 Hxk) as (es' & g1'' & Hseal' & Hes).
    assert (es' = es) as -> by congruence.
    destruct (box_nonce g2) as (n' & g2'' & Hn' & Hnn).
    assert (n' = n) as -> by congruence.
    assert (dict_get "kid" (header r) = JStr t) as ->
      by (by rewrite Hhdr).
    assert (dict_get "sender" (header r) = JStr (b64url es)) as ->
      by (by rewrite Hhdr).
    assert (dict_get "iv" (header r) = JStr (b64url n)) as ->
      by (by rewrite Hhdr).
    split; [rewrite Hhdr; repeat constructor; simpl; eauto|].
    rewrite !truthy_text, str_truthy_true by auto.
    rewrite dict_lookup_fresh by done.
    rewrite !b64_roundtrip. cbn [negb andb result_bind].
    eexists. split; [done|].
    exists b, pk, xk. split_and!; try done. rewrite Hmode.
    repeat eexists; eauto.
  - destruct Hr as (g & g' & Hseal & Hhdr).
    assert (dict_get "kid" (header r) = JStr t) as ->
      by (by rewrite Hhdr).
    assert (dict_get "sender" (header r) = JNull) as ->
      by (by rewrite Hhdr).
    assert (dict_get "iv" (header r) = JNull) as ->
      by (by rewrite Hhdr).
    split; [rewrite Hhdr; repeat constructor; simpl; eauto|].
    rewrite str_truthy_true by done.
    rewrite dict_lookup_fresh by done.
    cbn [truthy negb andb result_bind].
    eexists. split; [done|].
    exists b, pk, xk. split_and!; try done. rewrite Hmode.
    repeat eexists; eauto.
Qed.

Lemma packed_extract_into cek_b sender_vk sender_xk to_verkeys rs :
  b64url_text →
  Forall2 (packed_entry cek_b sender_vk sender_xk) to_verkeys rs →
  NoDup to_verkeys → "" ∉ to_verkeys →
  ∀ found, (∀ t, t ∈ to_verkeys → t ∉ found.*1) →
  Forall (λ r, text_dict (header r)) rs ∧
  ∃ recips,
    extract_pack_recipients_into found rs = Ok (found ++ recips) ∧
    recips.*1 = to_verkeys ∧
    Forall (λ kd, packed_details cek_b sender_vk sender_xk kd.1 kd.2) recips.
Proof.
  intros Hb64.
  induction 1 as [|t r tv rs Hr _ IH]; intros Hnodup Hblank found Hfresh.
  - split; [constructor|]. exists []. by rewrite app_nil_r.
  - apply list.NoDup_cons in Hnodup as [Ht Hnodup].
    apply not_elem_of_cons in Hblank as [Hne Hblank].
    apply (packed_entry_extract _ _ _ _ _ found) in Hr
      as (Htext & d & Hd & Hpd); [|done|done|].
    2:{ apply Hfresh. by left. }
    destruct (IH Hnodup Hblank (found ++ [(t, d)]))
      as (Htexts & recips & Hrecips & Hkids & Hall).
    { intros t' Ht'. rewrite fmap_app. apply not_elem_of_app. split.
      - apply Hfresh. by right.
      - simpl. apply not_elem_of_cons. split; [|apply not_elem_of_nil].
        by intros ->. }
    split; [by constructor|].
    exists ((t, d) :: recips). simpl. rewrite Hd. simpl.
    rewrite Hrecips, <- app_assoc.
    split_and!; [done|by rewrite <- Hkids|by constructor].
Qed.

Lemma packed_extract_all cek_b sender_vk sender_xk to_verkeys rs :
  b64url_text →
  Forall2 (packed_entry cek_b sender_vk sender_xk) to_verkeys rs →
  NoDup to_verkeys → "" ∉ to_verkeys →
  Forall (λ r, text_dict (header r)) rs ∧
  ∃ recips, extract_pack_recipients rs = Ok recips ∧ recips.*1 = to_verkeys ∧
    Forall (λ kd, packed_details cek_b sender_vk sender_xk kd.1 kd.2) recips.
Proof.
  intros Hb64 Hrs Hnodup Hblank.
  apply (packed_extract_into _ _ _ _ _ Hb64 Hrs Hnodup Hblank []).
  intros t _. apply not_elem_of_nil.
Qed.

Lemma first_match_only (P : string * RecipDetails → Prop) held recips r e :
  Forall P recips → r ∈ recips.*1 → held !! r = Some e →
  (∀ k, k ∈ recips.*1 → k ≠ r → held !! k = None) →
  ∃ d, first_match held recips = Some (r, d, e) ∧ P (r, d).
Proof.
  induction 1 as [|[k d] recips Hkd _ IH]; csimpl; intros Hin Hr Hothers.
  - by apply elem_of_nil in Hin.
  - destruct (decide (k = r)) as [->|Hne].
    + rewrite Hr. eauto.
    + rewrite (Hothers k) by (done || apply elem_of_cons; by left).
      apply IH; [|done|].
      * apply elem_of_cons in Hin as [->|]; done.
      * intros k' Hk'. apply Hothers, elem_of_cons. by right.
Qed.

Ltac rbind Heq := rewrite Heq; cbn [result_bind].

Lemma open_anoncrypt cek_b sender_vk sender_xk r d k :
  bytes_opt_truthy sender_vk = false →
  packed_details cek_b sender_vk sender_xk r d → keypair_of k r →
  extract_payload_key d k = Ok (cek_b, None).
Proof.
  intros Hmode (b & pk & xk & Hb & Hpk & Hxk & Hd) (Hkp & pub & Hpub & Hvk).
  rewrite Hmode in Hd. destruct Hd as (g & g' & Hseal & Hs & Hn).
  destruct (keypair_forms k Hkp) as (pub' & pk' & xsk & xpk & Hpub' & Hpk' & Hxsk & Hxpk).
  assert (pub' = pub) as -> by congruence.
  rewrite <- Hvk, b58_roundtrip in Hb. injection Hb as <-.
  assert (pk' = pk) as -> by congruence.
  assert (xpk = xk) as -> by congruence.
  unfold extract_payload_key. rbind Hxsk. rewrite Hs, Hn.
  cbn [bytes_opt_truthy andb].
  by rewrite (seal_open k pub pk xsk xk cek_b g _ g' Hkp Hpub Hpk Hxsk Hxk Hseal).
Qed.

Lemma open_authcrypt cek_b s pub_s xsk_s r d k :
  ed25519_keypair s → Key_get_public_bytes s = Ok pub_s →
  Key_convert_key s KeyAlg.X25519 = Ok xsk_s →
  packed_details cek_b (Some (encode_utf8 (bytes_to_b58 pub_s))) (Some xsk_s) r d →
  keypair_of k r →
  extract_payload_key d k = Ok (cek_b, Some (bytes_to_b58 pub_s)).
Proof.
  intros Hs Hpub_s Hxsk_s (b & pk & xk & Hb & Hpk & Hxk & Hd)
    (Hkp & pub & Hpub & Hvk).
  rewrite (sender_vk_truthy s pub_s Hpub_s) in Hd.
  destruct Hd as (svk & sxk & es & n & g1 & g1' & g2 & g2'
                  & [= <-] & [= <-] & Hseal & Hn & Hbox & Hds & Hdn).
  destruct (keypair_forms k Hkp) as (pub' & pk' & xsk & xpk & Hpub' & Hpk' & Hxsk & Hxpk).
  assert (pub' = pub) as -> by congruence.
  rewrite <- Hvk, b58_roundtrip in Hb. injection Hb as <-.
  assert (pk' = pk) as -> by congruence.
  assert (xpk = xk) as -> by congruence.
  destruct (keypair_forms s Hs)
    as (pub_s' & pk_s & xsk_s' & xpk_s & Hpub_s' & Hpk_s & Hxsk_s' & Hxpk_s).
  assert (pub_s' = pub_s) as -> by congruence.
  assert (xsk_s' = xsk_s) as -> by congruence.
  destruct (seal_total pk xk (encode_utf8 (bytes_to_b58 pub_s)) g1 Hxk)
    as (es' & g1'' & Hseal' & Hes).
  assert (es' = es) as -> by congruence.
  destruct (box_nonce g2) as (n' & g2'' & Hn' & Hnn).
  assert (n' = n) as -> by congruence.
  unfold extract_payload_key. rbind Hxsk. rewrite Hds, Hdn.
  cbn [bytes_opt_truthy from_option id].
  rewrite !bytes_truthy_true by done. cbn [andb].
  rbind (seal_open k pub pk xsk xk _ g1 _ g1' Hkp Hpub Hpk Hxsk Hxk Hseal).
  rbind (decode_encode_utf8 _ (b58_text pub_s)).
  rbind (b58_roundtrip pub_s). rbind Hpk_s. rbind Hxpk_s.
  by rbind (box_open k pub pk xsk xk s pub_s pk_s xsk_s xpk_s cek_b n _
              Hkp Hpub Hpk Hxsk Hxk Hs Hpub_s Hpk_s Hxsk_s Hxpk_s Hbox).
Qed.

(** C1, as the code has it: round trip of pack and unpack.  For every
    plaintext, every list of valid recipient verkeys that names no verkey
    twice (and none that is blank) and every recipient in it:
    [pack_message] returns, and [unpack_message] on what it returned, in a
    store that holds that recipient's key pair and the key of no other
    recipient, returns the plaintext, that recipient's verkey, and as
    sender nothing when no sender key was given and the sender's verkey
    when one was. *)
Theorem pack_unpack_roundtrip to_verkeys from_key message w recipient entry w_r :
  b64url_text →
  Forall valid_verkey to_verkeys → NoDup to_verkeys → "" ∉ to_verkeys →
  sender_ready from_key →
  recipient ∈ to_verkeys →
  keys w_r !! recipient = Some entry →
  keypair_of (key entry) recipient →
  (∀ vk, vk ∈ to_verkeys → vk ≠ recipient → keys w_r !! vk = None) →
  ∃ out w',
    pack_message to_verkeys from_key message w = (Ok out, w') ∧
    (unpack_message out w_r).1
      = Ok (message, recipient, sender_verkey from_key) ∧
    (from_key = None → sender_verkey from_key = None) ∧
    (∀ k, from_key = Some k →
          ∃ pub, Key_get_public_bytes k = Ok pub ∧
                 sender_verkey from_key = Some (bytes_to_b58 pub)).
Proof.
  intros Hb64 Hvalid Hnodup Hblank Hready Hin Hheld Hkp Hothers.
  assert (to_verkeys ≠ []) as Hsome.
  { intros ->. by apply elem_of_nil in Hin. }
  destruct (pack_message_ok to_verkeys from_key message w Hsome Hvalid Hready)
    as (out & w' & Hrun).
  exists out, w'. split; [done|].
  apply pack_message_inv in Hrun as (env & -> & Hpacked).
  destruct Hpacked as (g & g' & cek & cek_b & svk & sxk & g1 & g1' & nonce & c
                       & Hgen & Hsec & Hsender & Hrs & Hnonce & Henc & Henv).
  destruct (content_key g)
    as (cek0 & g0 & cek_b0 & cek' & Hgen0 & Hsec0 & Hcek_b & Hcek' & Haead).
  assert (cek0 = cek) as -> by congruence.
  assert (cek_b0 = cek_b) as -> by congruence.
  destruct (Haead g1 message (protected_bytes env))
    as (n0 & g2 & c0 & Hn0 & Henc0 & Hdec).
  assert (n0 = nonce) as -> by congruence.
  assert (c0 = c) as -> by congruence.
  destruct (packed_extract_all _ _ _ _ _ Hb64 Hrs Hnodup Hblank)
    as (Htext & recips & Hrecips & Hkids & Hdetails).
  assert (from_json (encode_utf8 (to_json env)) = Ok env) as Hjson.
  { apply codec_roundtrip.
    - intros Hnil. rewrite Hnil in Hrs. apply Forall2_nil_inv_r in Hrs.
      rewrite Hrs in Hin. by apply elem_of_nil in Hin.
    - split; [|done]. rewrite Henv. simpl. repeat constructor; simpl; eauto.
    - by rewrite Henv. }
  assert (dict_get "alg" (protected env)
          = JStr (if from_key is Some _ then "Authcrypt" else "Anoncrypt"))
    as Halg by (rewrite Henv; by destruct from_key).
  rewrite (unpack_message_run _ env recips w_r Hjson); [|by rewrite Halg; destruct from_key|done].
  cbn [fst]. unfold unpack_first_match.
  destruct (first_match_only _ (keys w_r) recips recipient entry Hdetails)
    as (d & -> & Hd); [by rewrite Hkids|done|by rewrite Hkids|].
  cbn [fst snd] in Hd.
  assert (slice_but_last 16 c ++ slice_last 16 c = c) as Hjoin
    by apply slice_rejoin.
  destruct from_key as [k|]; cbn [sender_ready] in Hready.
  - destruct Hsender as (pub & xk & Hpub & Hxk & -> & ->).
    rbind (open_authcrypt cek_b k pub xk recipient d (key entry)
             Hready Hpub Hxk Hd Hkp).
    unfold sender_verkey. rewrite Hpub. split; [|split; [done|]].
    2:{ intros k' [= <-]. eauto. }
    unfold unpack_payload. rewrite Halg.
    cbn [bytes_opt_truthy str_opt_truthy].
    rewrite bytes_truthy_true by done.
    rewrite str_truthy_true.
    2:{ apply b58_nonempty. by eapply public_bytes_nonempty. }
    cbn [negb andb from_option id]. rbind Hcek'.
    rewrite Henv in Hdec |- *. cbn [ciphertext tag iv protected_bytes] in *.
    rewrite Hjoin. by rbind Hdec.
  - destruct Hsender as [-> ->].
    rbind (open_anoncrypt cek_b None None recipient d (key entry)
             eq_refl Hd Hkp).
    split; [|split; [done|by intros k [=]]].
    unfold unpack_payload. rewrite Halg.
    cbn [bytes_opt_truthy str_opt_truthy].
    rewrite bytes_truthy_true by done.
    cbn [negb andb from_option id py_eq String.eqb Ascii.eqb Bool.eqb].
    rbind Hcek'.
    rewrite Henv in Hdec |- *. cbn [ciphertext tag iv protected_bytes] in *.
    rewrite Hjoin. by rbind Hdec.
Qed.

End PackLaws.

(** ** The sender [unpack_message] returns *)

Section Sender.
Context `{Askar} `{Helpers}.

Lemma extract_payload_key_no_sender d k cek sender_vk :
  carries_sender d = false →
  extract_payload_key d k = Ok (cek, sender_vk) → sender_vk = None.
Proof.
  unfold carries_sender, extract_payload_key. intros ->.
  destruct (Key_convert_key k KeyAlg.X25519) as [recip_x|]; [|done]. simpl.
  destruct (crypto_box_seal_open recip_x (recip_key d)); [|done].
  by intros [= _ <-].
Qed.

Lemma extract_payload_key_sender d k cek sender_vk :
  carries_sender d = true →
  extract_payload_key d k = Ok (cek, sender_vk) →
  ∃ recip_x sender_b s,
    Key_convert_key k KeyAlg.X25519 = Ok recip_x ∧
    crypto_box_seal_open recip_x (default [] (recip_sender d)) = Ok sender_b ∧
    decode_utf8 sender_b = Ok s ∧ sender_vk = Some s.
Proof.
  unfold carries_sender, extract_payload_key. intros ->.
  destruct (Key_convert_key k KeyAlg.X25519) as [recip_x|]; [|done]. simpl.
  destruct (crypto_box_seal_open recip_x _) as [sender_b|] eqn:Hopen; [|done].
  simpl.
  destruct (decode_utf8 sender_b) as [s|] eqn:Hdecode; [|done]. simpl.
  destruct (b58_to_bytes s) as [pkb|]; [|done]. simpl.
  destruct (Key_from_public_bytes _ pkb) as [pk|]; [|done]. simpl.
  destruct (Key_convert_key pk _) as [sx|]; [|done]. simpl.
  destruct (crypto_box_open _ _ _ _) as [c|]; [|done]. simpl.
  intros [= _ <-]. by exists recip_x, sender_b, s.
Qed.

Lemma unpack_payload_ok wrapper is_authcrypt recips cek sender_vk kid message r s :
  unpack_payload wrapper is_authcrypt recips (Some cek) sender_vk (Some kid)
    = Ok (message, r, s) →
  r = kid ∧ s = sender_vk ∧ (is_authcrypt = true → str_opt_truthy sender_vk = true).
Proof.
  unfold unpack_payload.
  destruct (negb (bytes_opt_truthy (Some cek))); [done|].
  destruct (str_opt_truthy sender_vk), is_authcrypt; simpl; try done.
  all: destruct (Key_from_secret_bytes _ _) as [c|]; [|done]; simpl.
  all: destruct (Key_aead_decrypt _ _ _ _) as [m|]; [|done]; simpl.
  all: by intros [= _ <- <-].
Qed.

(** C4, as the code has it.  On an envelope whose mode is Authcrypt,
    [unpack_message] never returns a result without a sender.  When the
    matched entry yields no sender verkey and its key opens to a content
    key that is not empty, it fails with the missing-sender error; when
    opening the entry fails, the error of the failed step is what
    [unpack_message] raises. *)
Theorem unpack_message_authcrypt_sender enc_message wrapper recips w :
  from_json enc_message = Ok wrapper →
  dict_get "alg" (protected wrapper) = JStr "Authcrypt" →
  extract_pack_recipients (recipients wrapper) = Ok recips →
  (∀ message recip_vk sender_vk,
     (unpack_message enc_message w).1 = Ok (message, recip_vk, sender_vk) →
     ∃ s, sender_vk = Some s ∧ s ≠ "") ∧
  (∀ kid d e cek,
     first_match (keys w) recips = Some (kid, d, e) →
     extract_payload_key d (key e) = Ok (cek, None) → cek ≠ [] →
     (unpack_message enc_message w).1 = Raise MissingSender) ∧
  (∀ kid d e err,
     first_match (keys w) recips = Some (kid, d, e) →
     extract_payload_key d (key e) = Raise err →
     (unpack_message enc_message w).1 = Raise err).
Proof.
  intros Hjson Halg Hrecips.
  rewrite (unpack_message_run _ _ recips _ Hjson); [|by rewrite Halg|done].
  rewrite Halg. cbn [fst]. unfold unpack_first_match. split_and!.
  - intros message recip_vk sender_vk.
    destruct (first_match (keys w) recips) as [[[kid d] e]|]; [|done].
    destruct (extract_payload_key d (key e)) as [[cek sv]|]; [|done]. simpl.
    intros (_ & <- & Hs)%unpack_payload_ok.
    specialize (Hs eq_refl). destruct sender_vk as [s|]; [|done].
    exists s. split; [done|]. intros ->. done.
  - intros kid d e cek -> -> Hcek. simpl. unfold unpack_payload.
    cbn [bytes_opt_truthy str_opt_truthy].
    by rewrite bytes_truthy_true.
  - by intros kid d e err -> ->.
Qed.

(** C5, as the code has it.  On an envelope whose mode is Anoncrypt that
    [unpack_message] unpacks, the sender returned is decided by the matched
    entry, not by the mode: it is absent when the entry lacks a usable
    [sender] or [iv] field, and it is the verkey sealed in the entry's
    [sender] field when the entry has both. *)
Theorem unpack_message_anoncrypt_sender enc_message wrapper recips w
    message recip_vk sender_vk :
  from_json enc_message = Ok wrapper →
  dict_get "alg" (protected wrapper) = JStr "Anoncrypt" →
  extract_pack_recipients (recipients wrapper) = Ok recips →
  (unpack_message enc_message w).1 = Ok (message, recip_vk, sender_vk) →
  ∃ d e,
    first_match (keys w) recips = Some (recip_vk, d, e) ∧
    if carries_sender d then
      ∃ recip_x sender_b s,
        Key_convert_key (key e) KeyAlg.X25519 = Ok recip_x ∧
        crypto_box_seal_open recip_x (default [] (recip_sender d)) = Ok sender_b ∧
        decode_utf8 sender_b = Ok s ∧ sender_vk = Some s
    else sender_vk = None.
Proof.
  intros Hjson Halg Hrecips.
  rewrite (unpack_message_run _ _ recips _ Hjson); [|by rewrite Halg|done].
  cbn [fst]. unfold unpack_first_match.
  destruct (first_match (keys w) recips) as [[[kid d] e]|]; [|done].
  destruct (extract_payload_key d (key e)) as [[cek sv]|] eqn:Hopen; [|done].
  simpl. intros (<- & <- & _)%unpack_payload_ok.
  exists d, e. split; [done|].
  destruct (carries_sender d) eqn:Hd.
  - by eapply extract_payload_key_sender.
  - by eapply extract_payload_key_no_sender.
Qed.

End Sender.

(** ** DID records: rotation and repeated creation *)

Section Records.
Context `{Askar} `{Helpers}.

Lemma replace_run name value tags' w old :
  items w !! (CATEGORY_DID, name) = Some old →
  Session.replace CATEGORY_DID name value tags' w
    = (Ok (), with_item w name (mkEntry value tags')).
Proof. intros Hold. unfold Session.replace. by rewrite Hold. Qed.

Lemma replace_inv name value tags' w w' :
  Session.replace CATEGORY_DID name value tags' w = (Ok (), w') →
  w' = with_item w name (mkEntry value tags').
Proof.
  unfold Session.replace. destruct (items w !! _); [|done]. by intros [= <-].
Qed.

Lemma dict_lookup_remove_ne {V} k k' (d : list (string * V)) :
  k ≠ k' → dict_lookup k' (dict_remove k d) = dict_lookup k' d.
Proof.
  intros Hne. unfold dict_remove. induction d as [|[k0 v0] d IH]; [done|].
  rewrite filter_cons. simpl. destruct (decide (k0 ≠ k)) as [Hk|Hk]; simpl.
  - by rewrite IH.
  - apply dec_stable in Hk. subst k0. by rewrite decide_False.
Qed.

(** What [rotate_did_keypair_start] leaves behind when it returns. *)
Lemma rotate_start_post `{!WalletLaws} did next_seed w verkey w1 :
  AskarWallet.rotate_did_keypair_start did next_seed w = (Ok verkey, w1) →
  verkey ≠ "" ∧
  ∃ entry metadata,
    items w1 !! (CATEGORY_DID, did) = Some entry ∧
    dict_lookup "metadata" (value_json entry) = Some (JDict metadata) ∧
    dict_lookup "next_verkey" metadata = Some (JStr verkey).
Proof.
  unfold AskarWallet.rotate_did_keypair_start.
  destruct (negb (supports_rotation (from_did did))); [done|]. intros Hrun.
  apply bind_inv in Hrun as (keypair & wa & Hkeypair & Hrun).
  apply bind_inv in Hrun as (verkey_bytes & wb & Hpub & Hrun).
  apply bind_inv in Hrun as ([] & wc & _ & Hrun).
  apply bind_inv in Hrun as ([] & wd & Hupdate & Hrun).
  apply mret_inv in Hrun as [<- ->].
  split.
  - destruct keypair as [k|]; [|done]. apply lift_inv in Hpub as [Hpub _].
    apply b58_nonempty. by eapply public_bytes_nonempty.
  - apply try_except_askar_inv in Hupdate.
    apply bind_inv in Hupdate as (item & we & Hfetch & Hupdate).
    injection Hfetch as <- <-.
    destruct (items wc !! (CATEGORY_DID, did)) as [item|] eqn:Hitem; [|done].
    destruct (default (JDict []) (dict_lookup "metadata" (value_json item)))
      as [| | | | |metadata]; try done.
    apply replace_inv in Hupdate as ->.
    eexists _, _. split_and!.
    + simpl. apply lookup_insert_eq.
    + simpl. apply dict_lookup_set_eq.
    + apply dict_lookup_set_eq.
Qed.

(** [rotate_did_keypair_apply] on a record with a pending key. *)
Lemma rotate_apply_pending did w entry metadata next_verkey :
  items w !! (CATEGORY_DID, did) = Some entry →
  dict_lookup "metadata" (value_json entry) = Some (JDict metadata) →
  dict_lookup "next_verkey" metadata = Some next_verkey →
  truthy next_verkey = true →
  AskarWallet.rotate_did_keypair_apply did w
    = (Ok (), with_item w did (rotated entry metadata next_verkey)).
Proof.
  intros Hentry Hmeta Hnext Htruthy. unfold AskarWallet.rotate_did_keypair_apply.
  apply try_except_ok. erewrite bind_ok by reflexivity. rewrite Hentry, Hmeta.
  simpl. unfold dict_get. rewrite Hnext. simpl. rewrite Htruthy. simpl.
  by erewrite replace_run.
Qed.

(** [rotate_did_keypair_apply] on a record with no pending key. *)
Lemma rotate_apply_not_started did w entry :
  items w !! (CATEGORY_DID, did) = Some entry → no_next_verkey entry →
  AskarWallet.rotate_did_keypair_apply did w = (Raise RotationNotStarted, w).
Proof.
  intros Hentry Hnone. unfold AskarWallet.rotate_did_keypair_apply.
  apply try_except_raise; [|done].
  erewrite bind_ok by reflexivity. rewrite Hentry. unfold no_next_verkey in Hnone.
  destruct (dict_lookup "metadata" (value_json entry)) as [[| | | | |metadata]|];
    try done; simpl.
  unfold dict_get. by rewrite Hnone.
Qed.

(** C7: DID rotation.  After [rotate_did_keypair_start(did)] returned the
    new verkey, [rotate_did_keypair_apply(did)] succeeds and leaves a record
    whose [verkey] field is that verkey, whose [verkey] tag is that verkey,
    and whose metadata has no [next_verkey] (its other entries are kept).
    On a record with no [next_verkey] set, [rotate_did_keypair_apply] fails
    with the rotation-not-started error and changes nothing. *)
Theorem rotate_did_keypair_start_apply `{!WalletLaws} did :
  (∀ next_seed w verkey w1,
     AskarWallet.rotate_did_keypair_start did next_seed w = (Ok verkey, w1) →
     ∃ w2 entry metadata,
       AskarWallet.rotate_did_keypair_apply did w1 = (Ok (), w2) ∧
       items w2 !! (CATEGORY_DID, did) = Some entry ∧
       dict_lookup "verkey" (value_json entry) = Some (JStr verkey) ∧
       dict_lookup "verkey" (tags entry) = Some (JStr verkey) ∧
       dict_lookup "metadata" (value_json entry) = Some (JDict metadata) ∧
       dict_lookup "next_verkey" metadata = None ∧
       (∀ pending old_metadata,
          items w1 !! (CATEGORY_DID, did) = Some pending →
          dict_lookup "metadata" (value_json pending) = Some (JDict old_metadata) →
          ∀ field, field ≠ "next_verkey" →
                   dict_lookup field metadata = dict_lookup field old_metadata)) ∧
  (∀ w entry,
     items w !! (CATEGORY_DID, did) = Some entry → no_next_verkey entry →
     AskarWallet.rotate_did_keypair_apply did w = (Raise RotationNotStarted, w)).
Proof.
  split; [|apply rotate_apply_not_started].
  intros next_seed w verkey w1 Hstart.
  apply rotate_start_post in Hstart as (Hne & entry & metadata & Hentry & Hmeta & Hnext).
  eexists _, _, _. split_and!.
  - eapply rotate_apply_pending; [done..|]. by apply str_truthy_true.
  - simpl. apply lookup_insert_eq.
  - simpl. apply dict_lookup_set_eq.
  - simpl. apply dict_lookup_set_eq.
  - simpl. rewrite dict_lookup_set_ne by done. apply dict_lookup_set_eq.
  - apply dict_lookup_remove_eq.
  - intros pending old_metadata Hpending Hold field Hfield.
    rewrite Hentry in Hpending. injection Hpending as <-.
    rewrite Hmeta in Hold. injection Hold as <-.
    by apply dict_lookup_remove_ne.
Qed.

(** [create_keypair] touches nothing but the random source. *)
Lemma create_keypair_frame key_type seed w r w' :
  create_keypair key_type seed w = (r, w') →
  keys w' = keys w ∧ items w' = items w ∧ fetch_log w' = fetch_log w.
Proof.
  unfold create_keypair.
  destruct (if decide (key_type = KeyType.ED25519) then _ else _) as [alg|];
    [|by intros [= _ <-]].
  assert (∀ r w', (k ← draw (Key_generate alg); mret (Some k)) w = (r, w') →
            keys w' = keys w ∧ items w' = items w ∧ fetch_log w' = fetch_log w)
    as Hdraw.
  { intros r0 w0. unfold mbind, M_bind, draw.
    destruct (Key_generate alg (entropy w)) as [[k|e] g]; by intros [= _ <-]. }
  destruct seed as [seed|]; [|apply Hdraw].
  destruct (str_truthy seed); [|apply Hdraw].
  unfold try_except, mbind, M_bind, lift, mret, M_ret, raise.
  destruct (decide (key_type = KeyType.ED25519)).
  - destruct (validate_seed seed) as [b|err].
    + destruct (Key_from_secret_bytes alg b) as [k|err]; [by intros [= _ <-]|].
      destruct err; try by intros [= _ <-]. case_decide; by intros [= _ <-].
    + destruct err; try by intros [= _ <-]. case_decide; by intros [= _ <-].
  - destruct (Key_from_seed alg seed) as [k|err]; [by intros [= _ <-]|].
    destruct err; try by intros [= _ <-]. case_decide; by intros [= _ <-].
Qed.

(** Inserting the key tolerates a key that is already there, and then
    leaves the stored key, metadata included, as it was. *)
Lemma insert_key_tolerant text name k metadata w :
  ∃ w', try_except (Session.insert_key name k metadata)
          (AskarWallet.duplicate_passes text) w = (Ok (), w') ∧
        items w' = items w ∧
        (∀ held, keys w !! name = Some held → w' = w).
Proof.
  unfold try_except, Session.insert_key.
  destruct (keys w !! name) as [held|] eqn:Hheld; simpl.
  - by exists w.
  - eexists. split_and!; [done..|]. by intros held [=].
Qed.

(** C8, as the code has it: creating a DID that is already stored.  When
    the stored record's verkey is that of the new key pair,
    [create_local_did] succeeds, and the metadata of the stored record is
    then the metadata given to the call: the record is rewritten with it
    when the two differ and is left alone when they are equal.  The other
    fields and the tags of the record stay, and so does a signing key that
    was already stored, with its metadata.  When the stored verkey differs,
    the call fails with the duplicate error and the records stay as they
    were. *)
Theorem create_local_did_existing method key_type seed did metadata w
    k w0 verkey_bytes name entry :
  supports_key_type method key_type = true →
  method ∈ [DIDMethod.SOV; DIDMethod.KEY] →
  (method = DIDMethod.KEY → str_opt_truthy did = false) →
  create_keypair key_type seed w = (Ok (Some k), w0) →
  Key_get_public_bytes k = Ok verkey_bytes →
  AskarWallet.local_did method key_type did verkey_bytes = Ok name →
  items w !! (CATEGORY_DID, name) = Some entry →
  let verkey := bytes_to_b58 verkey_bytes in
  let metadata' := default [] metadata in
  (py_eq (dict_get "verkey" (value_json entry)) (JStr verkey) = true →
   ∃ w' entry',
     AskarWallet.create_local_did method key_type seed did metadata w
       = (Ok (mkDIDInfo name verkey metadata' method key_type), w') ∧
     items w' !! (CATEGORY_DID, name) = Some entry' ∧
     (py_eq (dict_get "metadata" (value_json entry)) (JDict metadata') = false →
      dict_lookup "metadata" (value_json entry') = Some (JDict metadata')) ∧
     (py_eq (dict_get "metadata" (value_json entry)) (JDict metadata') = true →
      entry' = entry) ∧
     (∀ field, field ≠ "metadata" →
        dict_lookup field (value_json entry') = dict_lookup field (value_json entry)) ∧
     tags entry' = tags entry ∧
     (∀ held, keys w !! verkey = Some held → keys w' !! verkey = Some held)) ∧
  (py_eq (dict_get "verkey" (value_json entry)) (JStr verkey) = false →
   ∃ w',
     AskarWallet.create_local_did method key_type seed did metadata w
       = (Raise DuplicateDID, w') ∧
     items w' = items w).
Proof.
  intros Hsupports Hmethod Hkey Hkeypair Hpub Hname Hentry verkey metadata'.
  destruct (create_keypair_frame _ _ _ _ _ Hkeypair) as (Hkeys0 & Hitems0 & _).
  destruct (insert_key_tolerant "Error inserting key" verkey k
              (Some (JDict metadata')) w0) as (w1 & Hinsert & Hitems1 & Hkeys1).
  assert (items w1 !! (CATEGORY_DID, name) = Some entry) as Hentry1
    by by rewrite Hitems1, Hitems0.
  unfold AskarWallet.create_local_did. rewrite Hsupports. cbn [negb].
  assert (bool_decide (method = DIDMethod.KEY) && str_opt_truthy did = false)
    as ->.
  { case_bool_decide as Hm; [|done]. by rewrite Hkey. }
  rewrite bool_decide_eq_true_2 by done. cbn [negb].
  fold metadata'.
  split; intros Hverkey.
  - destruct (py_eq (dict_get "metadata" (value_json entry)) (JDict metadata'))
      eqn:Hsame.
    + exists w1, entry. split_and!; try done.
      * erewrite bind_ok. 2:{
          apply try_except_ok.
          erewrite bind_ok by exact Hkeypair.
          erewrite bind_ok by (by apply lift_ok).
          erewrite bind_ok by exact Hinsert.
          erewrite bind_ok by (by apply lift_ok).
          erewrite bind_ok by reflexivity. rewrite Hentry1.
          fold verkey. rewrite Hverkey, Hsame. cbn [negb].
          erewrite bind_ok by reflexivity. reflexivity. }
        reflexivity.
      * intros held Hheld. rewrite <- Hkeys0 in Hheld.
        rewrite (Hkeys1 held Hheld). by rewrite Hkeys0 in Hheld |- *.
    + eexists (with_item w1 name _), _. split_and!.
      * erewrite bind_ok. 2:{
          apply try_except_ok.
          erewrite bind_ok by exact Hkeypair.
          erewrite bind_ok by (by apply lift_ok).
          erewrite bind_ok by exact Hinsert.
          erewrite bind_ok by (by apply lift_ok).
          erewrite bind_ok by reflexivity. rewrite Hentry1.
          fold verkey. rewrite Hverkey, Hsame. cbn [negb].
          erewrite bind_ok by (by eapply replace_run). reflexivity. }
        reflexivity.
      * simpl. apply lookup_insert_eq.
      * intros _. simpl. apply dict_lookup_set_eq.
      * done.
      * intros field Hfield. simpl. by apply dict_lookup_set_ne.
      * done.
      * intros held Hheld. simpl. rewrite <- Hkeys0 in Hheld.
        rewrite (Hkeys1 held Hheld). by rewrite Hkeys0 in Hheld |- *.
  - exists w1. split; [|by rewrite Hitems1, Hitems0].
    erewrite bind_raise; [done|].
    apply try_except_raise; [|done].
    erewrite bind_ok by exact Hkeypair.
    erewrite bind_ok by (by apply lift_ok).
    erewrite bind_ok by exact Hinsert.
    erewrite bind_ok by (by apply lift_ok).
    erewrite bind_ok by reflexivity. rewrite Hentry1.
    fold verkey. rewrite Hverkey. cbn [negb].
    by erewrite bind_raise by reflexivity.
Qed.

End Records.

(** ** More on running the monad *)

Section MoreMonad.
Context `{Askar}.

Lemma try_except_inv {A} (body : M A) handler w r w' :
  try_except body handler w = (r, w') →
  (∃ a, body w = (Ok a, w') ∧ r = Ok a) ∨
  (∃ e w1, body w = (Raise e, w1) ∧
     match handler e with
     | Some h => h w1 = (r, w')
     | None => r = Raise e ∧ w' = w1
     end).
Proof.
  unfold try_except. destruct (body w) as [[a|e] w1].
  - intros [= <- <-]. left. eauto.
  - intros Hh. right. exists e, w1. split; [done|].
    destruct (handler e); [done|]. by injection Hh as <- <-.
Qed.

Lemma hoare_ret {A} (P : World → Prop) (a : A) (Q : A → World → Prop) E :
  (∀ w, P w → Q a w) → hoare P (mret a) Q E.
Proof. intros HQ w Hw. by apply HQ. Qed.

Lemma hoare_raise {A} (P : World → Prop) e (Q : A → World → Prop) (E : World → Prop) :
  (∀ w, P w → E w) → hoare P (raise e) Q E.
Proof. intros HE w Hw. by apply HE. Qed.

Lemma hoare_lift {A} (P : World → Prop) (r : result A) (Q : A → World → Prop)
    (E : World → Prop) :
  (∀ w, P w → E w) → (∀ a w, r = Ok a → P w → Q a w) → hoare P (lift r) Q E.
Proof. intros HE HQ w Hw. unfold lift. destruct r; auto. Qed.

Lemma hoare_bind {A B} (P : World → Prop) (m : M A) (k : A → M B)
    (Q : A → World → Prop) (R : B → World → Prop) E :
  hoare P m Q E → (∀ a, hoare (Q a) (k a) R E) → hoare P (m ≫= k) R E.
Proof.
  intros Hm Hk w Hw. specialize (Hm w Hw). unfold mbind, M_bind.
  destruct (m w) as [[a|e] w1]; [|done]. by apply Hk.
Qed.

Lemma hoare_try_except {A} (P : World → Prop) (body : M A) handler
    (Q : A → World → Prop) (E1 E : World → Prop) :
  hoare P body Q E1 →
  (∀ e, match handler e with
        | Some h => hoare E1 h Q E
        | None => ∀ w, E1 w → E w
        end) →
  hoare P (try_except body handler) Q E.
Proof.
  intros Hbody Hh w Hw. specialize (Hbody w Hw). unfold try_except.
  destruct (body w) as [[a|e] w1]; [done|].
  specialize (Hh e). destruct (handler e) as [h|]; [by apply Hh|auto].
Qed.

(** [keeps] through the constructs of the monad. *)
Lemma keeps_ret {A} I (a : A) : keeps I (mret a).
Proof. by apply hoare_ret. Qed.

Lemma keeps_raise {A} I e : keeps I (raise e : M A).
Proof. by apply hoare_raise. Qed.

Lemma keeps_lift {A} I (r : result A) : keeps I (lift r).
Proof. by apply hoare_lift. Qed.

Lemma keeps_bind {A B} I (m : M A) (k : A → M B) :
  keeps I m → (∀ a, keeps I (k a)) → keeps I (m ≫= k).
Proof. intros Hm Hk. by eapply hoare_bind. Qed.

Lemma keeps_try_except {A} I (body : M A) handler :
  keeps I body → (∀ e h, handler e = Some h → keeps I h) →
  keeps I (try_except body handler).
Proof.
  intros Hbody Hh. eapply hoare_try_except; [done|].
  intros e. destruct (handler e) as [h|] eqn:He; [by eapply Hh|done].
Qed.

Lemma keeps_askar_error_as {A} I text e (h : M A) :
  AskarWallet.askar_error_as text e = Some h → keeps I h.
Proof. destruct e; try done. intros [= <-]. apply keeps_raise. Qed.

Lemma keeps_duplicate_passes I text e h :
  AskarWallet.duplicate_passes text e = Some h → keeps I h.
Proof.
  destruct e; try done. intros [= <-].
  case_decide; [apply keeps_ret|apply keeps_raise].
Qed.

Lemma keeps_fetch_key (I : World → Prop) name :
  (∀ w, I w → I (logged w [name])) → keeps I (Session.fetch_key name).
Proof. intros HI w Hw. by apply HI. Qed.

Lemma keeps_draw {A} (I : World → Prop) (f : Entropy → result A * Entropy) :
  (∀ w g, I w → I (mkWorld g (keys w) (items w) (fetch_log w))) →
  keeps I (draw f).
Proof.
  intros HI w Hw. unfold draw. destruct (f (entropy w)) as [[a|e] g]; by apply HI.
Qed.

Lemma keeps_run {A} I (m : M A) w : keeps I m → I w → I (m w).2.
Proof.
  intros Hm Hw. specialize (Hm w Hw). by destruct (m w) as [[a|e] w1].
Qed.

End MoreMonad.

(** ** Signing keys *)

Section SigningKeys.
Context `{Askar} `{Helpers}.

Lemma create_signing_key_inv key_type seed metadata w info w' :
  AskarWallet.create_signing_key key_type seed metadata w = (Ok info, w') →
  ∃ k w0 verkey_bytes,
    create_keypair key_type seed w = (Ok (Some k), w0) ∧
    Key_get_public_bytes k = Ok verkey_bytes ∧
    info = mkKeyInfo (bytes_to_b58 verkey_bytes) (JDict (default [] metadata))
             key_type ∧
    keys w !! bytes_to_b58 verkey_bytes = None ∧
    w' = mkWorld (entropy w0)
           (<[bytes_to_b58 verkey_bytes :=
                mkKeyEntry k (Some (JDict (default [] metadata)))]> (keys w))
           (items w) (fetch_log w).
Proof.
  unfold AskarWallet.create_signing_key. intros Hrun.
  apply bind_inv in Hrun as (verkey & w1 & Hbody & Hret).
  apply mret_inv in Hret as [<- ->].
  apply try_except_inv in Hbody as [(? & Hrun & [= <-])|(e & w2 & _ & Hh)].
  2:{ destruct e; simpl in Hh; try (by destruct Hh). by case_decide. }
  apply bind_inv in Hrun as (keypair & w0 & Hkeypair & Hrun).
  apply bind_inv in Hrun as (verkey_bytes & wa & Hpub & Hrun).
  destruct keypair as [k|]; [|done]. apply lift_inv in Hpub as [Hpub ->].
  apply bind_inv in Hrun as ([] & wb & Hins & Hrun).
  apply mret_inv in Hrun as [<- ->].
  destruct (create_keypair_frame _ _ _ _ _ Hkeypair) as (Hk & Hi & Hl).
  unfold Session.insert_key in Hins. rewrite Hk in Hins.
  destruct (keys w !! bytes_to_b58 verkey_bytes) eqn:Hheld; [done|].
  injection Hins as <-. rewrite Hi, Hl.
  by exists k, w0, verkey_bytes.
Qed.

(** With a seed, [create_keypair] draws nothing: its result is the same in
    every world, and the world stays. *)
Lemma create_keypair_seeded key_type seed w w0 :
  str_truthy seed = true →
  create_keypair key_type (Some seed) w
    = ((create_keypair key_type (Some seed) w0).1, w).
Proof.
  intros Hseed. unfold create_keypair.
  destruct (if decide (key_type = KeyType.ED25519) then _ else _) as [alg|];
    [|done].
  rewrite Hseed. unfold try_except, mbind, M_bind, lift, mret, M_ret, raise.
  destruct (decide (key_type = KeyType.ED25519)).
  - destruct (validate_seed seed) as [b|err].
    + destruct (Key_from_secret_bytes alg b) as [k|err]; [done|].
      destruct err; try done. by case_decide.
    + destruct err; try done. by case_decide.
  - destruct (Key_from_seed alg seed) as [k|err]; [done|].
    destruct err; try done. by case_decide.
Qed.

Lemma get_signing_key_held verkey w e :
  verkey ≠ "" → keys w !! verkey = Some e →
  AskarWallet.get_signing_key verkey w
    = (Ok (mkKeyInfo verkey (default (JDict []) (key_metadata e)) KeyType.ED25519),
       logged w [verkey]).
Proof.
  intros Hne Hheld. unfold AskarWallet.get_signing_key.
  rewrite str_truthy_true by done. cbn [negb].
  erewrite bind_ok by apply fetch_key_run. by rewrite Hheld.
Qed.

(** A key made by [create_signing_key] is found again under the verkey
    that was returned, with the metadata it was made with ([{}] when none
    was given).  The verkey was not in the store before.  The key type
    [get_signing_key] reports is [ED25519], whatever the type of the key. *)
Theorem create_signing_key_get_signing_key `{!WalletLaws}
    key_type seed metadata w info w' :
  AskarWallet.create_signing_key key_type seed metadata w = (Ok info, w') →
  keys w !! ki_verkey info = None ∧
  ki_metadata info = JDict (default [] metadata) ∧
  ki_key_type info = key_type ∧
  (AskarWallet.get_signing_key (ki_verkey info) w').1
    = Ok (mkKeyInfo (ki_verkey info) (JDict (default [] metadata))
            KeyType.ED25519).
Proof.
  intros (k & w0 & vb & Hkeypair & Hpub & -> & Hfree & ->)%create_signing_key_inv.
  cbn [ki_verkey ki_metadata ki_key_type]. split_and!; try done.
  erewrite get_signing_key_held; cycle 1.
  - apply b58_nonempty. by eapply public_bytes_nonempty.
  - simpl. apply lookup_insert_eq.
  - done.
Qed.

(** [create_signing_key] does not store the same key twice: after it made
    a key from a seed, making it again from that seed fails with the
    duplicate error, whatever the metadata, and the store stays as it
    was. *)
Theorem create_signing_key_twice key_type seed metadata w info w' :
  str_truthy seed = true →
  AskarWallet.create_signing_key key_type (Some seed) metadata w = (Ok info, w') →
  ∀ metadata',
    AskarWallet.create_signing_key key_type (Some seed) metadata' w'
      = (Raise (WalletDuplicateError
                  (literal "Verification key already present in wallet")), w').
Proof.
  intros Hseed (k & w0 & vb & Hkeypair & Hpub & -> & Hfree & ->)%create_signing_key_inv
    metadata'.
  rewrite (create_keypair_seeded _ _ w w) in Hkeypair by done.
  injection Hkeypair as Hkeypair <-.
  unfold AskarWallet.create_signing_key.
  erewrite bind_raise; [done|].
  unfold try_except.
  erewrite bind_ok.
  2:{ rewrite (create_keypair_seeded _ _ _ w) by done. by rewrite Hkeypair. }
  erewrite bind_ok by (by apply lift_ok).
  erewrite bind_raise.
  2:{ unfold Session.insert_key. simpl. by rewrite lookup_insert_eq. }
  reflexivity.
Qed.

(** [replace_signing_key_metadata] on a key of the store: the key is kept,
    its metadata is the new one ([{}] for [None] or an empty dictionary),
    no other key and no record changes, and [get_signing_key] returns the
    new metadata. *)
Theorem replace_signing_key_metadata_get_signing_key verkey metadata w e :
  verkey ≠ "" → keys w !! verkey = Some e →
  ∃ w',
    AskarWallet.replace_signing_key_metadata verkey metadata w = (Ok (), w') ∧
    keys w' = <[verkey := mkKeyEntry (key e) (Some (JDict (default [] metadata)))]>
                (keys w) ∧
    items w' = items w ∧
    (AskarWallet.get_signing_key verkey w').1
      = Ok (mkKeyInfo verkey (JDict (default [] metadata)) KeyType.ED25519).
Proof.
  intros Hne Hheld. eexists. split_and!.
  - unfold AskarWallet.replace_signing_key_metadata.
    rewrite str_truthy_true by done. cbn [negb].
    erewrite bind_ok by apply fetch_key_run. rewrite Hheld.
    unfold Handle.update_key. simpl. rewrite Hheld. reflexivity.
  - done.
  - done.
  - erewrite get_signing_key_held; [|done|simpl; apply lookup_insert_eq]. done.
Qed.

(** When the key primitive rejects a seed with an Askar error,
    [create_keypair] raises the invalid-seed error for the code [INPUT]
    and for any other code returns [None]; [create_signing_key] then fails
    with [AttributeError] on that [None], which its handler for Askar
    errors does not catch.  Nothing is stored. *)
Theorem create_keypair_seed_rejected key_type seed code w :
  str_truthy seed = true →
  (key_type = KeyType.ED25519 ∧
   ∃ b, validate_seed seed = Ok b ∧
        Key_from_secret_bytes KeyAlg.ED25519 b = Raise (AskarError code)) ∨
  (key_type = KeyType.BLS12381G2 ∧
   Key_from_seed KeyAlg.BLS12_381_G2 seed = Raise (AskarError code)) →
  create_keypair key_type (Some seed) w
    = (if decide (code = AskarErrorCode.INPUT)
       then Raise (WalletError (literal "Invalid seed for key generation"))
       else Ok None, w) ∧
  ∀ metadata,
    AskarWallet.create_signing_key key_type (Some seed) metadata w
      = (Raise (if decide (code = AskarErrorCode.INPUT)
                then WalletError (literal "Invalid seed for key generation")
                else AttributeError), w).
Proof.
  intros Hseed Hfail.
  assert (create_keypair key_type (Some seed) w
          = (if decide (code = AskarErrorCode.INPUT)
             then Raise (WalletError (literal "Invalid seed for key generation"))
             else Ok None, w)) as Hkeypair.
  { unfold create_keypair. rewrite Hseed.
    destruct Hfail as [(-> & b & Hb & Hk)|(-> & Hk)]; simpl.
    - unfold try_except, mbind, M_bind, lift. rewrite Hb, Hk.
      by case_decide.
    - unfold try_except, mbind, M_bind, lift. rewrite Hk. by case_decide. }
  split; [done|]. intros metadata. unfold AskarWallet.create_signing_key.
  erewrite bind_raise; [done|]. unfold try_except.
  case_decide.
  - by erewrite bind_raise by done.
  - erewrite bind_ok by done. by erewrite bind_raise by done.
Qed.

End SigningKeys.

(** ** Signatures *)

Section Signed.
Context `{Askar} `{Helpers} `{!Signing}.

(** The [bytes] message a key pair of the store signed verifies under its
    verkey, whatever key type the caller names: [verify_message] does not
    read it. *)
Theorem sign_message_verify_message `{!WalletLaws} `{!SigningLaws}
    (message : bytes) verkey w e :
  message ≠ [] →
  keys w !! verkey = Some e → keypair_of (key e) verkey →
  ∃ signature,
    AskarWallet.sign_message (One message) verkey w
      = (Ok signature, logged w [verkey]) ∧
    ∀ key_type w2,
      AskarWallet.verify_message (One message) signature verkey key_type w2
        = (Ok true, w2).
Proof.
  intros Hmessage%bytes_truthy_true Hheld (Hkp & pub & Hpub & Hverkey).
  change (signable_truthy (One message) = true) in Hmessage.
  assert (str_truthy verkey = true) as Hne.
  { apply str_truthy_true. rewrite <- Hverkey. apply b58_nonempty.
    by eapply public_bytes_nonempty. }
  destruct (sign_total (key e) message Hkp) as (s & Hsign & Hs).
  destruct (keypair_forms (key e) Hkp) as (pub' & pk & _ & _ & Hpub' & Hpk & _).
  assert (pub' = pub) as -> by congruence.
  exists s. split.
  - unfold AskarWallet.sign_message. rewrite Hmessage, Hne. cbn [negb].
    apply try_except_ok. erewrite bind_ok by apply fetch_key_run.
    rewrite Hheld. by apply lift_ok.
  - intros key_type w2. unfold AskarWallet.verify_message.
    rewrite Hne, Hmessage, bytes_truthy_true by done. cbn [negb].
    rewrite <- Hverkey, b58_roundtrip.
    erewrite bind_ok by (by apply lift_ok).
    apply try_except_ok. erewrite bind_ok by (by apply lift_ok).
    apply lift_ok. by eapply sign_verify.
Qed.

(** The failures of [verify_message] once its three arguments are there:
    a verkey that is not base58 text fails with the decoder's own error,
    which is raised outside the handler; a failure of the key primitives
    is raised as the wallet's error; otherwise the verdict of the
    primitive is returned, and the world stays. *)
Theorem verify_message_outcomes message signature from_verkey key_type w :
  str_truthy from_verkey = true → bytes_truthy signature = true →
  signable_truthy message = true →
  AskarWallet.verify_message message signature from_verkey key_type w =
  (match b58_to_bytes from_verkey with
   | Raise e => Raise e
   | Ok verkey =>
     match result_bind (Key_from_public_bytes KeyAlg.ED25519 verkey)
             (λ pk, Key_verify_signature pk message signature) with
     | Raise (AskarError _) =>
       Raise (WalletError (literal "Exception when verifying message signature"))
     | r => r
     end
   end, w).
Proof.
  intros Hv Hs Hm. unfold AskarWallet.verify_message.
  rewrite Hv, Hs, Hm. cbn [negb].
  unfold mbind, M_bind, lift, try_except.
  destruct (b58_to_bytes from_verkey) as [verkey|e]; [|done].
  destruct (Key_from_public_bytes KeyAlg.ED25519 verkey) as [pk|e]; simpl.
  - destruct (Key_verify_signature pk message signature) as [r|e]; [done|].
    by destruct e.
  - by destruct e.
Qed.

(** A verkey the store does not hold: [get_signing_key],
    [replace_signing_key_metadata], [sign_message] and [pack_message] (for
    its sender) each fail with the not-found error, which the handlers for
    Askar errors let through; the store and the random source stay as they
    were. *)
Theorem unknown_verkey_not_found verkey w :
  verkey ≠ "" → keys w !! verkey = None →
  AskarWallet.get_signing_key verkey w
    = (Raise (WalletNotFoundError (Message "Unknown key: {}" [FStr verkey])),
       logged w [verkey]) ∧
  (∀ metadata,
     AskarWallet.replace_signing_key_metadata verkey metadata w
       = (Raise (WalletNotFoundError (literal "Keypair not found")),
          logged w [verkey])) ∧
  (∀ message, signable_truthy message = true →
     AskarWallet.sign_message message verkey w
       = (Raise (WalletNotFoundError (literal "Missing key for sign operation")),
          logged w [verkey])) ∧
  (∀ message to_verkeys,
     AskarWallet.pack_message (Some message) to_verkeys (Some verkey) w
       = (Raise (WalletNotFoundError (literal "Missing key for pack operation")),
          logged w [verkey])).
Proof.
  intros Hne Hnone. apply str_truthy_true in Hne. split_and!.
  - unfold AskarWallet.get_signing_key. rewrite Hne. cbn [negb].
    erewrite bind_ok by apply fetch_key_run. by rewrite Hnone.
  - intros metadata. unfold AskarWallet.replace_signing_key_metadata.
    rewrite Hne. cbn [negb].
    erewrite bind_ok by apply fetch_key_run. by rewrite Hnone.
  - intros message Hm. unfold AskarWallet.sign_message.
    rewrite Hm, Hne. cbn [negb].
    apply try_except_raise; [|done].
    erewrite bind_ok by apply fetch_key_run. by rewrite Hnone.
  - intros message to_verkeys. unfold AskarWallet.pack_message.
    apply try_except_raise; [|done]. cbn [str_opt_truthy]. rewrite Hne.
    erewrite bind_raise; [done|]. cbn [from_option id].
    erewrite bind_ok by apply fetch_key_run. by rewrite Hnone.
Qed.

End Signed.

(** ** Local DIDs *)

Section LocalDIDs.
Context `{Askar} `{Helpers} `{Lookups}.

Lemma insert_key_tolerant_run text name k metadata w :
  try_except (Session.insert_key name k metadata)
    (AskarWallet.duplicate_passes text) w
  = (Ok (), with_key w name (mkKeyEntry k metadata)).
Proof.
  unfold try_except, Session.insert_key, with_key.
  destruct (keys w !! name); [|done]. simpl. by destruct w.
Qed.

Lemma insert_inv name value tags' w w' :
  Session.insert CATEGORY_DID name value tags' w = (Ok (), w') →
  w' = with_item w name (mkEntry value tags').
Proof.
  unfold Session.insert. destruct (items w !! _); [done|]. by intros [= <-].
Qed.

Lemma with_key_held w name e held :
  keys w !! name = Some held → with_key w name e = w.
Proof. intros Hheld. unfold with_key. rewrite Hheld. by destruct w. Qed.

Lemma with_key_lookup w name e :
  ∃ held, keys (with_key w name e) !! name = Some held.
Proof.
  unfold with_key. simpl. destruct (keys w !! name) eqn:Hk; [eauto|].
  rewrite lookup_insert_eq. eauto.
Qed.

Lemma with_key_keeps w name e other held :
  keys w !! other = Some held → keys (with_key w name e) !! other = Some held.
Proof.
  intros Hheld. unfold with_key. simpl.
  destruct (keys w !! name) eqn:Hk; [done|].
  rewrite lookup_insert_ne; [done|]. congruence.
Qed.

Lemma with_item_twice w name e1 e2 :
  with_item (with_item w name e1) name e2 = with_item w name e2.
Proof. unfold with_item. simpl. by rewrite insert_insert_eq. Qed.

Lemma dict_set_twice {V} k (v1 v2 : V) d :
  dict_set k v2 (dict_set k v1 d) = dict_set k v2 d.
Proof.
  induction d as [|[k' v'] d IH]; simpl.
  - by rewrite decide_True.
  - destruct (decide (k' = k)) as [->|Hne]; simpl.
    + by rewrite decide_True.
    + rewrite decide_False by done. by rewrite IH.
Qed.

Lemma py_eq_str v s : py_eq v (JStr s) = true → v = JStr s.
Proof.
  destruct v; simpl; try done. intros Heq. f_equal. by apply String.eqb_eq.
Qed.

Lemma py_eq_str_refl s : py_eq (JStr s) (JStr s) = true.
Proof. simpl. apply String.eqb_refl. Qed.

(** What [create_local_did] did when it returns. *)
Lemma create_local_did_inv method key_type seed did metadata w info w' :
  AskarWallet.create_local_did method key_type seed did metadata w = (Ok info, w') →
  ∃ k w0 verkey_bytes name,
    let verkey := bytes_to_b58 verkey_bytes in
    let metadata' := default [] metadata in
    let w1 := with_key w0 verkey (mkKeyEntry k (Some (JDict metadata'))) in
    supports_key_type method key_type = true ∧
    method ∈ [DIDMethod.SOV; DIDMethod.KEY] ∧
    bool_decide (method = DIDMethod.KEY) && str_opt_truthy did = false ∧
    create_keypair key_type seed w = (Ok (Some k), w0) ∧
    Key_get_public_bytes k = Ok verkey_bytes ∧
    AskarWallet.local_did method key_type did verkey_bytes = Ok name ∧
    info = mkDIDInfo name verkey metadata' method key_type ∧
    match items w !! (CATEGORY_DID, name) with
    | None =>
      w' = with_item w1 name (new_did_record name method key_type verkey metadata')
    | Some entry =>
      dict_get "verkey" (value_json entry) = JStr verkey ∧
      w' = if py_eq (dict_get "metadata" (value_json entry)) (JDict metadata')
           then w1 else with_item w1 name (with_metadata entry metadata')
    end.
Proof.
  unfold AskarWallet.create_local_did. intros Hrun.
  destruct (supports_key_type method key_type) eqn:Hsupports; [|done].
  cbn [negb] in Hrun.
  destruct (bool_decide (method = DIDMethod.KEY) && str_opt_truthy did) eqn:Hkey;
    [done|].
  case_bool_decide as Hmethod; [|done]. cbn [negb] in Hrun.
  apply bind_inv in Hrun as ([name verkey] & w2 & Hbody & Hret).
  apply mret_inv in Hret as [<- ->].
  apply try_except_askar_inv in Hbody.
  apply bind_inv in Hbody as (keypair & w0 & Hkeypair & Hbody).
  apply bind_inv in Hbody as (verkey_bytes & wa & Hpub & Hbody).
  destruct keypair as [k|]; [|done]. apply lift_inv in Hpub as [Hpub ->].
  rewrite bind_ok with (1 := insert_key_tolerant_run _ _ _ _ _) in Hbody.
  apply bind_inv in Hbody as (name' & wb & Hname & Hbody).
  apply lift_inv in Hname as [Hname ->].
  apply bind_inv in Hbody as (item & wc & Hfetch & Hbody).
  injection Hfetch as <- <-.
  apply bind_inv in Hbody as ([] & wd & Hstore & Hbody).
  apply mret_inv in Hbody as [[= <- <-] ->].
  destruct (create_keypair_frame _ _ _ _ _ Hkeypair) as (Hk & Hi & Hl).
  exists k, w0, verkey_bytes, name'. cbn zeta. split_and!; try done.
  set (w1 := with_key w0 _ _) in *.
  assert (items w1 = items w) as Hi1 by (by rewrite <- Hi).
  rewrite Hi in Hstore.
  destruct (items w !! (CATEGORY_DID, name')) as [entry|] eqn:Hentry.
  - destruct (py_eq (dict_get "verkey" (value_json entry)) _) eqn:Hverkey;
      [|done].
    cbn [negb] in Hstore. split; [by apply py_eq_str|].
    destruct (py_eq (dict_get "metadata" (value_json entry)) _); cbn [negb] in Hstore.
    + by apply mret_inv in Hstore as [_ ->].
    + by apply replace_inv in Hstore.
  - by apply insert_inv in Hstore.
Qed.

Lemma get_local_did_run did w entry :
  did ≠ "" → items w !! (CATEGORY_DID, did) = Some entry →
  AskarWallet.get_local_did did w = (_load_did_entry entry, w).
Proof.
  intros Hne Hentry. unfold AskarWallet.get_local_did.
  rewrite str_truthy_true by done. cbn [negb].
  erewrite bind_ok by (by apply try_except_ok). by rewrite Hentry.
Qed.

Lemma get_local_did_inv did w info :
  (AskarWallet.get_local_did did w).1 = Ok info →
  did ≠ "" ∧ ∃ entry, items w !! (CATEGORY_DID, did) = Some entry ∧
                      _load_did_entry entry = Ok info.
Proof.
  unfold AskarWallet.get_local_did.
  destruct (str_truthy did) eqn:Hdid; [|done]. cbn [negb].
  erewrite bind_ok by (by apply try_except_ok).
  destruct (items w !! (CATEGORY_DID, did)) as [entry|]; [|done].
  intros Hload. split; [by intros ->|]. eauto.
Qed.

(** A DID that [create_local_did] stored anew is found by [get_local_did]
    as it was returned, and its signing key is in the store. *)
Theorem create_local_did_get_local_did `{!LookupLaws}
    method key_type seed did metadata w info w' :
  AskarWallet.create_local_did method key_type seed did metadata w = (Ok info, w') →
  items w !! (CATEGORY_DID, did_of info) = None → did_of info ≠ "" →
  AskarWallet.get_local_did (did_of info) w' = (Ok (stored info), w') ∧
  (∃ e, keys w' !! verkey_of info = Some e) ∧
  metadata_of info = default [] metadata.
Proof.
  intros (k & w0 & vb & name & Hsup & Hmethod & _ & Hkeypair & Hpub & Hname & -> & Hstore)%create_local_did_inv.
  cbn [did_of verkey_of metadata_of]. intros Hfresh Hne.
  rewrite Hfresh in Hstore. subst w'. split_and!; [|clear|done].
  - erewrite get_local_did_run; [|done|apply lookup_insert_eq].
    unfold _load_did_entry, stored, dict_get. simpl.
    by rewrite from_method_name, from_key_type_name.
  - cbn [keys with_item with_key].
    destruct (keys w0 !! bytes_to_b58 vb) as [held|] eqn:Hheld; [eauto|].
    rewrite lookup_insert_eq. eauto.
Qed.

(** [create_local_did] run forward, once the key pair is made and the DID
    is named. *)
Lemma create_local_did_run method key_type seed did metadata w k w0 verkey_bytes name :
  supports_key_type method key_type = true →
  method ∈ [DIDMethod.SOV; DIDMethod.KEY] →
  bool_decide (method = DIDMethod.KEY) && str_opt_truthy did = false →
  create_keypair key_type seed w = (Ok (Some k), w0) →
  Key_get_public_bytes k = Ok verkey_bytes →
  AskarWallet.local_did method key_type did verkey_bytes = Ok name →
  let verkey := bytes_to_b58 verkey_bytes in
  let metadata' := default [] metadata in
  let w1 := with_key w0 verkey (mkKeyEntry k (Some (JDict metadata'))) in
  let info := mkDIDInfo name verkey metadata' method key_type in
  AskarWallet.create_local_did method key_type seed did metadata w =
  match items w0 !! (CATEGORY_DID, name) with
  | None =>
    (Ok info, with_item w1 name (new_did_record name method key_type verkey metadata'))
  | Some entry =>
    if py_eq (dict_get "verkey" (value_json entry)) (JStr verkey) then
      (Ok info,
       if py_eq (dict_get "metadata" (value_json entry)) (JDict metadata')
       then w1 else with_item w1 name (with_metadata entry metadata'))
    else (Raise DuplicateDID, w1)
  end.
Proof.
  intros Hsupports Hmethod Hkey Hkeypair Hpub Hname verkey metadata' w1 info.
  unfold AskarWallet.create_local_did. rewrite Hsupports, Hkey. cbn [negb].
  rewrite bool_decide_eq_true_2 by done. cbn [negb]. fold metadata'.
  assert (items w1 = items w0) as Hi1 by done.
  assert (∀ r w2,
    (keypair ← create_keypair key_type seed;
     verkey_bytes ← get_public_bytes keypair;
     let verkey := bytes_to_b58 verkey_bytes in
     try_except
       (match keypair with
        | Some k => Session.insert_key verkey k (Some (JDict metadata'))
        | None => raise AttributeError
        end)
       (AskarWallet.duplicate_passes "Error inserting key");;
     did ← lift (AskarWallet.local_did method key_type did verkey_bytes);
     item ← Session.fetch CATEGORY_DID did;
     match item with
     | Some item =>
       let did_info := value_json item in
       if negb (py_eq (dict_get "verkey" did_info) (JStr verkey)) then
         raise DuplicateDID
       else if negb (py_eq (dict_get "metadata" did_info) (JDict metadata'))
       then
         let did_info := dict_set "metadata" (JDict metadata') did_info in
         Session.replace CATEGORY_DID did did_info (tags item)
       else mret ()
     | None =>
       Session.insert CATEGORY_DID did
         [("did", JStr did);
          ("method", JStr (method_name method));
          ("verkey", JStr verkey);
          ("verkey_type", JStr (key_type_name key_type));
          ("metadata", JDict metadata')]
         [("method", JStr (method_name method));
          ("verkey", JStr verkey);
          ("verkey_type", JStr (key_type_name key_type))]
     end;;
     mret (did, verkey)) w = (r, w2) ↔
    (store ← match items w0 !! (CATEGORY_DID, name) with
             | Some item =>
               if negb (py_eq (dict_get "verkey" (value_json item)) (JStr verkey))
               then raise DuplicateDID
               else if negb (py_eq (dict_get "metadata" (value_json item))
                               (JDict metadata'))
               then Session.replace CATEGORY_DID name
                      (dict_set "metadata" (JDict metadata') (value_json item))
                      (tags item)
               else mret ()
             | None =>
               Session.insert CATEGORY_DID name
                 (value_json (new_did_record name method key_type verkey metadata'))
                 (tags (new_did_record name method key_type verkey metadata'))
             end;
     mret (name, verkey)) w1 = (r, w2)) as Hbody.
  { intros r w2.
    erewrite bind_ok by exact Hkeypair.
    erewrite bind_ok by (by apply lift_ok).
    erewrite bind_ok by apply insert_key_tolerant_run.
    erewrite bind_ok by (by apply lift_ok).
    erewrite bind_ok by reflexivity. reflexivity. }
  destruct (items w0 !! (CATEGORY_DID, name)) as [entry|] eqn:Hentry.
  - destruct (py_eq (dict_get "verkey" (value_json entry)) (JStr verkey));
      cbn [negb] in Hbody.
    + destruct (py_eq (dict_get "metadata" (value_json entry)) (JDict metadata'));
        cbn [negb] in Hbody.
      * erewrite bind_ok; [|apply try_except_ok; by apply Hbody]. reflexivity.
      * erewrite bind_ok; cycle 1.
        { apply try_except_ok. apply Hbody.
          erewrite bind_ok; [|eapply replace_run; by rewrite Hi1]. reflexivity. }
        reflexivity.
    + erewrite bind_raise; [reflexivity|]. apply try_except_raise; [|done].
      by apply Hbody.
  - erewrite bind_ok; cycle 1.
    { apply try_except_ok. apply Hbody.
      erewrite bind_ok; [reflexivity|]. unfold Session.insert.
      by rewrite Hi1, Hentry. }
    reflexivity.
Qed.

(** [create_local_did] with a seed can be repeated: the second call, with
    the same arguments, returns the same [DIDInfo] and leaves the store,
    the random source included, as the first call left it. *)
Theorem create_local_did_idempotent method key_type seed did metadata w info w' :
  str_truthy seed = true →
  AskarWallet.create_local_did method key_type (Some seed) did metadata w
    = (Ok info, w') →
  AskarWallet.create_local_did method key_type (Some seed) did metadata w'
    = (Ok info, w').
Proof.
  intros Hseed Hfirst.
  destruct (create_local_did_inv _ _ _ _ _ _ _ _ Hfirst)
    as (k & w0 & vb & name & Hsup & Hmethod & Hkey & Hkeypair & Hpub & Hname
        & -> & Hstore).
  rewrite (create_keypair_seeded _ _ w w) in Hkeypair by done.
  injection Hkeypair as Hkeypair <-.
  assert (create_keypair key_type (Some seed) w' = (Ok (Some k), w')) as Hagain.
  { rewrite (create_keypair_seeded _ _ _ w) by done. by rewrite Hkeypair. }
  set (verkey := bytes_to_b58 vb) in *.
  set (metadata' := default [] metadata) in *.
  set (e := mkKeyEntry k (Some (JDict metadata'))) in *.
  assert (∃ held, keys (with_key w verkey e) !! verkey = Some held) as [held Hheld].
  { unfold with_key. simpl. destruct (keys w !! verkey) eqn:Hk; [eauto|].
    rewrite lookup_insert_eq. eauto. }
  rewrite (create_local_did_run _ _ _ _ _ _ k w' vb name) by done.
  fold verkey metadata' e.
  destruct (items w !! (CATEGORY_DID, name)) as [entry|] eqn:Hentry.
  - destruct Hstore as [Hverkey Hw'].
    destruct (py_eq (dict_get "metadata" (value_json entry)) (JDict metadata'))
      eqn:Hmeta; subst w'.
    + cbn [items with_key]. rewrite Hentry, Hverkey, py_eq_str_refl, Hmeta.
      by erewrite with_key_held.
    + cbn [items with_item with_key]. rewrite lookup_insert_eq.
      unfold dict_get at 1. cbn [value_json with_metadata].
      rewrite dict_lookup_set_ne by done. fold (dict_get "verkey" (value_json entry)).
      rewrite Hverkey, py_eq_str_refl.
      unfold dict_get at 1. rewrite dict_lookup_set_eq. cbn [from_option id].
      rewrite (with_key_held _ _ _ held) by done.
      destruct (py_eq (JDict metadata') (JDict metadata')); [done|].
      unfold with_metadata. cbn [value_json tags]. rewrite dict_set_twice.
      by rewrite with_item_twice.
  - subst w'. cbn [items with_item with_key]. rewrite lookup_insert_eq.
    set (record := new_did_record name method key_type verkey metadata').
    assert (dict_get "verkey" (value_json record) = JStr verkey) as ->
      by reflexivity.
    assert (dict_get "metadata" (value_json record) = JDict metadata') as ->
      by reflexivity.
    assert (with_metadata record metadata' = record) as -> by reflexivity.
    rewrite py_eq_str_refl.
    rewrite (with_key_held _ _ _ held) by exact Hheld.
    rewrite with_item_twice.
    by destruct (py_eq (JDict metadata') (JDict metadata')).
Qed.

(** A DID that is taken: [create_local_did] for a stored DID whose verkey
    is another fails with the duplicate error after the new key pair was
    stored.  The key is in the store when the call has failed, and no
    record changed. *)
Theorem create_local_did_duplicate_keeps_key method key_type seed did metadata w
    k w0 verkey_bytes name entry :
  supports_key_type method key_type = true →
  method ∈ [DIDMethod.SOV; DIDMethod.KEY] →
  (method = DIDMethod.KEY → str_opt_truthy did = false) →
  create_keypair key_type seed w = (Ok (Some k), w0) →
  Key_get_public_bytes k = Ok verkey_bytes →
  AskarWallet.local_did method key_type did verkey_bytes = Ok name →
  items w !! (CATEGORY_DID, name) = Some entry →
  dict_get "verkey" (value_json entry) ≠ JStr (bytes_to_b58 verkey_bytes) →
  ∃ w',
    AskarWallet.create_local_did method key_type seed did metadata w
      = (Raise DuplicateDID, w') ∧
    items w' = items w ∧
    (∃ e, keys w' !! bytes_to_b58 verkey_bytes = Some e) ∧
    (keys w !! bytes_to_b58 verkey_bytes = None →
     keys w' = <[bytes_to_b58 verkey_bytes :=
                   mkKeyEntry k (Some (JDict (default [] metadata)))]> (keys w)).
Proof.
  intros Hsup Hmethod Hkey Hkeypair Hpub Hname Hentry Hverkey.
  destruct (create_keypair_frame _ _ _ _ _ Hkeypair) as (Hk & Hi & _).
  rewrite (create_local_did_run _ _ _ _ _ _ k w0 verkey_bytes name); try done.
  2:{ case_bool_decide; [by rewrite Hkey|done]. }
  rewrite Hi, Hentry.
  destruct (py_eq (dict_get "verkey" (value_json entry)) _) eqn:Heq.
  { by apply py_eq_str in Heq. }
  eexists. split_and!; [done|done| |].
  - apply with_key_lookup.
  - intros Hfree. cbn [keys with_key]. by rewrite Hk, Hfree.
Qed.

(** *** Records read and rewritten *)

Lemma rotate_apply_run did w :
  AskarWallet.rotate_did_keypair_apply did w =
  match items w !! (CATEGORY_DID, did) with
  | None =>
    (Raise (WalletNotFoundError (Message "Unknown DID: {}" [FStr did])), w)
  | Some item =>
    match default (JDict []) (dict_lookup "metadata" (value_json item)) with
    | JDict metadata =>
      if truthy (dict_get "next_verkey" metadata) then
        (Ok (), with_item w did
                  (rotated item metadata (dict_get "next_verkey" metadata)))
      else (Raise RotationNotStarted, w)
    | _ => (Raise AttributeError, w)
    end
  end.
Proof.
  unfold AskarWallet.rotate_did_keypair_apply, try_except.
  erewrite bind_ok by reflexivity.
  destruct (items w !! (CATEGORY_DID, did)) as [item|] eqn:Hitem; [|done].
  destruct (default (JDict []) (dict_lookup "metadata" (value_json item)));
    try done.
  destruct (truthy _); [|done]. cbn [negb].
  by erewrite replace_run.
Qed.

Lemma replace_local_did_metadata_run did metadata w :
  AskarWallet.replace_local_did_metadata did metadata w =
  match items w !! (CATEGORY_DID, did) with
  | None =>
    (Raise (WalletNotFoundError (Message "Unknown DID: {}" [FStr did])), w)
  | Some item =>
    match dict_lookup "metadata" (value_json item) with
    | None => (Raise KeyError, w)
    | Some kept =>
      (Ok (), if py_eq kept (JDict metadata) then w
              else with_item w did (with_metadata item metadata))
    end
  end.
Proof.
  unfold AskarWallet.replace_local_did_metadata, try_except.
  erewrite bind_ok by reflexivity.
  destruct (items w !! (CATEGORY_DID, did)) as [item|] eqn:Hitem; [|done].
  destruct (dict_lookup "metadata" (value_json item)) as [kept|]; [|done].
  destruct (py_eq kept (JDict metadata)); [done|]. cbn [negb].
  by erewrite replace_run.
Qed.

Lemma rotate_start_run did next_seed w k w0 verkey_bytes :
  supports_rotation (from_did did) = true →
  create_keypair KeyType.ED25519 next_seed w = (Ok (Some k), w0) →
  Key_get_public_bytes k = Ok verkey_bytes →
  let verkey := bytes_to_b58 verkey_bytes in
  let w1 := with_key w0 verkey (mkKeyEntry k None) in
  AskarWallet.rotate_did_keypair_start did next_seed w =
  match items w0 !! (CATEGORY_DID, did) with
  | None =>
    (Raise (WalletNotFoundError (Message "Unknown DID: {}" [FStr did])), w1)
  | Some item =>
    match default (JDict []) (dict_lookup "metadata" (value_json item)) with
    | JDict metadata =>
      (Ok verkey,
       with_item w1 did
         (with_metadata item (dict_set "next_verkey" (JStr verkey) metadata)))
    | _ => (Raise TypeError, w1)
    end
  end.
Proof.
  intros Hrot Hkeypair Hpub verkey w1.
  unfold AskarWallet.rotate_did_keypair_start. rewrite Hrot. cbn [negb].
  erewrite bind_ok by exact Hkeypair.
  erewrite bind_ok by (by apply lift_ok).
  erewrite bind_ok by apply insert_key_tolerant_run.
  fold verkey w1.
  destruct (items w0 !! (CATEGORY_DID, did)) as [item|] eqn:Hitem.
  - assert (items w1 !! (CATEGORY_DID, did) = Some item) as Hitem1 by exact Hitem.
    destruct (default (JDict []) (dict_lookup "metadata" (value_json item)))
      as [| | | | |metadata] eqn:Hmeta.
    1-5: erewrite bind_raise; [reflexivity|]; apply try_except_raise; [|done];
         erewrite bind_ok by reflexivity; by rewrite Hitem1, Hmeta.
    erewrite bind_ok; [reflexivity|]. apply try_except_ok.
    erewrite bind_ok by reflexivity. rewrite Hitem1, Hmeta.
    by eapply replace_run.
  - assert (items w1 !! (CATEGORY_DID, did) = None) as Hitem1 by exact Hitem.
    erewrite bind_raise; [reflexivity|]. apply try_except_raise; [|done].
    erewrite bind_ok by reflexivity. by rewrite Hitem1.
Qed.

Lemma rotate_start_inv did next_seed w verkey w' :
  AskarWallet.rotate_did_keypair_start did next_seed w = (Ok verkey, w') →
  ∃ k w0 verkey_bytes item metadata,
    create_keypair KeyType.ED25519 next_seed w = (Ok (Some k), w0) ∧
    Key_get_public_bytes k = Ok verkey_bytes ∧
    verkey = bytes_to_b58 verkey_bytes ∧
    items w !! (CATEGORY_DID, did) = Some item ∧
    default (JDict []) (dict_lookup "metadata" (value_json item)) = JDict metadata ∧
    w' = with_item (with_key w0 verkey (mkKeyEntry k None)) did
           (with_metadata item (dict_set "next_verkey" (JStr verkey) metadata)).
Proof.
  intros Hrun. pose proof Hrun as Hrun'.
  unfold AskarWallet.rotate_did_keypair_start in Hrun'.
  destruct (supports_rotation (from_did did)) eqn:Hrot; [|done].
  cbn [negb] in Hrun'.
  apply bind_inv in Hrun' as (keypair & w0 & Hkeypair & Hrun').
  apply bind_inv in Hrun' as (verkey_bytes & wa & Hpub & _).
  destruct keypair as [k|]; [|done]. apply lift_inv in Hpub as [Hpub ->].
  rewrite (rotate_start_run _ _ _ _ _ _ Hrot Hkeypair Hpub) in Hrun.
  destruct (create_keypair_frame _ _ _ _ _ Hkeypair) as (_ & Hi & _).
  rewrite Hi in Hrun.
  destruct (items w !! (CATEGORY_DID, did)) as [item|] eqn:Hitem; [|done].
  destruct (default (JDict []) (dict_lookup "metadata" (value_json item)))
    as [| | | | |metadata] eqn:Hmeta; try done.
  injection Hrun as <- <-. by exists k, w0, verkey_bytes, item, metadata.
Qed.

Lemma dict_remove_set {V} k (v : V) d :
  dict_remove k (dict_set k v d) = dict_remove k d.
Proof.
  unfold dict_remove. induction d as [|[k' v'] d IH]; simpl.
  - rewrite filter_cons. simpl. by rewrite decide_False by (by intros ?).
  - destruct (decide (k' = k)) as [->|Hne].
    + rewrite !filter_cons. simpl. by rewrite !decide_False by (by intros ?).
    + rewrite !filter_cons. simpl. rewrite !decide_True by done. by rewrite IH.
Qed.

(** Loading a record whose metadata was replaced, and a rotated one. *)
Lemma load_with_metadata entry metadata info :
  _load_did_entry entry = Ok info →
  _load_did_entry (with_metadata entry metadata)
    = Ok (mkStoredDIDInfo (stored_did info) (stored_verkey info) (JDict metadata)
            (stored_method info) (stored_key_type info)).
Proof.
  unfold _load_did_entry, with_metadata, dict_get. cbn [value_json].
  rewrite (dict_lookup_set_ne "metadata" "did"),
    (dict_lookup_set_ne "metadata" "verkey"),
    (dict_lookup_set_ne "metadata" "method"),
    (dict_lookup_set_ne "metadata" "verkey_type") by done.
  rewrite dict_lookup_set_eq.
  destruct (dict_lookup "did" (value_json entry)); [|done].
  destruct (dict_lookup "verkey" (value_json entry)); [|done].
  by intros [= <-].
Qed.

Lemma load_rotated entry metadata next_verkey info :
  _load_did_entry entry = Ok info →
  _load_did_entry (rotated entry metadata next_verkey)
    = Ok (mkStoredDIDInfo (stored_did info) next_verkey
            (JDict (dict_remove "next_verkey" metadata))
            (stored_method info) (stored_key_type info)).
Proof.
  unfold _load_did_entry, rotated, dict_get. cbn [value_json].
  rewrite dict_lookup_set_eq.
  rewrite (dict_lookup_set_ne "verkey" "did"),
    (dict_lookup_set_ne "verkey" "metadata"),
    (dict_lookup_set_ne "verkey" "method"),
    (dict_lookup_set_ne "verkey" "verkey_type") by done.
  rewrite (dict_lookup_set_ne "metadata" "did"),
    (dict_lookup_set_ne "metadata" "method"),
    (dict_lookup_set_ne "metadata" "verkey_type") by done.
  rewrite dict_lookup_set_eq.
  destruct (dict_lookup "did" (value_json entry)); [|done].
  destruct (dict_lookup "verkey" (value_json entry)); [|done].
  by intros [= <-].
Qed.

(** A DID the store has no record of.  [get_local_did] fails with the
    not-found error, whose text is formatted from [None] and does not name
    the DID; [replace_local_did_metadata] and [rotate_did_keypair_apply]
    fail with the not-found error that names it.  The world stays. *)
Theorem unknown_did_not_found did w :
  did ≠ "" → items w !! (CATEGORY_DID, did) = None →
  AskarWallet.get_local_did did w
    = (Raise (WalletNotFoundError (Message "Unknown DID: {}" [FObj JNull])), w) ∧
  (∀ metadata,
     AskarWallet.replace_local_did_metadata did metadata w
       = (Raise (WalletNotFoundError (Message "Unknown DID: {}" [FStr did])), w)) ∧
  AskarWallet.rotate_did_keypair_apply did w
    = (Raise (WalletNotFoundError (Message "Unknown DID: {}" [FStr did])), w).
Proof.
  intros Hne Hnone. split_and!.
  - unfold AskarWallet.get_local_did. rewrite str_truthy_true by done.
    cbn [negb]. erewrite bind_ok by (by apply try_except_ok). by rewrite Hnone.
  - intros metadata. by rewrite replace_local_did_metadata_run, Hnone.
  - by rewrite rotate_apply_run, Hnone.
Qed.

(** [replace_local_did_metadata] on a stored DID whose record has
    metadata: the call succeeds; [get_local_did] then returns the DID as
    before with the new metadata, or with the metadata it had when that
    compares equal to the new one; keys and other records stay.  A record
    with no [metadata] entry makes the call fail with [KeyError]. *)
Theorem replace_local_did_metadata_get_local_did did metadata w entry before :
  did ≠ "" →
  items w !! (CATEGORY_DID, did) = Some entry →
  _load_did_entry entry = Ok before →
  (∀ kept, dict_lookup "metadata" (value_json entry) = Some kept →
     ∃ w' after,
       AskarWallet.replace_local_did_metadata did metadata w = (Ok (), w') ∧
       AskarWallet.get_local_did did w' = (Ok after, w') ∧
       after = mkStoredDIDInfo (stored_did before) (stored_verkey before)
                 (if py_eq kept (JDict metadata) then kept else JDict metadata)
                 (stored_method before) (stored_key_type before) ∧
       keys w' = keys w ∧
       ∀ other, other ≠ (CATEGORY_DID, did) → items w' !! other = items w !! other) ∧
  (dict_lookup "metadata" (value_json entry) = None →
   AskarWallet.replace_local_did_metadata did metadata w = (Raise KeyError, w)).
Proof.
  intros Hne Hentry Hload. rewrite replace_local_did_metadata_run, Hentry.
  split.
  - intros kept Hkept. rewrite Hkept.
    destruct (py_eq kept (JDict metadata)).
    + eexists _, _. split; [done|].
      erewrite get_local_did_run by done. rewrite Hload. split_and!; try done.
      unfold _load_did_entry, dict_get in Hload. rewrite Hkept in Hload.
      destruct (dict_lookup "did" (value_json entry)); [|done].
      destruct (dict_lookup "verkey" (value_json entry)); [|done].
      by injection Hload as <-.
    + eexists _, _. split; [done|].
      erewrite get_local_did_run; [|done|apply lookup_insert_eq].
      rewrite (load_with_metadata _ _ _ Hload). split_and!; try done.
      intros other Hother. simpl. by apply lookup_insert_ne.
  - by intros ->.
Qed.

(** Rotation as [get_local_did] shows it.  For a DID that loads, once
    [rotate_did_keypair_start] returned the new verkey: the DID still has
    its verkey, and [next_verkey] in its metadata is the new one;
    [rotate_did_keypair_apply] then succeeds, after which the verkey is
    the new one and the metadata has no [next_verkey].  The DID, its method
    and its key type stay throughout, and every key of the store stays:
    the new key is added, the replaced one is not removed. *)
Theorem rotation_get_local_did `{!WalletLaws} did next_seed w before verkey w1 :
  (AskarWallet.get_local_did did w).1 = Ok before →
  AskarWallet.rotate_did_keypair_start did next_seed w = (Ok verkey, w1) →
  ∃ metadata w2,
    (stored_metadata before = JDict metadata ∨
     (stored_metadata before = JNull ∧ metadata = [])) ∧
    AskarWallet.get_local_did did w1
      = (Ok (mkStoredDIDInfo (stored_did before) (stored_verkey before)
               (JDict (dict_set "next_verkey" (JStr verkey) metadata))
               (stored_method before) (stored_key_type before)), w1) ∧
    AskarWallet.rotate_did_keypair_apply did w1 = (Ok (), w2) ∧
    AskarWallet.get_local_did did w2
      = (Ok (mkStoredDIDInfo (stored_did before) (JStr verkey)
               (JDict (dict_remove "next_verkey" metadata))
               (stored_method before) (stored_key_type before)), w2) ∧
    (∃ e, keys w2 !! verkey = Some e) ∧
    (∀ name e, keys w !! name = Some e → keys w2 !! name = Some e).
Proof.
  intros (Hne & item0 & Hitem0 & Hload)%get_local_did_inv
    (k & w0 & vb & item & metadata & Hkeypair & Hpub & -> & Hitem & Hmeta & ->)%rotate_start_inv.
  assert (item0 = item) as -> by congruence.
  destruct (create_keypair_frame _ _ _ _ _ Hkeypair) as (Hk & _ & _).
  set (verkey := bytes_to_b58 vb) in *.
  set (pending := dict_set "next_verkey" (JStr verkey) metadata).
  set (w1 := with_item _ did (with_metadata item pending)).
  assert (items w1 !! (CATEGORY_DID, did) = Some (with_metadata item pending))
    as Hitem1 by apply lookup_insert_eq.
  assert (truthy (JStr verkey) = true) as Htruthy.
  { apply str_truthy_true, b58_nonempty. by eapply public_bytes_nonempty. }
  exists metadata, (with_item w1 did (rotated (with_metadata item pending) pending
                                        (JStr verkey))).
  split_and!.
  - unfold _load_did_entry in Hload.
    destruct (dict_lookup "did" (value_json item)); [|done].
    destruct (dict_lookup "verkey" (value_json item)); [|done].
    injection Hload as <-. cbn [stored_metadata]. unfold dict_get.
    destruct (dict_lookup "metadata" (value_json item)) as [kept|].
    + left. exact Hmeta.
    + right. by injection Hmeta as <-.
  - erewrite get_local_did_run by done.
    by rewrite (load_with_metadata _ _ _ Hload).
  - rewrite rotate_apply_run, Hitem1. cbn [value_json with_metadata].
    rewrite dict_lookup_set_eq. cbn [from_option id].
    unfold dict_get, pending. rewrite dict_lookup_set_eq. cbn [from_option id].
    by rewrite Htruthy.
  - erewrite get_local_did_run; [|done|apply lookup_insert_eq].
    rewrite (load_rotated _ _ _ _ (load_with_metadata _ pending _ Hload)).
    cbn [stored_did stored_method stored_key_type].
    unfold pending. by rewrite dict_remove_set.
  - apply with_key_lookup.
  - intros name e He. rewrite <- Hk in He. by apply with_key_keeps.
Qed.

(** A pending key is applied once: after [rotate_did_keypair_apply]
    succeeded, applying again fails with the rotation-not-started error and
    changes nothing. *)
Theorem rotate_did_keypair_apply_twice did w w' :
  AskarWallet.rotate_did_keypair_apply did w = (Ok (), w') →
  AskarWallet.rotate_did_keypair_apply did w' = (Raise RotationNotStarted, w').
Proof.
  rewrite rotate_apply_run.
  destruct (items w !! (CATEGORY_DID, did)) as [item|]; [|done].
  destruct (default (JDict []) (dict_lookup "metadata" (value_json item)))
    as [| | | | |metadata]; try done.
  destruct (truthy (dict_get "next_verkey" metadata)); [|done].
  intros [= <-]. rewrite rotate_apply_run.
  cbn [items with_item]. rewrite lookup_insert_eq.
  cbn [value_json rotated].
  rewrite (dict_lookup_set_ne "verkey" "metadata") by done.
  rewrite dict_lookup_set_eq. cbn [from_option id].
  unfold dict_get at 1. by rewrite dict_lookup_remove_eq.
Qed.

(** Starting a rotation again replaces the pending key: the second new
    verkey is the one [rotate_did_keypair_apply] then makes the DID's
    verkey, and the key pair of the first stays in the store. *)
Theorem rotate_did_keypair_start_twice `{!WalletLaws}
    did seed1 seed2 w verkey1 w1 verkey2 w2 :
  AskarWallet.rotate_did_keypair_start did seed1 w = (Ok verkey1, w1) →
  AskarWallet.rotate_did_keypair_start did seed2 w1 = (Ok verkey2, w2) →
  ∃ w3 entry,
    AskarWallet.rotate_did_keypair_apply did w2 = (Ok (), w3) ∧
    items w3 !! (CATEGORY_DID, did) = Some entry ∧
    dict_lookup "verkey" (value_json entry) = Some (JStr verkey2) ∧
    dict_lookup "verkey" (tags entry) = Some (JStr verkey2) ∧
    (∃ e, keys w3 !! verkey1 = Some e) ∧ (∃ e, keys w3 !! verkey2 = Some e).
Proof.
  intros (k1 & wa & vb1 & item1 & md1 & Hkp1 & Hpub1 & -> & Hitem1 & Hmd1 & ->)%rotate_start_inv
    Hsecond.
  pose proof Hsecond as (Hne & entry & metadata & Hentry & Hmeta & Hnext)%rotate_start_post.
  apply rotate_start_inv in Hsecond
    as (k2 & wb & vb2 & item2 & md2 & Hkp2 & Hpub2 & -> & Hitem2 & Hmd2 & ->).
  destruct (create_keypair_frame _ _ _ _ _ Hkp2) as (Hk2 & _ & _).
  eexists _, _. split_and!.
  - eapply rotate_apply_pending; [done..|]. by apply str_truthy_true.
  - apply lookup_insert_eq.
  - cbn [value_json rotated]. apply dict_lookup_set_eq.
  - cbn [tags rotated]. apply dict_lookup_set_eq.
  - destruct (with_key_lookup wa (bytes_to_b58 vb1) (mkKeyEntry k1 None))
      as [e1 He1].
    exists e1. apply with_key_keeps. by rewrite Hk2.
  - apply with_key_lookup.
Qed.

(** [rotate_did_keypair_start] for a DID the store has no record of fails
    with the not-found error after the new key pair was stored: the key is
    in the store when the call has failed, and no record changed. *)
Theorem rotate_did_keypair_start_unknown_did did next_seed w k w0 verkey_bytes :
  supports_rotation (from_did did) = true →
  items w !! (CATEGORY_DID, did) = None →
  create_keypair KeyType.ED25519 next_seed w = (Ok (Some k), w0) →
  Key_get_public_bytes k = Ok verkey_bytes →
  ∃ w',
    AskarWallet.rotate_did_keypair_start did next_seed w
      = (Raise (WalletNotFoundError (Message "Unknown DID: {}" [FStr did])), w') ∧
    items w' = items w ∧
    (∃ e, keys w' !! bytes_to_b58 verkey_bytes = Some e) ∧
    (keys w !! bytes_to_b58 verkey_bytes = None →
     keys w' = <[bytes_to_b58 verkey_bytes := mkKeyEntry k None]> (keys w)).
Proof.
  intros Hrot Hnone Hkeypair Hpub.
  destruct (create_keypair_frame _ _ _ _ _ Hkeypair) as (Hk & Hi & _).
  rewrite (rotate_start_run _ _ _ _ _ _ Hrot Hkeypair Hpub), Hi, Hnone.
  eexists. split_and!; [done|done| |].
  - apply with_key_lookup.
  - intros Hfree. cbn [keys with_key]. by rewrite Hk, Hfree.
Qed.

(** *** The verkey tag *)

Lemma tags_agree_with_item w name entry :
  tags_agree w → tag_agrees entry → tags_agree (with_item w name entry).
Proof.
  intros Hw He name' entry'. cbn [items with_item].
  destruct (decide (name' = name)) as [->|Hne].
  - rewrite lookup_insert_eq. by intros [= <-].
  - rewrite lookup_insert_ne by congruence. apply Hw.
Qed.

Lemma tags_agree_same_items w w' :
  items w' = items w → tags_agree w → tags_agree w'.
Proof. intros Hi Hw name entry. rewrite Hi. apply Hw. Qed.

Lemma tag_agrees_with_metadata entry metadata :
  tag_agrees entry → tag_agrees (with_metadata entry metadata).
Proof.
  unfold tag_agrees, with_metadata. cbn [tags value_json]. intros ->.
  by rewrite dict_lookup_set_ne.
Qed.

Lemma tag_agrees_rotated entry metadata next_verkey :
  tag_agrees (rotated entry metadata next_verkey).
Proof.
  unfold tag_agrees, rotated. cbn [tags value_json].
  by rewrite !dict_lookup_set_eq.
Qed.

Lemma keeps_same_items {A} (m : M A) :
  (∀ w r w', m w = (r, w') → items w' = items w) → keeps tags_agree m.
Proof.
  intros Hm w Hw. destruct (m w) as [[a|e] w'] eqn:Hrun; simpl;
    (eapply tags_agree_same_items; [eapply Hm; exact Hrun|exact Hw]).
Qed.

Lemma keeps_insert_key name k metadata :
  keeps tags_agree
    (try_except (Session.insert_key name k metadata)
       (AskarWallet.duplicate_passes "Error inserting key")).
Proof.
  apply keeps_same_items. intros w r w'.
  rewrite insert_key_tolerant_run. by intros [= _ <-].
Qed.

Lemma keeps_store_did name value tags' :
  tag_agrees (mkEntry value tags') →
  keeps tags_agree (Session.replace CATEGORY_DID name value tags') ∧
  keeps tags_agree (Session.insert CATEGORY_DID name value tags').
Proof.
  intros He. split; intros w Hw.
  - unfold Session.replace. destruct (items w !! _); [|done].
    by apply (tags_agree_with_item w).
  - unfold Session.insert. destruct (items w !! _); [done|].
    by apply (tags_agree_with_item w).
Qed.

(** What is fetched from a store whose tags agree is a record whose tag
    agrees; what is done with it may rely on that. *)
Lemma keeps_fetched_did {B} name (k : option Entry → M B) :
  (∀ item, from_option tag_agrees True item → keeps tags_agree (k item)) →
  keeps tags_agree (Session.fetch CATEGORY_DID name ≫= k).
Proof.
  intros Hk w Hw. unfold mbind, M_bind, Session.fetch.
  apply Hk; [|done].
  destruct (items w !! (CATEGORY_DID, name)) as [entry|] eqn:He; [|done].
  by eapply Hw.
Qed.

(** Every operation on DID records keeps each record tagged with the
    verkey it names, whether it returns or raises: [create_local_did],
    [replace_local_did_metadata], [rotate_did_keypair_start] and
    [rotate_did_keypair_apply]. *)
Theorem verkey_tags_kept w :
  tags_agree w →
  (∀ method key_type seed did metadata,
     tags_agree (AskarWallet.create_local_did method key_type seed did metadata w).2) ∧
  (∀ did metadata,
     tags_agree (AskarWallet.replace_local_did_metadata did metadata w).2) ∧
  (∀ did next_seed,
     tags_agree (AskarWallet.rotate_did_keypair_start did next_seed w).2) ∧
  (∀ did, tags_agree (AskarWallet.rotate_did_keypair_apply did w).2).
Proof.
  intros Hw. split_and!.
  - intros method key_type seed did metadata.
    apply keeps_run; [|done]. unfold AskarWallet.create_local_did.
    destruct (negb _); [apply keeps_raise|].
    destruct (_ && _); [apply keeps_raise|].
    destruct (negb _); [apply keeps_raise|].
    apply keeps_bind; [|intros [name verkey]; apply keeps_ret].
    apply keeps_try_except; [|intros e h; apply keeps_askar_error_as].
    apply keeps_bind.
    { apply keeps_same_items. intros w0 r w'. apply create_keypair_frame. }
    intros keypair. apply keeps_bind.
    { destruct keypair; [apply keeps_lift|apply keeps_raise]. }
    intros verkey_bytes. apply keeps_bind.
    { destruct keypair; [apply keeps_insert_key|].
      apply keeps_try_except; [apply keeps_raise|].
      intros e h. apply keeps_duplicate_passes. }
    intros []. apply keeps_bind; [apply keeps_lift|]. intros name.
    apply keeps_fetched_did. intros item He.
    apply keeps_bind; [|intros; apply keeps_ret].
    destruct item as [entry|].
    + destruct (negb _); [apply keeps_raise|].
      destruct (negb _); [|apply keeps_ret].
      by apply keeps_store_did, (tag_agrees_with_metadata entry).
    + by apply keeps_store_did.
  - intros did metadata. rewrite replace_local_did_metadata_run.
    destruct (items w !! (CATEGORY_DID, did)) as [item|] eqn:Hitem; [|done].
    destruct (dict_lookup "metadata" (value_json item)) as [kept|]; [|done].
    destruct (py_eq kept (JDict metadata)); [done|].
    apply tags_agree_with_item; [done|].
    apply tag_agrees_with_metadata. by eapply Hw.
  - intros did next_seed.
    apply keeps_run; [|done]. unfold AskarWallet.rotate_did_keypair_start.
    destruct (negb _); [apply keeps_raise|].
    apply keeps_bind.
    { apply keeps_same_items. intros w0 r w'. apply create_keypair_frame. }
    intros keypair. apply keeps_bind.
    { destruct keypair; [apply keeps_lift|apply keeps_raise]. }
    intros verkey_bytes. apply keeps_bind.
    { apply keeps_try_except; [|intros e h; apply keeps_duplicate_passes].
      destruct keypair; [|apply keeps_raise].
      apply keeps_same_items. intros w0 r w'. unfold Session.insert_key.
      destruct (keys w0 !! _); by intros [= _ <-]. }
    intros []. apply keeps_bind; [|intros; apply keeps_ret].
    apply keeps_try_except; [|intros e h; apply keeps_askar_error_as].
    apply keeps_fetched_did. intros item He.
    destruct item as [entry|]; [|apply keeps_raise].
    destruct (default (JDict []) (dict_lookup "metadata" (value_json entry)));
      try apply keeps_raise.
    by apply keeps_store_did, (tag_agrees_with_metadata entry).
  - intros did. rewrite rotate_apply_run.
    destruct (items w !! (CATEGORY_DID, did)) as [item|] eqn:Hitem; [|done].
    destruct (default (JDict []) (dict_lookup "metadata" (value_json item)));
      try done.
    destruct (truthy _); [|done].
    apply tags_agree_with_item; [done|]. apply tag_agrees_rotated.
Qed.

(** *** Lookups over all records *)

Lemma tag_filter_verkey verkey entry :
  Handle.tag_filter_matches [("verkey", verkey)] entry = true ↔ tagged verkey entry.
Proof.
  unfold Handle.tag_filter_matches, tagged. cbn [forallb fst snd].
  rewrite andb_true_r.
  destruct (dict_lookup "verkey" (tags entry)) as [[| | |s| |]|];
    try (split; [done|by intros [=]]).
  rewrite String.eqb_eq. split; [by intros ->|by intros [= ->]].
Qed.

Lemma fetch_all_run category tag_filter limit w :
  ∃ found,
    Handle.fetch_all category tag_filter limit w
      = (Ok (from_option (λ n, take n found) found limit), w) ∧
    ∀ entry, entry ∈ found ↔
      ∃ name, items w !! (category, name) = Some entry ∧
              Handle.tag_filter_matches tag_filter entry = true.
Proof.
  eexists. split; [reflexivity|]. intros entry.
  rewrite list_elem_of_omap. split.
  - intros ([[c name] e] & Hin & Hsome). apply elem_of_map_to_list in Hin.
    cbn [fst snd] in Hsome. case_decide as Hc; [|done]. subst c.
    destruct (Handle.tag_filter_matches tag_filter e) eqn:Hmatch; [|done].
    injection Hsome as ->. eauto.
  - intros (name & Hitem & Hmatch). exists (category, name, entry).
    split; [by apply elem_of_map_to_list|].
    cbn [fst snd]. by rewrite decide_True, Hmatch.
Qed.

Lemma get_local_did_for_verkey_run verkey w :
  ∃ found,
    AskarWallet.get_local_did_for_verkey verkey w =
    (match found with
     | did :: _ => _load_did_entry did
     | [] => Raise (WalletNotFoundError
                      (Message "No DID defined for verkey: {}" [FStr verkey]))
     end, w) ∧
    ∀ entry, entry ∈ found ↔
      ∃ name, items w !! (CATEGORY_DID, name) = Some entry ∧ tagged verkey entry.
Proof.
  destruct (fetch_all_run CATEGORY_DID [("verkey", verkey)] (Some 1) w)
    as (found & Hrun & Hfound).
  exists found. split.
  - unfold AskarWallet.get_local_did_for_verkey.
    erewrite bind_ok by (apply try_except_ok; exact Hrun).
    cbn [from_option]. by destruct found as [|did rest].
  - intros entry. rewrite Hfound. by setoid_rewrite tag_filter_verkey.
Qed.

(** [get_local_did_for_verkey] goes by the verkey tag of the records.
    With no record tagged with the verkey it fails with the not-found
    error; otherwise it loads a record that is tagged with it, the one
    there is when there is one only; and where the tags agree with the
    records, a DID that is returned has the verkey that was asked for.
    The world stays. *)
Theorem get_local_did_for_verkey_by_tag verkey w :
  ((∀ name entry, items w !! (CATEGORY_DID, name) = Some entry →
                  ¬ tagged verkey entry) →
   AskarWallet.get_local_did_for_verkey verkey w
     = (Raise (WalletNotFoundError
                 (Message "No DID defined for verkey: {}" [FStr verkey])), w)) ∧
  (∀ name entry,
     items w !! (CATEGORY_DID, name) = Some entry → tagged verkey entry →
     ∃ name' entry',
       items w !! (CATEGORY_DID, name') = Some entry' ∧ tagged verkey entry' ∧
       AskarWallet.get_local_did_for_verkey verkey w = (_load_did_entry entry', w) ∧
       ((∀ name2 entry2, items w !! (CATEGORY_DID, name2) = Some entry2 →
                         tagged verkey entry2 → entry2 = entry) →
        entry' = entry)) ∧
  (tags_agree w →
   ∀ info, (AskarWallet.get_local_did_for_verkey verkey w).1 = Ok info →
           stored_verkey info = JStr verkey).
Proof.
  destruct (get_local_did_for_verkey_run verkey w) as (found & -> & Hfound).
  assert (∀ did rest, found = did :: rest →
            ∃ name, items w !! (CATEGORY_DID, name) = Some did ∧ tagged verkey did)
    as Hhead.
  { intros did rest ->. apply Hfound. apply elem_of_cons. by left. }
  split_and!.
  - intros Hnone. destruct found as [|did rest]; [done|].
    destruct (Hhead did rest eq_refl) as (name & Hitem & Htag).
    by destruct (Hnone name did).
  - intros name entry Hitem Htag.
    destruct found as [|did rest].
    + assert (entry ∈ []) as Hin by (apply Hfound; eauto).
      by apply elem_of_nil in Hin.
    + destruct (Hhead did rest eq_refl) as (name' & Hitem' & Htag').
      exists name', did. split_and!; try done. intros Honly. by eapply Honly.
  - intros Hagree info. cbn [fst].
    destruct found as [|did rest]; [done|].
    destruct (Hhead did rest eq_refl) as (name & Hitem & Htag).
    specialize (Hagree name did Hitem). unfold tag_agrees in Hagree.
    unfold tagged in Htag. rewrite Htag in Hagree.
    unfold _load_did_entry.
    destruct (dict_lookup "did" (value_json did)); [|done].
    rewrite <- Hagree. by intros [= <-].
Qed.

Lemma load_did_entries_app items ret :
  load_did_entries items ret
    = result_bind (load_did_entries items []) (λ l, Ok (ret ++ l)).
Proof.
  revert ret. induction items as [|item rest IH]; intros ret; simpl.
  - by rewrite app_nil_r.
  - destruct (_load_did_entry item) as [info|e]; [|done]. simpl.
    rewrite (IH (ret ++ [info])), (IH [info]).
    destruct (load_did_entries rest []) as [l|e]; [|done]. simpl.
    by rewrite <- app_assoc.
Qed.

Lemma load_did_entries_ok items :
  (∀ item, item ∈ items → ∃ info, _load_did_entry item = Ok info) →
  ∃ l, load_did_entries items [] = Ok l ∧
       Forall2 (λ item info, _load_did_entry item = Ok info) items l.
Proof.
  induction items as [|item rest IH]; intros Hall.
  - exists []. by split.
  - destruct (Hall item) as [info Hinfo]; [apply elem_of_cons; by left|].
    destruct IH as (l & Hl & Hl2).
    { intros item' Hin. apply Hall. apply elem_of_cons. by right. }
    exists (info :: l). simpl. rewrite Hinfo. simpl.
    rewrite load_did_entries_app, Hl. split; [done|by constructor].
Qed.

Lemma load_did_entries_fail items item :
  item ∈ items → _load_did_entry item = Raise KeyError →
  load_did_entries items [] = Raise KeyError.
Proof.
  induction items as [|item' rest IH]; intros Hin Hfail.
  - by apply elem_of_nil in Hin.
  - simpl. destruct (_load_did_entry item') as [info|e] eqn:Hload.
    + simpl. rewrite load_did_entries_app.
      apply elem_of_cons in Hin as [->|Hin]; [congruence|].
      by rewrite IH.
    + unfold _load_did_entry in Hload.
      destruct (dict_lookup "did" (value_json item')); [|by injection Hload as <-].
      destruct (dict_lookup "verkey" (value_json item')); [done|].
      by injection Hload as <-.
Qed.

(** [get_local_dids] loads every DID record of the store: when each
    record loads, what it returns holds exactly what the records load to;
    one record without a [did] or a [verkey] entry makes the whole call
    fail with [KeyError].  The world stays. *)
Theorem get_local_dids_all w :
  ((∀ name entry, items w !! (CATEGORY_DID, name) = Some entry →
                  ∃ info, _load_did_entry entry = Ok info) →
   ∃ dids,
     AskarWallet.get_local_dids w = (Ok dids, w) ∧
     ∀ info, info ∈ dids ↔
       ∃ name entry, items w !! (CATEGORY_DID, name) = Some entry ∧
                     _load_did_entry entry = Ok info) ∧
  (∀ name entry,
     items w !! (CATEGORY_DID, name) = Some entry →
     _load_did_entry entry = Raise KeyError →
     AskarWallet.get_local_dids w = (Raise KeyError, w)).
Proof.
  destruct (fetch_all_run CATEGORY_DID [] None w) as (found & Hrun & Hfound).
  cbn [from_option] in Hrun.
  assert (∀ entry, entry ∈ found ↔
            ∃ name, items w !! (CATEGORY_DID, name) = Some entry) as Hfound'.
  { intros entry. rewrite Hfound. split; [intros (name & ? & _)|intros [name ?]];
      eauto. }
  unfold AskarWallet.get_local_dids. erewrite bind_ok by exact Hrun.
  unfold lift. split.
  - intros Hall. destruct (load_did_entries_ok found) as (l & -> & Hl).
    { intros item [name Hitem]%Hfound'. eauto. }
    exists l. split; [done|]. intros info. split.
    + intros Hin. apply list_elem_of_lookup in Hin as [i Hi].
      destruct (Forall2_lookup_r _ _ _ _ _ Hl Hi) as (item & Hitem & Hload).
      apply list_elem_of_lookup_2 in Hitem. apply Hfound' in Hitem as [name Hname].
      eauto.
    + intros (name & entry & Hitem & Hload).
      assert (entry ∈ found) as Hin by (apply Hfound'; eauto).
      apply list_elem_of_lookup in Hin as [i Hi].
      destruct (Forall2_lookup_l _ _ _ _ _ Hl Hi) as (info' & Hinfo & Hload').
      assert (info' = info) as -> by congruence.
      by eapply list_elem_of_lookup_2.
  - intros name entry Hitem Hfail.
    by rewrite (load_did_entries_fail found entry) by (try apply Hfound'; eauto).
Qed.

Lemma get_local_did_for_verkey_only verkey w name entry :
  items w !! (CATEGORY_DID, name) = Some entry → tagged verkey entry →
  (∀ name' entry', name' ≠ name → items w !! (CATEGORY_DID, name') = Some entry' →
                   ¬ tagged verkey entry') →
  AskarWallet.get_local_did_for_verkey verkey w = (_load_did_entry entry, w).
Proof.
  intros Hitem Htag Hothers.
  destruct (get_local_did_for_verkey_run verkey w) as (found & -> & Hfound).
  destruct found as [|did rest].
  - assert (entry ∈ []) as Hin by (apply Hfound; eauto).
    by apply elem_of_nil in Hin.
  - assert (did ∈ did :: rest) as Hin by (apply elem_of_cons; by left).
    apply Hfound in Hin as (name' & Hitem' & Htag').
    destruct (decide (name' = name)) as [->|Hne]; [congruence|].
    by destruct (Hothers name' did).
Qed.

Lemma get_local_did_for_verkey_none verkey w :
  (∀ name entry, items w !! (CATEGORY_DID, name) = Some entry →
                 ¬ tagged verkey entry) →
  AskarWallet.get_local_did_for_verkey verkey w
    = (Raise (WalletNotFoundError
                (Message "No DID defined for verkey: {}" [FStr verkey])), w).
Proof.
  intros Hnone.
  destruct (get_local_did_for_verkey_run verkey w) as (found & -> & Hfound).
  destruct found as [|did rest]; [done|].
  assert (did ∈ did :: rest) as Hin by (apply elem_of_cons; by left).
  apply Hfound in Hin as (name & Hitem & Htag). by destruct (Hnone name did).
Qed.

(** A DID that [create_local_did] stored anew is found by its verkey,
    when no other DID of the store is tagged with that verkey. *)
Theorem create_local_did_get_local_did_for_verkey `{!LookupLaws}
    method key_type seed did metadata w info w' :
  AskarWallet.create_local_did method key_type seed did metadata w = (Ok info, w') →
  items w !! (CATEGORY_DID, did_of info) = None →
  (∀ name entry, items w !! (CATEGORY_DID, name) = Some entry →
                 ¬ tagged (verkey_of info) entry) →
  AskarWallet.get_local_did_for_verkey (verkey_of info) w' = (Ok (stored info), w').
Proof.
  intros (k & w0 & vb & name & Hsup & Hmethod & _ & Hkeypair & Hpub & Hname & -> & Hstore)%create_local_did_inv.
  cbn [did_of verkey_of]. intros Hfresh Hothers.
  rewrite Hfresh in Hstore. subst w'.
  destruct (create_keypair_frame _ _ _ _ _ Hkeypair) as (_ & Hi & _).
  erewrite get_local_did_for_verkey_only; cycle 1.
  - apply lookup_insert_eq.
  - reflexivity.
  - intros name' entry' Hne. cbn [items with_item with_key].
    rewrite lookup_insert_ne by congruence. rewrite Hi. apply Hothers.
  - unfold _load_did_entry, stored, dict_get. simpl.
    by rewrite from_method_name, from_key_type_name.
Qed.

(** Rotation moves the DID to its new verkey.  After
    [rotate_did_keypair_start] returned the new verkey and
    [rotate_did_keypair_apply] succeeded, [get_local_did_for_verkey] finds
    the rotated record under the new verkey, and finds nothing under a
    verkey that is not the new one, each provided no other DID of the
    store is tagged with the verkey asked for. *)
Theorem rotation_get_local_did_for_verkey `{!WalletLaws}
    did next_seed w verkey w1 w2 :
  AskarWallet.rotate_did_keypair_start did next_seed w = (Ok verkey, w1) →
  AskarWallet.rotate_did_keypair_apply did w1 = (Ok (), w2) →
  ∃ entry,
    items w2 !! (CATEGORY_DID, did) = Some entry ∧
    dict_lookup "verkey" (value_json entry) = Some (JStr verkey) ∧
    ((∀ name other, name ≠ did → items w !! (CATEGORY_DID, name) = Some other →
                    ¬ tagged verkey other) →
     AskarWallet.get_local_did_for_verkey verkey w2 = (_load_did_entry entry, w2)) ∧
    (∀ old, old ≠ verkey →
       (∀ name other, name ≠ did → items w !! (CATEGORY_DID, name) = Some other →
                      ¬ tagged old other) →
       AskarWallet.get_local_did_for_verkey old w2
         = (Raise (WalletNotFoundError
                     (Message "No DID defined for verkey: {}" [FStr old])), w2)).
Proof.
  intros Hstart. pose proof Hstart as (Hne & e1 & md1 & He1 & Hmd1 & Hnext)%rotate_start_post.
  apply rotate_start_inv in Hstart
    as (k & w0 & vb & item & metadata & Hkeypair & Hpub & Hverkey & Hitem & Hmeta & ->).
  destruct (create_keypair_frame _ _ _ _ _ Hkeypair) as (_ & Hi & _).
  erewrite rotate_apply_pending; [|done..|by apply str_truthy_true].
  intros [= <-]. eexists. split_and!.
  - apply lookup_insert_eq.
  - cbn [value_json rotated]. apply dict_lookup_set_eq.
  - intros Hothers. apply (get_local_did_for_verkey_only _ _ did).
    + apply lookup_insert_eq.
    + unfold tagged. cbn [tags rotated]. apply dict_lookup_set_eq.
    + intros name' entry' Hname'. cbn [items with_item with_key].
      rewrite !lookup_insert_ne by congruence. rewrite Hi. by apply Hothers.
  - intros old Hold Hothers. apply get_local_did_for_verkey_none.
    intros name entry. cbn [items with_item with_key].
    destruct (decide (name = did)) as [->|Hname].
    + rewrite lookup_insert_eq. intros [= <-]. unfold tagged.
      cbn [tags rotated]. rewrite dict_lookup_set_eq. congruence.
    + rewrite !lookup_insert_ne by congruence. rewrite Hi. by apply Hothers.
Qed.

End LocalDIDs.

(** ** What packing and unpacking leave alone *)

Section Untouched.
Context `{Askar} `{Helpers}.

Lemma keeps_unpack_loop (I : World → Prop) recips todo recip_vk :
  (∀ w name, I w → I (logged w [name])) →
  keeps I (unpack_loop recips todo recip_vk).
Proof.
  intros HI. revert recip_vk. induction todo as [|vk todo IH]; intros recip_vk.
  - apply keeps_ret.
  - cbn [unpack_loop]. apply keeps_bind.
    + apply keeps_fetch_key. auto.
    + intros [entry|]; [|apply IH].
      destruct (dict_lookup vk recips); [|apply keeps_raise].
      apply keeps_bind; [apply keeps_lift|]. intros [cek sv]. apply keeps_ret.
Qed.

Lemma keeps_unpack_message (I : World → Prop) enc_message :
  (∀ w name, I w → I (logged w [name])) →
  keeps I (unpack_message enc_message).
Proof.
  intros HI. unfold unpack_message. apply keeps_bind.
  - apply keeps_try_except; [apply keeps_lift|].
    intros e h. destruct e; try done. intros [= <-]. apply keeps_raise.
  - intros wrapper. destruct (_ && _); [apply keeps_raise|].
    apply keeps_bind; [apply keeps_lift|]. intros recips.
    apply keeps_bind; [by apply keeps_unpack_loop|].
    intros [[payload_key sender_vk] recip_vk]. apply keeps_lift.
Qed.

Lemma keeps_pack_recipients (I : World → Prop) cek_b sender_vk sender_xk to_verkeys :
  (∀ w g, I w → I (mkWorld g (keys w) (items w) (fetch_log w))) →
  ∀ wrapper, keeps I (pack_recipients cek_b sender_vk sender_xk wrapper to_verkeys).
Proof.
  intros HI. induction to_verkeys as [|t tv IH]; intros wrapper.
  - apply keeps_ret.
  - cbn [pack_recipients]. apply keeps_bind; [|apply IH].
    unfold pack_recipient.
    apply keeps_bind; [apply keeps_lift|]. intros target_b.
    apply keeps_bind; [apply keeps_lift|]. intros target_pk.
    apply keeps_bind; [apply keeps_lift|]. intros target_xk.
    destruct (bytes_opt_truthy sender_vk).
    + destruct sender_vk as [svk|]; [|apply keeps_raise].
      destruct sender_xk as [sxk|]; [|apply keeps_raise].
      apply keeps_bind; [by apply keeps_draw|]. intros enc_sender.
      apply keeps_bind; [by apply keeps_draw|]. intros nonce.
      apply keeps_bind; [apply keeps_lift|]. intros enc_cek. apply keeps_ret.
    + apply keeps_bind; [by apply keeps_draw|]. intros enc_cek. apply keeps_ret.
Qed.

Lemma keeps_pack_message (I : World → Prop) to_verkeys from_key message :
  (∀ w g, I w → I (mkWorld g (keys w) (items w) (fetch_log w))) →
  keeps I (pack_message to_verkeys from_key message).
Proof.
  intros HI. unfold pack_message, pack_envelope.
  apply keeps_bind; [|intros; apply keeps_ret].
  apply keeps_bind; [by apply keeps_draw|]. intros cek.
  apply keeps_bind; [apply keeps_lift|]. intros cek_b.
  apply keeps_bind.
  { destruct from_key; [|apply keeps_ret].
    apply keeps_bind; [apply keeps_lift|]. intros; apply keeps_ret. }
  intros sender_vk. apply keeps_bind.
  { destruct from_key; [|apply keeps_ret].
    apply keeps_bind; [apply keeps_lift|]. intros; apply keeps_ret. }
  intros sender_xk.
  apply keeps_bind; [by apply keeps_pack_recipients|]. intros wrapper.
  apply keeps_bind; [apply keeps_lift|]. intros wrapper'.
  apply keeps_bind; [by apply keeps_draw|]. intros nonce.
  apply keeps_bind; [apply keeps_lift|]. intros ciphertext. apply keeps_ret.
Qed.

(** Unpacking only reads: whatever the input, and whether it returns or
    raises, [unpack_message] and the wallet's method of that name leave the
    keys, the records and the random source as they were. *)
Theorem unpack_message_reads_only :
  (∀ enc_message, reads_only (unpack_message enc_message)) ∧
  (∀ enc_message, reads_only (AskarWallet.unpack_message enc_message)).
Proof.
  split; intros enc_message w.
  - apply (keeps_run (λ w', keys w' = keys w ∧ items w' = items w ∧
                            entropy w' = entropy w)); [|done].
    by apply keeps_unpack_message.
  - apply (keeps_run (λ w', keys w' = keys w ∧ items w' = items w ∧
                            entropy w' = entropy w)); [|done].
    unfold AskarWallet.unpack_message.
    destruct (negb _); [apply keeps_raise|].
    apply keeps_bind.
    + apply keeps_try_except; [by apply keeps_unpack_message|].
      intros e h. apply keeps_askar_error_as.
    + intros [[unpacked_json recipient] sender].
      apply keeps_bind; [apply keeps_lift|]. intros; apply keeps_ret.
Qed.

(** Packing stores nothing: whatever the input, and whether it returns or
    raises, [pack_message] leaves the keys and the records as they were and
    looks no key up; the wallet's method leaves the keys and the records as
    they were, and looks up at most the sender's key. *)
Theorem pack_message_stores_nothing :
  (∀ to_verkeys from_key message,
     draws_only (pack_message to_verkeys from_key message)) ∧
  (∀ message to_verkeys from_verkey w,
     let w' := (AskarWallet.pack_message message to_verkeys from_verkey w).2 in
     keys w' = keys w ∧ items w' = items w ∧
     ∃ looked_up, fetch_log w' = fetch_log w ++ looked_up ∧
                  looked_up ⊆ option_list from_verkey).
Proof.
  split.
  - intros to_verkeys from_key message w.
    apply (keeps_run (λ w', keys w' = keys w ∧ items w' = items w ∧
                            fetch_log w' = fetch_log w)); [|done].
    by apply keeps_pack_message.
  - intros message to_verkeys from_verkey w.
    apply (keeps_run (λ w', keys w' = keys w ∧ items w' = items w ∧
             ∃ looked_up, fetch_log w' = fetch_log w ++ looked_up ∧
                          looked_up ⊆ option_list from_verkey)).
    2:{ split_and!; try done. exists []. split; [by rewrite app_nil_r|].
        apply list_subseteq_nil. }
    unfold AskarWallet.pack_message.
    destruct message as [message|]; [|apply keeps_raise].
    apply keeps_try_except; [|intros e h; apply keeps_askar_error_as].
    apply keeps_bind.
    + destruct (str_opt_truthy from_verkey) eqn:Hfrom; [|apply keeps_ret].
      destruct from_verkey as [v|]; [|done]. cbn [from_option id].
      apply keeps_bind.
      * intros w0 (Hk & Hi & l & Hl & Hsub). simpl. split_and!; try done.
        exists (l ++ [v]). rewrite Hl, app_assoc. split; [done|].
        intros x Hx. apply elem_of_app in Hx as [Hx|Hx]; [by apply Hsub|].
        apply list_elem_of_singleton in Hx as ->. simpl. apply elem_of_cons. by left.
      * intros [e|]; [apply keeps_ret|apply keeps_raise].
    + intros from_key. by apply keeps_pack_message.
Qed.

End Untouched.

(** ** The wallet's [pack_message] and [unpack_message] *)

Section WalletPack.
Context `{Askar} `{Helpers} `{!WalletLaws}.

Ltac rbind' Heq := rewrite Heq; cbn [result_bind].

(** Unpacking what was packed, in a store that holds one recipient's key
    pair. *)
Lemma unpack_packed to_verkeys from_key message env recipient entry w_r :
  b64url_text → NoDup to_verkeys → "" ∉ to_verkeys →
  packed to_verkeys from_key message env →
  sender_ready from_key →
  recipient ∈ to_verkeys →
  keys w_r !! recipient = Some entry →
  keypair_of (key entry) recipient →
  (∀ vk, vk ∈ to_verkeys → vk ≠ recipient → keys w_r !! vk = None) →
  (unpack_message (encode_utf8 (to_json env)) w_r).1
    = Ok (message, recipient, sender_verkey from_key).
Proof.
  intros Hb64 Hnodup Hblank Hpacked Hready Hin Hheld Hkp Hothers.
  destruct Hpacked as (g & g' & cek & cek_b & svk & sxk & g1 & g1' & nonce & c
                       & Hgen & Hsec & Hsender & Hrs & Hnonce & Henc & Henv).
  destruct (content_key g)
    as (cek0 & g0 & cek_b0 & cek' & Hgen0 & Hsec0 & Hcek_b & Hcek' & Haead).
  assert (cek0 = cek) as -> by congruence.
  assert (cek_b0 = cek_b) as -> by congruence.
  destruct (Haead g1 message (protected_bytes env))
    as (n0 & g2 & c0 & Hn0 & Henc0 & Hdec).
  assert (n0 = nonce) as -> by congruence.
  assert (c0 = c) as -> by congruence.
  destruct (packed_extract_all _ _ _ _ _ Hb64 Hrs Hnodup Hblank)
    as (Htext & recips & Hrecips & Hkids & Hdetails).
  assert (from_json (encode_utf8 (to_json env)) = Ok env) as Hjson.
  { apply codec_roundtrip.
    - intros Hnil. rewrite Hnil in Hrs. apply Forall2_nil_inv_r in Hrs.
      rewrite Hrs in Hin. by apply elem_of_nil in Hin.
    - split; [|done]. rewrite Henv. simpl. repeat constructor; simpl; eauto.
    - by rewrite Henv. }
  assert (dict_get "alg" (protected env)
          = JStr (if from_key is Some _ then "Authcrypt" else "Anoncrypt"))
    as Halg by (rewrite Henv; by destruct from_key).
  rewrite (unpack_message_run _ env recips w_r Hjson);
    [|by rewrite Halg; destruct from_key|done].
  cbn [fst]. unfold unpack_first_match.
  destruct (first_match_only _ (keys w_r) recips recipient entry Hdetails)
    as (d & -> & Hd); [by rewrite Hkids|done|by rewrite Hkids|].
  cbn [fst snd] in Hd.
  pose proof (slice_rejoin 16 c) as Hjoin.
  destruct from_key as [k|]; cbn [sender_ready] in Hready.
  - destruct Hsender as (pub & xk & Hpub & Hxk & -> & ->).
    rbind' (open_authcrypt cek_b k pub xk recipient d (key entry)
              Hready Hpub Hxk Hd Hkp).
    unfold sender_verkey. rewrite Hpub.
    unfold unpack_payload. rewrite Halg.
    cbn [bytes_opt_truthy str_opt_truthy].
    rewrite bytes_truthy_true by done.
    rewrite str_truthy_true.
    2:{ apply b58_nonempty. by eapply public_bytes_nonempty. }
    cbn [negb andb from_option id]. rbind' Hcek'.
    rewrite Henv in Hdec |- *. cbn [ciphertext tag iv protected_bytes] in *.
    rewrite Hjoin. by rbind' Hdec.
  - destruct Hsender as [-> ->].
    rbind' (open_anoncrypt cek_b None None recipient d (key entry)
              eq_refl Hd Hkp).
    unfold unpack_payload. rewrite Halg.
    cbn [bytes_opt_truthy str_opt_truthy].
    rewrite bytes_truthy_true by done.
    cbn [negb andb from_option id py_eq String.eqb Ascii.eqb Bool.eqb].
    rbind' Hcek'.
    rewrite Henv in Hdec |- *. cbn [ciphertext tag iv protected_bytes] in *.
    rewrite Hjoin. by rbind' Hdec.
Qed.

(** Round trip through the wallet.  A text packed by the wallet's
    [pack_message], for valid recipient verkeys none of which is named
    twice (or is blank) and from a sender whose key pair the store holds
    (or from no sender), is returned by the wallet's [unpack_message] in a
    store that holds one recipient's key pair, as
    [(message, from_verkey, to_verkey)]: the sender's verkey comes second
    and the recipient's last. *)
Theorem wallet_pack_unpack_roundtrip message to_verkeys from_verkey w
    recipient entry w_r :
  utf8_valid (encode_utf8 message) = true →
  (∀ env, to_json env ≠ "") → b64url_text →
  Forall valid_verkey to_verkeys → NoDup to_verkeys → "" ∉ to_verkeys →
  (∀ v, from_verkey = Some v → ∃ e, keys w !! v = Some e ∧ keypair_of (key e) v) →
  recipient ∈ to_verkeys →
  keys w_r !! recipient = Some entry →
  keypair_of (key entry) recipient →
  (∀ vk, vk ∈ to_verkeys → vk ≠ recipient → keys w_r !! vk = None) →
  ∃ out w',
    AskarWallet.pack_message (Some message) to_verkeys from_verkey w = (Ok out, w') ∧
    (AskarWallet.unpack_message (Some out) w_r).1
      = Ok (message, from_verkey, recipient).
Proof.
  intros Htext Hjson Hb64 Hvalid Hnodup Hblank Hsender Hin Hheld Hkp Hothers.
  assert (to_verkeys ≠ []) as Hsome.
  { intros ->. by apply elem_of_nil in Hin. }
  assert (∃ from_key wa,
    (if str_opt_truthy from_verkey then
       from_key_entry ← Session.fetch_key (default "" from_verkey);
       match from_key_entry with
       | None =>
         raise (WalletNotFoundError (literal "Missing key for pack operation"))
       | Some e => mret (Some (key e))
       end
     else mret None) w = (Ok from_key, wa) ∧
    sender_ready from_key ∧ sender_verkey from_key = from_verkey)
    as (from_key & wa & Hfrom & Hready & Hverkey).
  { destruct from_verkey as [v|]; [|by exists None, w].
    destruct (Hsender v eq_refl) as (e & He & Hkpe).
    pose proof Hkpe as (Hkp' & pub & Hpub & Hv).
    cbn [str_opt_truthy]. rewrite str_truthy_true.
    2:{ rewrite <- Hv. apply b58_nonempty. by eapply public_bytes_nonempty. }
    exists (Some (key e)), (logged w [v]). split_and!; [|done|].
    - erewrite bind_ok by apply fetch_key_run. simpl. by rewrite He.
    - unfold sender_verkey. by rewrite Hpub, Hv. }
  destruct (pack_message_ok to_verkeys from_key (encode_utf8 message) wa
              Hsome Hvalid Hready) as (out & w' & Hrun).
  exists out, w'. split.
  { apply try_except_ok. by erewrite bind_ok by done. }
  apply pack_message_inv in Hrun as (env & -> & Hpacked).
  unfold AskarWallet.unpack_message. cbn [bytes_opt_truthy from_option id].
  rewrite bytes_truthy_true.
  2:{ intros Hnil. apply encode_utf8_nil in Hnil. by apply (Hjson env). }
  cbn [negb].
  pose proof (unpack_packed _ _ _ _ _ _ _ Hb64 Hnodup Hblank Hpacked Hready
                Hin Hheld Hkp Hothers) as Hunpack.
  destruct (unpack_message (encode_utf8 (to_json env)) w_r) as [r wr] eqn:Hr.
  cbn [fst] in Hunpack. subst r.
  erewrite bind_ok by (by apply try_except_ok). cbn beta iota.
  erewrite bind_ok by (apply lift_ok; by apply decode_encode_utf8).
  by rewrite Hverkey.
Qed.

End WalletPack.

Section PackEdges.
Context `{Askar} `{Helpers}.

Lemma py_eq_str_false v s : v ≠ JStr s → py_eq v (JStr s) = false.
Proof.
  intros Hne. destruct (py_eq v (JStr s)) eqn:Heq; [|done].
  by apply py_eq_str in Heq.
Qed.

(** What [unpack_message] turns away before it looks any key up: bytes the
    envelope codec rejects, and an envelope whose mode is neither
    Authcrypt nor Anoncrypt (a missing [alg] included).  The wallet's
    method lets both errors through, and turns away an empty input itself.
    The world stays as it was. *)
Theorem unpack_message_turned_away enc_message w :
  (from_json enc_message = Raise ValidationError →
   unpack_message enc_message w
     = (Raise (WalletError (literal "Invalid packed message")), w)) ∧
  (∀ wrapper,
     from_json enc_message = Ok wrapper →
     dict_get "alg" (protected wrapper) ≠ JStr "Authcrypt" →
     dict_get "alg" (protected wrapper) ≠ JStr "Anoncrypt" →
     unpack_message enc_message w
       = (Raise (WalletError (Message "Unsupported pack algorithm: {}"
                                [FObj (dict_get "alg" (protected wrapper))])), w)) ∧
  (∀ e, unpack_message enc_message w = (Raise (WalletError e), w) →
        enc_message ≠ [] →
        AskarWallet.unpack_message (Some enc_message) w = (Raise (WalletError e), w)) ∧
  AskarWallet.unpack_message None w
    = (Raise (WalletError (literal "Message not provided")), w) ∧
  AskarWallet.unpack_message (Some []) w
    = (Raise (WalletError (literal "Message not provided")), w).
Proof.
  split_and!; try done.
  - intros Hjson. unfold unpack_message.
    erewrite bind_raise; [done|]. unfold try_except, lift. by rewrite Hjson.
  - intros wrapper Hjson Hauth Hanon. unfold unpack_message.
    erewrite bind_ok by (apply try_except_ok; by apply lift_ok).
    by rewrite !py_eq_str_false by done.
  - intros e Hrun Hne. unfold AskarWallet.unpack_message.
    cbn [bytes_opt_truthy from_option id]. rewrite bytes_truthy_true by done.
    cbn [negb]. erewrite bind_raise; [done|].
    by apply try_except_raise.
Qed.

(** The wallet's [unpack_message] in terms of the module's: the result is
    reordered to [(message, sender, recipient)] with the message decoded as
    UTF-8, a message that is not UTF-8 failing with the decoder's error; an
    Askar error is raised as the wallet's error; any other error passes. *)
Theorem wallet_unpack_message_outcomes enc_message w :
  enc_message ≠ [] →
  AskarWallet.unpack_message (Some enc_message) w =
  (match (unpack_message enc_message w).1 with
   | Ok (message, recipient, sender) =>
     match decode_utf8 message with
     | Ok text => Ok (text, sender, recipient)
     | Raise e => Raise e
     end
   | Raise (AskarError _) =>
     Raise (WalletError (literal "Exception when unpacking message"))
   | Raise e => Raise e
   end, (unpack_message enc_message w).2).
Proof.
  intros Hne. unfold AskarWallet.unpack_message.
  cbn [bytes_opt_truthy from_option id]. rewrite bytes_truthy_true by done.
  cbn [negb]. unfold mbind, M_bind, try_except, lift.
  destruct (unpack_message enc_message w) as [[[[m r] s]|e] w'].
  - simpl. by destruct (decode_utf8 m).
  - by destruct e.
Qed.

(** [pack_message] returns only for recipient verkeys that are base58 text
    of public keys with a key-agreement form, and only when the sender's
    key, if there is one, has public bytes and a key-agreement form.  The
    payload it returns is split after the fact: the tag is the last 16
    bytes of what the AEAD gave for the message and the ciphertext is the
    rest, the [iv] is the nonce, and the associated data are the bytes of
    the protected header. *)
Theorem pack_message_returned to_verkeys from_key message w out w' :
  pack_message to_verkeys from_key message w = (Ok out, w') →
  Forall valid_verkey to_verkeys ∧
  (∀ k, from_key = Some k →
     ∃ pub xk, Key_get_public_bytes k = Ok pub ∧
               Key_convert_key k KeyAlg.X25519 = Ok xk) ∧
  ∃ env cek c,
    out = encode_utf8 (to_json env) ∧
    Key_aead_encrypt cek message (iv env) (protected_bytes env) = Ok c ∧
    protected_bytes env = serialize_protected (protected env) ∧
    ciphertext env ++ tag env = c ∧
    length (tag env) = min 16 (length c).
Proof.
  intros (env & -> & Hpacked)%pack_message_inv.
  destruct Hpacked as (g & g' & cek & cek_b & svk & sxk & g1 & g1' & nonce & c
                       & Hgen & Hsec & Hsender & Hrs & Hnonce & Henc & Henv).
  split_and!.
  - clear Henv Henc. induction Hrs as [|t r tv rs Hr _ IH]; constructor; [|done].
    destruct Hr as (b & pk & xk & Hb & Hpk & Hxk & _). by exists b, pk, xk.
  - intros k ->. destruct Hsender as (pub & xk & Hpub & Hxk & _). eauto.
  - exists env, cek, c. rewrite Henv in Henc |- *.
    cbn [iv protected_bytes protected ciphertext tag] in *.
    split_and!; try done.
    + apply slice_rejoin.
    + unfold slice_last. rewrite length_drop. lia.
Qed.

End PackEdges.

(** ** Empty arguments *)

Section EmptyArguments.
Context `{Askar} `{Helpers} `{!Signing} `{Lookups}.

(** An empty verkey or DID is turned away before the store is asked:
    [get_signing_key], [replace_signing_key_metadata] and [get_local_did]
    fail with the not-found error, [sign_message] and [verify_message]
    with the wallet's error, an empty message or signature likewise.
    [pack_message] is the exception: an empty sender verkey is no sender,
    and the message is packed as from nobody.  The world stays. *)
Theorem empty_arguments w :
  AskarWallet.get_signing_key "" w
    = (Raise (WalletNotFoundError (literal "No key identifier provided")), w) ∧
  (∀ metadata,
     AskarWallet.replace_signing_key_metadata "" metadata w
       = (Raise (WalletNotFoundError (literal "No key identifier provided")), w)) ∧
  AskarWallet.get_local_did "" w
    = (Raise (WalletNotFoundError (literal "No identifier provided")), w) ∧
  (∀ message from_verkey,
     signable_truthy message = false →
     AskarWallet.sign_message message from_verkey w
       = (Raise (WalletError (literal "Message not provided")), w)) ∧
  (∀ message,
     signable_truthy message = true →
     AskarWallet.sign_message message "" w
       = (Raise (WalletError (literal "Verkey not provided")), w)) ∧
  (∀ message signature key_type,
     AskarWallet.verify_message message signature "" key_type w
       = (Raise (WalletError (literal "Verkey not provided")), w)) ∧
  (∀ message from_verkey key_type,
     from_verkey ≠ "" →
     AskarWallet.verify_message message [] from_verkey key_type w
       = (Raise (WalletError (literal "Signature not provided")), w)) ∧
  (∀ message signature from_verkey key_type,
     from_verkey ≠ "" → signature ≠ [] → signable_truthy message = false →
     AskarWallet.verify_message message signature from_verkey key_type w
       = (Raise (WalletError (literal "Message not provided")), w)) ∧
  (∀ message to_verkeys,
     AskarWallet.pack_message message to_verkeys (Some "") w
       = AskarWallet.pack_message message to_verkeys None w).
Proof.
  split_and!; try done.
  - intros message from_verkey Hm. unfold AskarWallet.sign_message.
    by rewrite Hm.
  - intros message Hm. unfold AskarWallet.sign_message. by rewrite Hm.
  - intros message from_verkey key_type Hv. unfold AskarWallet.verify_message.
    by rewrite str_truthy_true.
  - intros message signature from_verkey key_type Hv Hs Hm.
    unfold AskarWallet.verify_message.
    by rewrite str_truthy_true, bytes_truthy_true, Hm.
Qed.

End EmptyArguments.

(** ** The theorems on concrete inputs *)

Module Examples.
Import Sim Inputs.
#[local] Existing Instance Sim.askar.
#[local] Existing Instance Sim.helpers.
#[local] Existing Instance SimFacts.laws.

Lemma key_of_keypair name : name ≠ "" → ed25519_keypair (key_of name).
Proof.
  intros Hname. apply (keypair_from_secret (encode_utf8 name)).
  simpl. unfold sim_from_bytes. rewrite decide_False; [done|].
  intros Hnil. by apply encode_utf8_nil in Hnil.
Qed.

Lemma key_of_verkey name :
  name ≠ "" → keypair_of (key_of name) (to_hex (encode_utf8 name)).
Proof.
  intros Hname. split; [by apply key_of_keypair|].
  exists (encode_utf8 name). split; [|done].
  simpl. unfold sim_get_public_bytes. rewrite decide_False; [done|].
  intros [Halg|Hnil]; [done|]. by apply encode_utf8_nil in Hnil.
Qed.

Lemma hex_verkey_valid b : b ≠ [] → valid_verkey (to_hex b).
Proof.
  intros Hb. exists b, (SimKey KeyAlg.ED25519 false b),
    (SimKey KeyAlg.X25519 false b).
  split_and!; [apply SimFacts.of_to_hex| |done].
  simpl. unfold sim_from_bytes. by rewrite decide_False.
Qed.

Lemma verkeys_valid :
  Forall valid_verkey ["41"; "42"] ∧ Forall valid_verkey ["41"; "42"; "43"].
Proof.
  split; repeat constructor;
    first [ apply (hex_verkey_valid (encode_utf8 "A"))
          | apply (hex_verkey_valid (encode_utf8 "B"))
          | apply (hex_verkey_valid (encode_utf8 "C")) ]; done.
Qed.

Lemma wire_decodes env :
  text_envelope env → from_json (wire env) = Ok env.
Proof. apply SimFacts.sim_codec_roundtrip. Qed.

Lemma hex_b64url_text : b64url_text.
Proof. intros b Hb. by apply SimFacts.to_hex_nonempty. Qed.

Lemma verkeys_distinct :
  NoDup ["41"; "42"] ∧ "" ∉ ["41"; "42"].
Proof. split; compute_done. Qed.

Ltac text_envelope_tac :=
  split; [vm_compute|vm_compute]; repeat constructor; simpl; eauto.

(** Replaces [unpack_message (wire env) w] by its resolution. *)
Ltac run_wire env w :=
  let Hjson := fresh "Hjson" in
  let Hrec := fresh "Hrec" in
  let Hrun := fresh "Hrun" in
  assert (from_json (wire env) = Ok env) as Hjson
    by (apply wire_decodes; text_envelope_tac);
  assert (extract_pack_recipients (recipients env) = Ok (details env)) as Hrec
    by reflexivity;
  pose proof (unpack_message_run (wire env) env (details env) w
                Hjson eq_refl Hrec) as Hrun;
  rewrite Hrun; clear Hrun.

(** C1, amended, on two recipients, unpacked by the second: without a
    sender, and with the sender whose verkey is ["53"]. *)
Lemma pack_unpack_roundtrip_witness :
  (∃ out w',
     pack_message ["41"; "42"] None hello world0 = (Ok out, w') ∧
     (unpack_message out (holding [key_of "B"])).1 = Ok (hello, "42", None)) ∧
  (∃ out w',
     pack_message ["41"; "42"] (Some (key_of "S")) hello world0 = (Ok out, w') ∧
     (unpack_message out (holding [key_of "B"])).1
       = Ok (hello, "42", Some "53")).
Proof.
  assert (∀ vk : string, vk ∈ ["41"; "42"] → vk ≠ "42" →
            keys (holding [key_of "B"]) !! vk = None) as Hothers.
  { intros vk Hin Hne. apply elem_of_cons in Hin as [->|Hin]; [reflexivity|].
    apply elem_of_cons in Hin as [->|Hin]; [done|]. by apply elem_of_nil in Hin. }
  split.
  - destruct (pack_unpack_roundtrip ["41"; "42"] None hello world0 "42"
                (entry_of "B") (holding [key_of "B"]))
      as (out & w' & Hrun & Hunpack & _).
    + exact hex_b64url_text.
    + apply verkeys_valid.
    + apply verkeys_distinct.
    + apply verkeys_distinct.
    + exact I.
    + apply elem_of_cons. right. apply elem_of_cons. by left.
    + reflexivity.
    + by apply (key_of_verkey "B").
    + exact Hothers.
    + exists out, w'. split; [exact Hrun|exact Hunpack].
  - destruct (@pack_unpack_roundtrip Sim.askar Sim.helpers SimFacts.laws
                ["41"; "42"] (Some (key_of "S")) hello
                world0 "42" (entry_of "B") (holding [key_of "B"]))
      as (out & w' & Hrun & Hunpack & _).
    + exact hex_b64url_text.
    + apply verkeys_valid.
    + apply verkeys_distinct.
    + apply verkeys_distinct.
    + by apply (key_of_keypair "S").
    + apply elem_of_cons. right. apply elem_of_cons. by left.
    + reflexivity.
    + by apply (key_of_verkey "B").
    + exact Hothers.
    + exists out, w'. split; [exact Hrun|exact Hunpack].
Defined.

(** C1 as claimed fails: ["hello"] packed for the verkey ["42"] named
    twice.  [pack_message] returns an envelope with two entries for
    ["42"], and [unpack_message], in the store that holds the key pair of
    ["42"], refuses it: the second entry repeats the [kid] of the first. *)
Lemma pack_unpack_repeated_recipient :
  let env := packed_env ["42"; "42"] None in
  (∃ w', pack_message ["42"; "42"] None hello world0 = (Ok (wire env), w')) ∧
  omap kid_of (recipients env) = ["42"; "42"] ∧
  (unpack_message (wire env) (holding [key_of "B"])).1 = Raise ValueError.
Proof.
  intros env. split_and!.
  - eexists. unfold pack_message. erewrite bind_ok by reflexivity.
    reflexivity.
  - reflexivity.
  - erewrite (unpack_message_unreadable (wire env) env); [reflexivity| | |].
    + apply wire_decodes. text_envelope_tac.
    + reflexivity.
    + reflexivity.
Qed.

(** C2 on the scenario of the specification: ["hello"] to two recipients
    with no sender. *)
Lemma pack_message_envelope_structure_witness :
  ∃ out w' env,
    pack_message ["41"; "42"] None hello world0 = (Ok out, w') ∧
    out = encode_utf8 (to_json env) ∧
    dict_lookup "alg" (protected env) = Some (JStr "Anoncrypt") ∧
    length (recipients env) = 2 ∧
    Forall2 (entry_shape None) ["41"; "42"] (recipients env).
Proof.
  destruct (pack_message_envelope_structure ["41"; "42"] None hello world0)
    as [Hshape Hruns].
  destruct Hruns as (out & w' & Hrun); [done|apply verkeys_valid|exact I|].
  destruct (Hshape out w' Hrun) as (env & Hout & Halg & Hlen & Hentries & _).
  exists out, w', env. split_and!; done.
Defined.

(** C10, amended, on ["hello"] with no recipient and no sender. *)
Lemma pack_message_no_recipients_witness :
  ∃ w',
    AskarWallet.pack_message (Some "hello") [] None world0
      = (Raise ValidationError, w') ∧
    keys w' = keys world0 ∧ items w' = items world0.
Proof.
  apply (pack_message_no_recipients "hello" None world0). intros v [=].
Defined.

(** C10 as claimed fails: ["hello"] packed for no recipient, with no
    sender.  Neither the wallet's [pack_message] nor the module's returns
    an envelope: both raise the envelope's [ValidationError]. *)
Lemma pack_message_no_recipients_refused :
  (AskarWallet.pack_message (Some "hello") [] None world0).1
    = Raise ValidationError ∧
  (pack_message [] None hello world0).1 = Raise ValidationError.
Proof. split; reflexivity. Qed.

(** C3 on an envelope for ["41"], ["42"], ["43"] and a store that holds the
    keys of ["42"] and ["43"]: ["41"] and ["42"] are looked up, ["43"] is
    not, and the entry of ["42"] opens the message. *)
Lemma unpack_message_first_match_witness :
  let env := packed_env ["41"; "42"; "43"] None in
  let w := holding [key_of "B"; key_of "C"] in
  fetch_log (unpack_message (wire env) w).2 = ["41"; "42"] ∧
  (unpack_message (wire env) w).1 = Ok (hello, "42", None).
Proof.
  intros env w.
  assert (first_match (keys w) (details env)
          = Some ("42", mkRecipDetails None None
                          (Sim.pickle (encode_utf8 "B", fresh 0)),
                  entry_of "B")) as Hmatch by reflexivity.
  destruct (unpack_message_first_match (wire env) env (details env) w)
    as (_ & Hlog & _ & Hused).
  - apply wire_decodes. text_envelope_tac.
  - reflexivity.
  - reflexivity.
  - rewrite Hmatch in Hused. destruct Hused as [_ Hused].
    rewrite Hlog, Hused. split; reflexivity.
Defined.

(** C6, amended, on an envelope for ["41"] and ["42"] and an empty store. *)
Lemma unpack_message_no_match_witness :
  (unpack_message (wire (packed_env ["41"; "42"] None)) world0).1
    = Raise (NoMatchingKey ["41"; "42"]).
Proof.
  destruct (unpack_message_no_match (wire (packed_env ["41"; "42"] None))
              (packed_env ["41"; "42"] None)
              (details (packed_env ["41"; "42"] None)) world0)
    as (Herror & _).
  - apply wire_decodes. text_envelope_tac.
  - reflexivity.
  - reflexivity.
  - intros k _. reflexivity.
  - rewrite Herror. reflexivity.
Defined.

(** C6 as claimed fails: with no key in the store, an envelope for ["41"]
    and an envelope for ["42"] both fail with the no-matching-key error,
    and the two errors differ: each lists the recipients of its envelope. *)
Lemma unpack_message_no_match_leaks :
  (unpack_message (wire (packed_env ["41"] None)) world0).1
    = Raise (NoMatchingKey ["41"]) ∧
  (unpack_message (wire (packed_env ["42"] None)) world0).1
    = Raise (NoMatchingKey ["42"]) ∧
  (unpack_message (wire (packed_env ["41"] None)) world0).1
    ≠ (unpack_message (wire (packed_env ["42"] None)) world0).1.
Proof.
  assert (∀ kid, kid = "41" ∨ kid = "42" →
    (unpack_message (wire (packed_env [kid] None)) world0).1
      = Raise (NoMatchingKey [kid])) as Hrun.
  { intros kid [->| ->].
    - run_wire (packed_env ["41"] None) world0. reflexivity.
    - run_wire (packed_env ["42"] None) world0. reflexivity. }
  rewrite !Hrun by auto. split_and!; [done..|]. intros [=].
Qed.

(** C4, amended, on an Authcrypt envelope whose one entry was packed
    without a sender: the sealed key opens, no sender comes out, and
    [unpack_message] fails with the missing-sender error. *)
Lemma unpack_message_authcrypt_sender_witness :
  let env := relabel "Authcrypt" (packed_env ["42"] None) in
  (unpack_message (wire env) (holding [key_of "B"])).1 = Raise MissingSender.
Proof.
  intros env.
  destruct (unpack_message_authcrypt_sender (wire env) env (details env)
              (holding [key_of "B"])) as (_ & Hmissing & _).
  - apply wire_decodes. text_envelope_tac.
  - reflexivity.
  - reflexivity.
  - apply (Hmissing "42" (mkRecipDetails None None
                            (Sim.pickle (encode_utf8 "B", fresh 0)))
             (entry_of "B") (fresh 0)); [reflexivity..|done].
Defined.

(** C4 as claimed fails: an Authcrypt envelope from which the [sender] and
    [iv] fields were taken out.  The matched entry has no sender field, and
    [unpack_message] fails with the error of the box that does not open,
    which is not the missing-sender error. *)
Lemma unpack_message_authcrypt_other_error :
  let env := without_sender (packed_env ["42"] (Some (key_of "S"))) in
  dict_get "alg" (protected env) = JStr "Authcrypt" ∧
  Forall (λ r, dict_lookup "sender" (header r) = None) (recipients env) ∧
  (unpack_message (wire env) (holding [key_of "B"])).1
    = Raise (AskarError AskarErrorCode.ENCRYPTION) ∧
  Raise (A := bytes * string * option string)
        (AskarError AskarErrorCode.ENCRYPTION) ≠ Raise MissingSender.
Proof.
  intros env. split_and!.
  - reflexivity.
  - vm_compute. repeat constructor.
  - run_wire env (holding [key_of "B"]). reflexivity.
  - intros [=].
Qed.

(** C5, amended, on an Anoncrypt envelope packed without a sender. *)
Lemma unpack_message_anoncrypt_sender_witness :
  let env := packed_env ["41"; "42"] None in
  ∃ d e,
    first_match (keys (holding [key_of "B"])) (details env) = Some ("42", d, e) ∧
    carries_sender d = false.
Proof.
  intros env.
  destruct (unpack_message_anoncrypt_sender (wire env) env (details env)
              (holding [key_of "B"]) hello "42" None) as (d & e & Hmatch & Hd).
  - apply wire_decodes. text_envelope_tac.
  - reflexivity.
  - reflexivity.
  - run_wire env (holding [key_of "B"]). reflexivity.
  - exists d, e. split; [exact Hmatch|].
    destruct (carries_sender d); [|reflexivity].
    by destruct Hd as (? & ? & ? & _ & _ & _ & [=]).
Defined.

(** C5 as claimed fails: an envelope whose mode is Anoncrypt and whose
    entry carries [sender] and [iv].  [unpack_message] unpacks it and
    returns the sender's verkey, not [None]. *)
Lemma unpack_message_anoncrypt_returns_sender :
  let env := relabel "Anoncrypt" (packed_env ["42"] (Some (key_of "S"))) in
  dict_get "alg" (protected env) = JStr "Anoncrypt" ∧
  (unpack_message (wire env) (holding [key_of "B"])).1
    = Ok (hello, "42", Some "53").
Proof.
  intros env. split; [reflexivity|].
  run_wire env (holding [key_of "B"]). reflexivity.
Qed.

(** C7 on a store with one DID record: rotation started, then applied; and
    applied with no rotation started. *)
Lemma rotate_did_keypair_start_apply_witness :
  let w := with_did "41" [("posted", JBool true)] in
  (∃ verkey w1 w2 entry metadata,
     AskarWallet.rotate_did_keypair_start did_name None w = (Ok verkey, w1) ∧
     AskarWallet.rotate_did_keypair_apply did_name w1 = (Ok (), w2) ∧
     items w2 !! (CATEGORY_DID, did_name) = Some entry ∧
     dict_lookup "verkey" (value_json entry) = Some (JStr verkey) ∧
     dict_lookup "verkey" (tags entry) = Some (JStr verkey) ∧
     dict_lookup "metadata" (value_json entry) = Some (JDict metadata) ∧
     dict_lookup "next_verkey" metadata = None) ∧
  AskarWallet.rotate_did_keypair_apply did_name w = (Raise RotationNotStarted, w).
Proof.
  intros w.
  destruct (@rotate_did_keypair_start_apply Sim.askar Sim.helpers SimFacts.laws
              did_name) as [Hstarted Hnot].
  split.
  - assert ((AskarWallet.rotate_did_keypair_start did_name None w).1
            = Ok "2a") as Hresult by reflexivity.
    assert (AskarWallet.rotate_did_keypair_start did_name None w
            = (Ok "2a",
               (AskarWallet.rotate_did_keypair_start did_name None w).2))
      as Hstart by (rewrite <- Hresult; apply surjective_pairing).
    destruct (Hstarted None w _ _ Hstart)
      as (w2 & entry & metadata & Happly & Hitem & Hverkey & Htag & Hmeta & Hnext & _).
    exists "2a", (AskarWallet.rotate_did_keypair_start did_name None w).2,
      w2, entry, metadata.
    split_and!; done.
  - apply (Hnot w (did_record "41" [("posted", JBool true)])); [reflexivity|].
    reflexivity.
Defined.

(** C8, amended, on a store whose record has other metadata than the call
    gives: the call succeeds and the record then has the call's metadata. *)
Lemma create_local_did_existing_witness :
  let verkey := to_hex (encode_utf8 seed32) in
  let w := with_did verkey [("posted", JBool true)] in
  ∃ w' entry',
    AskarWallet.create_local_did DIDMethod.SOV KeyType.ED25519 (Some seed32)
        (Some did_name) None w
      = (Ok (mkDIDInfo did_name verkey [] DIDMethod.SOV KeyType.ED25519), w') ∧
    items w' !! (CATEGORY_DID, did_name) = Some entry' ∧
    dict_lookup "metadata" (value_json entry') = Some (JDict []) ∧
    tags entry' = tags (did_record verkey [("posted", JBool true)]).
Proof.
  intros verkey w.
  destruct (@create_local_did_existing Sim.askar Sim.helpers
              DIDMethod.SOV KeyType.ED25519 (Some seed32) (Some did_name) None w
              (SimKey KeyAlg.ED25519 true (encode_utf8 seed32)) w
              (encode_utf8 seed32) did_name
              (did_record verkey [("posted", JBool true)]))
    as [Hsame _].
  - reflexivity.
  - apply elem_of_cons. by left.
  - intros [=].
  - reflexivity.
  - reflexivity.
  - reflexivity.
  - reflexivity.
  - destruct Hsame as (w' & entry' & Hrun & Hitem & Hreplaced & _ & _ & Htags & _);
      [reflexivity|].
    exists w', entry'. split_and!; [exact Hrun|exact Hitem| |exact Htags].
    apply Hreplaced. reflexivity.
Defined.

(** C8 as claimed fails: the record is stored with metadata
    [{"posted": true}]; [create_local_did] for the same DID and the same
    key, with no metadata, succeeds, and the stored metadata is then [{}]:
    the existing metadata was not kept. *)
Lemma create_local_did_overwrites_metadata :
  let verkey := to_hex (encode_utf8 seed32) in
  let w := with_did verkey [("posted", JBool true)] in
  let run := AskarWallet.create_local_did DIDMethod.SOV KeyType.ED25519
               (Some seed32) (Some did_name) None w in
  (value_json <$> items w !! (CATEGORY_DID, did_name))
    = Some [("did", JStr did_name); ("method", JStr "sov");
            ("verkey", JStr verkey); ("verkey_type", JStr "ed25519");
            ("metadata", JDict [("posted", JBool true)])] ∧
  run.1 = Ok (mkDIDInfo did_name verkey [] DIDMethod.SOV KeyType.ED25519) ∧
  (value_json <$> items run.2 !! (CATEGORY_DID, did_name))
    = Some [("did", JStr did_name); ("method", JStr "sov");
            ("verkey", JStr verkey); ("verkey_type", JStr "ed25519");
            ("metadata", JDict [])].
Proof. intros verkey w run. split_and!; reflexivity. Qed.

#[local] Existing Instance Sim.signing.
#[local] Existing Instance Sim.lookups.
#[local] Existing Instance SimFacts.signing_laws.
#[local] Existing Instance SimFacts.lookup_laws.

(** A run that returned, with the world it left. *)
Lemma ran {A} (m : M A) w a : (m w).1 = Ok a → m w = (Ok a, (m w).2).
Proof. intros <-. apply surjective_pairing. Qed.

Lemma to_json_nonempty env : to_json env ≠ "".
Proof. done. Qed.

Lemma wire_nonempty env : wire env ≠ [].
Proof.
  unfold wire. intros Hnil. apply encode_utf8_nil in Hnil.
  by apply (to_json_nonempty env).
Qed.

Lemma with_did_other verkey metadata name :
  name ≠ did_name → items (with_did verkey metadata) !! (CATEGORY_DID, name) = None.
Proof.
  intros Hne. unfold with_did. cbn [items].
  apply lookup_singleton_None. congruence.
Qed.

Lemma with_did_tags_agree verkey metadata : tags_agree (with_did verkey metadata).
Proof.
  intros name entry. unfold with_did. cbn [items].
  intros [_ <-]%lookup_singleton_Some. reflexivity.
Qed.

(** A BLS key made from a seed and found again: its type is reported as
    [ED25519]. *)
Lemma create_signing_key_get_signing_key_witness :
  let run := AskarWallet.create_signing_key KeyType.BLS12381G2 (Some "seed") None
               world0 in
  run.1 = Ok (mkKeyInfo "7373656564" (JDict []) KeyType.BLS12381G2) ∧
  (AskarWallet.get_signing_key "7373656564" run.2).1
    = Ok (mkKeyInfo "7373656564" (JDict []) KeyType.ED25519).
Proof.
  intros run. split; [reflexivity|].
  apply (create_signing_key_get_signing_key KeyType.BLS12381G2 (Some "seed") None
           world0 (mkKeyInfo "7373656564" (JDict []) KeyType.BLS12381G2) run.2).
  by apply ran.
Defined.

(** The key of [seed32], made twice. *)
Lemma create_signing_key_twice_witness :
  let run := AskarWallet.create_signing_key KeyType.ED25519 (Some seed32) None
               world0 in
  AskarWallet.create_signing_key KeyType.ED25519 (Some seed32) (Some posted) run.2
    = (Raise (WalletDuplicateError
                (literal "Verification key already present in wallet")), run.2).
Proof.
  intros run.
  apply (create_signing_key_twice KeyType.ED25519 seed32 None world0
           (mkKeyInfo (to_hex (encode_utf8 seed32)) (JDict []) KeyType.ED25519)
           run.2 eq_refl).
  by apply ran.
Defined.

(** New metadata for the key of ["B"]. *)
Lemma replace_signing_key_metadata_get_signing_key_witness :
  ∃ w',
    AskarWallet.replace_signing_key_metadata "42" (Some posted)
        (holding [key_of "B"]) = (Ok (), w') ∧
    (AskarWallet.get_signing_key "42" w').1
      = Ok (mkKeyInfo "42" (JDict posted) KeyType.ED25519).
Proof.
  destruct (replace_signing_key_metadata_get_signing_key "42" (Some posted)
              (holding [key_of "B"]) (entry_of "B"))
    as (w' & Hrun & _ & _ & Hget); [done|reflexivity|].
  exists w'. split; [exact Hrun|exact Hget].
Defined.

(** A BLS key from a seed, in the build that has no BLS keys. *)
Lemma create_keypair_seed_rejected_witness :
  @create_keypair askar_no_bls Sim.helpers KeyType.BLS12381G2 (Some "seed")
      world_no_bls = (Ok None, world_no_bls) ∧
  @AskarWallet.create_signing_key askar_no_bls Sim.helpers KeyType.BLS12381G2
      (Some "seed") None world_no_bls = (Raise AttributeError, world_no_bls).
Proof.
  destruct (@create_keypair_seed_rejected askar_no_bls Sim.helpers
              KeyType.BLS12381G2 "seed" AskarErrorCode.UNSUPPORTED world_no_bls)
    as [Hkeypair Hkey]; [reflexivity|by right|].
  split; [exact Hkeypair|exact (Hkey None)].
Defined.

(** ["hello"] signed by the key of ["B"]. *)
Lemma sign_message_verify_message_witness :
  ∃ signature,
    AskarWallet.sign_message (One hello) "42" (holding [key_of "B"])
      = (Ok signature, logged (holding [key_of "B"]) ["42"]) ∧
    AskarWallet.verify_message (One hello) signature "42" KeyType.BLS12381G2 world0
      = (Ok true, world0).
Proof.
  destruct (sign_message_verify_message hello "42" (holding [key_of "B"])
              (entry_of "B")) as (signature & Hsign & Hverify).
  - done.
  - reflexivity.
  - by apply (key_of_verkey "B").
  - exists signature. split; [exact Hsign|apply Hverify].
Defined.

(** A signature that is not one, and a verkey that is not base58 text. *)
Lemma verify_message_outcomes_witness :
  AskarWallet.verify_message (One hello) hello "42" KeyType.ED25519 world0
    = (Ok false, world0) ∧
  AskarWallet.verify_message (One hello) hello "4" KeyType.ED25519 world0
    = (Raise ValueError, world0).
Proof.
  split.
  - exact (verify_message_outcomes (One hello) hello "42" KeyType.ED25519 world0
             eq_refl eq_refl eq_refl).
  - exact (verify_message_outcomes (One hello) hello "4" KeyType.ED25519 world0
             eq_refl eq_refl eq_refl).
Defined.

(** The verkey ["41"] in a store that holds the key of ["B"] only. *)
Lemma unknown_verkey_not_found_witness :
  AskarWallet.sign_message (One hello) "41" (holding [key_of "B"])
    = (Raise (WalletNotFoundError (literal "Missing key for sign operation")),
       logged (holding [key_of "B"]) ["41"]) ∧
  AskarWallet.pack_message (Some "hello") ["42"] (Some "41") (holding [key_of "B"])
    = (Raise (WalletNotFoundError (literal "Missing key for pack operation")),
       logged (holding [key_of "B"]) ["41"]).
Proof.
  destruct (unknown_verkey_not_found "41" (holding [key_of "B"]))
    as (_ & _ & Hsign & Hpack); [done|reflexivity|].
  split; [by apply Hsign|apply Hpack].
Defined.

(** A DID made in an empty store, and read back. *)
Lemma create_local_did_get_local_did_witness :
  let verkey := to_hex (encode_utf8 seed32) in
  let info := mkDIDInfo did_name verkey posted DIDMethod.SOV KeyType.ED25519 in
  let run := AskarWallet.create_local_did DIDMethod.SOV KeyType.ED25519
               (Some seed32) (Some did_name) (Some posted) world0 in
  run.1 = Ok info ∧
  AskarWallet.get_local_did did_name run.2 = (Ok (stored info), run.2).
Proof.
  intros verkey info run. split; [reflexivity|].
  apply (create_local_did_get_local_did DIDMethod.SOV KeyType.ED25519
           (Some seed32) (Some did_name) (Some posted) world0 info run.2).
  - by apply ran.
  - reflexivity.
  - done.
Defined.

(** The same DID made a second time. *)
Lemma create_local_did_idempotent_witness :
  let verkey := to_hex (encode_utf8 seed32) in
  let info := mkDIDInfo did_name verkey posted DIDMethod.SOV KeyType.ED25519 in
  let run := AskarWallet.create_local_did DIDMethod.SOV KeyType.ED25519
               (Some seed32) (Some did_name) (Some posted) world0 in
  AskarWallet.create_local_did DIDMethod.SOV KeyType.ED25519
      (Some seed32) (Some did_name) (Some posted) run.2 = (Ok info, run.2).
Proof.
  intros verkey info run.
  apply (create_local_did_idempotent DIDMethod.SOV KeyType.ED25519
           seed32 (Some did_name) (Some posted) world0 info run.2 eq_refl).
  by apply ran.
Defined.

(** The DID of the store asked for again, with another key. *)
Lemma create_local_did_duplicate_keeps_key_witness :
  let verkey := to_hex (encode_utf8 seed32) in
  ∃ w',
    AskarWallet.create_local_did DIDMethod.SOV KeyType.ED25519 (Some seed32)
        (Some did_name) None (with_did "41" []) = (Raise DuplicateDID, w') ∧
    keys w' = {[ verkey := mkKeyEntry (SimKey KeyAlg.ED25519 true (encode_utf8 seed32))
                             (Some (JDict [])) ]}.
Proof.
  intros verkey.
  destruct (create_local_did_duplicate_keeps_key DIDMethod.SOV KeyType.ED25519
              (Some seed32) (Some did_name) None (with_did "41" [])
              (SimKey KeyAlg.ED25519 true (encode_utf8 seed32)) (with_did "41" [])
              (encode_utf8 seed32) did_name (did_record "41" []))
    as (w' & Hrun & _ & _ & Hkeys).
  - reflexivity.
  - apply elem_of_cons. by left.
  - intros [=].
  - reflexivity.
  - reflexivity.
  - reflexivity.
  - reflexivity.
  - intros [=].
  - exists w'. split; [exact Hrun|]. by apply Hkeys.
Defined.

(** A DID asked for in an empty store. *)
Lemma unknown_did_not_found_witness :
  AskarWallet.get_local_did did_name world0
    = (Raise (WalletNotFoundError (Message "Unknown DID: {}" [FObj JNull])), world0) ∧
  AskarWallet.rotate_did_keypair_apply did_name world0
    = (Raise (WalletNotFoundError (Message "Unknown DID: {}" [FStr did_name])),
       world0).
Proof.
  destruct (unknown_did_not_found did_name world0) as (Hget & _ & Happly);
    [done|reflexivity|].
  split; [exact Hget|exact Happly].
Defined.

(** The metadata of a posted DID replaced by none. *)
Lemma replace_local_did_metadata_get_local_did_witness :
  ∃ w',
    AskarWallet.replace_local_did_metadata did_name [] (with_did "41" posted)
      = (Ok (), w') ∧
    AskarWallet.get_local_did did_name w'
      = (Ok (mkStoredDIDInfo (JStr did_name) (JStr "41") (JDict [])
               (Some DIDMethod.SOV) (Some KeyType.ED25519)), w').
Proof.
  destruct (replace_local_did_metadata_get_local_did did_name []
              (with_did "41" posted) (did_record "41" posted)
              (mkStoredDIDInfo (JStr did_name) (JStr "41") (JDict posted)
                 (Some DIDMethod.SOV) (Some KeyType.ED25519)))
    as [Hreplaced _]; [done|reflexivity|reflexivity|].
  destruct (Hreplaced (JDict posted) eq_refl) as (w' & after & Hrun & Hget & -> & _).
  exists w'. split; [exact Hrun|exact Hget].
Defined.

(** A posted DID rotated to a fresh key. *)
Lemma rotation_get_local_did_witness :
  let w := with_did "41" posted in
  ∃ w1 w2,
    AskarWallet.rotate_did_keypair_start did_name None w = (Ok "2a", w1) ∧
    AskarWallet.rotate_did_keypair_apply did_name w1 = (Ok (), w2) ∧
    AskarWallet.get_local_did did_name w2
      = (Ok (mkStoredDIDInfo (JStr did_name) (JStr "2a")
               (JDict (dict_remove "next_verkey" posted))
               (Some DIDMethod.SOV) (Some KeyType.ED25519)), w2) ∧
    keys w2 !! "2a" ≠ None.
Proof.
  intros w.
  pose proof (ran (AskarWallet.rotate_did_keypair_start did_name None) w "2a"
                eq_refl) as Hstart.
  assert ((AskarWallet.get_local_did did_name w).1
          = Ok (mkStoredDIDInfo (JStr did_name) (JStr "41") (JDict posted)
                  (Some DIDMethod.SOV) (Some KeyType.ED25519))) as Hbefore
    by reflexivity.
  destruct (rotation_get_local_did did_name None w _ "2a" _ Hbefore Hstart)
    as (metadata & w2 & Hmeta & _ & Happly & Hafter & [e He] & _).
  destruct Hmeta as [[= <-]|[[=] _]].
  eexists _, w2. split_and!; [exact Hstart|exact Happly|exact Hafter|].
  by rewrite He.
Defined.

(** A pending key applied, and applied again. *)
Lemma rotate_did_keypair_apply_twice_witness :
  let run := AskarWallet.rotate_did_keypair_apply did_name
               (with_did "41" [("next_verkey", JStr "43")]) in
  run.1 = Ok () ∧
  AskarWallet.rotate_did_keypair_apply did_name run.2
    = (Raise RotationNotStarted, run.2).
Proof.
  intros run. split; [reflexivity|].
  apply (rotate_did_keypair_apply_twice did_name
           (with_did "41" [("next_verkey", JStr "43")]) run.2).
  by apply ran.
Defined.

(** Two rotations started, then one applied. *)
Lemma rotate_did_keypair_start_twice_witness :
  let w := with_did "41" [] in
  ∃ w1 w2 w3 entry,
    AskarWallet.rotate_did_keypair_start did_name None w = (Ok "2a", w1) ∧
    AskarWallet.rotate_did_keypair_start did_name None w1 = (Ok "2a30", w2) ∧
    AskarWallet.rotate_did_keypair_apply did_name w2 = (Ok (), w3) ∧
    items w3 !! (CATEGORY_DID, did_name) = Some entry ∧
    dict_lookup "verkey" (value_json entry) = Some (JStr "2a30") ∧
    keys w3 !! "2a" ≠ None.
Proof.
  intros w.
  pose proof (ran (AskarWallet.rotate_did_keypair_start did_name None) w "2a"
                eq_refl) as Hfirst.
  pose proof (ran (AskarWallet.rotate_did_keypair_start did_name None) _ "2a30"
                (eq_refl : (AskarWallet.rotate_did_keypair_start did_name None
                              (AskarWallet.rotate_did_keypair_start did_name None w).2).1
                           = Ok "2a30")) as Hsecond.
  destruct (rotate_did_keypair_start_twice did_name None None w _ _ _ _
              Hfirst Hsecond)
    as (w3 & entry & Happly & Hitem & Hverkey & _ & [e He] & _).
  eexists _, _, w3, entry.
  split_and!; [exact Hfirst|exact Hsecond|exact Happly|exact Hitem|exact Hverkey|].
  by rewrite He.
Defined.

(** A rotation started for a DID the empty store does not have. *)
Lemma rotate_did_keypair_start_unknown_did_witness :
  ∃ w',
    AskarWallet.rotate_did_keypair_start did_name None world0
      = (Raise (WalletNotFoundError (Message "Unknown DID: {}" [FStr did_name])),
         w') ∧
    keys w' = {[ "2a" := mkKeyEntry (SimKey KeyAlg.ED25519 true (fresh 0)) None ]}.
Proof.
  destruct (rotate_did_keypair_start_unknown_did did_name None world0
              (SimKey KeyAlg.ED25519 true (fresh 0))
              (create_keypair KeyType.ED25519 None world0).2 (fresh 0))
    as (w' & Hrun & _ & _ & Hkeys); [reflexivity..|].
  exists w'. split; [exact Hrun|]. by apply Hkeys.
Defined.

(** The tag of a DID record through a rotation. *)
Lemma verkey_tags_kept_witness :
  let w := with_did "41" [] in
  tags_agree (AskarWallet.rotate_did_keypair_start did_name None w).2 ∧
  tags_agree (AskarWallet.rotate_did_keypair_apply did_name w).2.
Proof.
  intros w.
  destruct (verkey_tags_kept w (with_did_tags_agree "41" []))
    as (_ & _ & Hstart & Happly).
  split; [apply Hstart|apply Happly].
Defined.

(** A DID made in an empty store, and found by its verkey. *)
Lemma create_local_did_get_local_did_for_verkey_witness :
  let verkey := to_hex (encode_utf8 seed32) in
  let info := mkDIDInfo did_name verkey [] DIDMethod.SOV KeyType.ED25519 in
  let run := AskarWallet.create_local_did DIDMethod.SOV KeyType.ED25519
               (Some seed32) (Some did_name) None world0 in
  AskarWallet.get_local_did_for_verkey verkey run.2 = (Ok (stored info), run.2).
Proof.
  intros verkey info run.
  apply (create_local_did_get_local_did_for_verkey DIDMethod.SOV KeyType.ED25519
           (Some seed32) (Some did_name) None world0 info run.2).
  - by apply ran.
  - reflexivity.
  - intros name entry Hitem. unfold world0 in Hitem. cbn [items] in Hitem.
    by rewrite lookup_empty in Hitem.
Defined.

(** A rotated DID, asked for by its new verkey and by the old one. *)
Lemma rotation_get_local_did_for_verkey_witness :
  let w := with_did "41" [] in
  ∃ w1 w2,
    AskarWallet.rotate_did_keypair_start did_name None w = (Ok "2a", w1) ∧
    AskarWallet.rotate_did_keypair_apply did_name w1 = (Ok (), w2) ∧
    (AskarWallet.get_local_did_for_verkey "2a" w2).1
      = (AskarWallet.get_local_did did_name w2).1 ∧
    AskarWallet.get_local_did_for_verkey "41" w2
      = (Raise (WalletNotFoundError
                  (Message "No DID defined for verkey: {}" [FStr "41"])), w2).
Proof.
  intros w.
  pose proof (ran (AskarWallet.rotate_did_keypair_start did_name None) w "2a"
                eq_refl) as Hstart.
  pose proof (ran (AskarWallet.rotate_did_keypair_apply did_name) _ ()
                (eq_refl : (AskarWallet.rotate_did_keypair_apply did_name
                              (AskarWallet.rotate_did_keypair_start did_name None w).2).1
                           = Ok ())) as Happly.
  assert (∀ verkey name other, name ≠ did_name →
            items w !! (CATEGORY_DID, name) = Some other → ¬ tagged verkey other)
    as Hothers.
  { intros verkey name other Hne Hitem. unfold w in Hitem.
    by rewrite (with_did_other "41" [] name Hne) in Hitem. }
  destruct (rotation_get_local_did_for_verkey did_name None w "2a" _ _
              Hstart Happly) as (entry & Hitem & _ & Hnew & Hold).
  eexists _, _. split_and!; [exact Hstart|exact Happly| |].
  - rewrite (Hnew (Hothers "2a")).
    by erewrite get_local_did_run by done.
  - apply Hold; [done|apply Hothers].
Defined.

(** ["hello"] from the wallet of ["S"] to the wallets of ["A"] and ["B"],
    and unpacked by the wallet of ["B"]. *)
Lemma wallet_pack_unpack_roundtrip_witness :
  ∃ out w',
    AskarWallet.pack_message (Some "hello") ["41"; "42"] (Some "53")
        (holding [key_of "S"]) = (Ok out, w') ∧
    (AskarWallet.unpack_message (Some out) (holding [key_of "B"])).1
      = Ok ("hello", Some "53", "42").
Proof.
  apply (wallet_pack_unpack_roundtrip "hello" ["41"; "42"] (Some "53")
           (holding [key_of "S"]) "42" (entry_of "B") (holding [key_of "B"])).
  - reflexivity.
  - apply to_json_nonempty.
  - exact hex_b64url_text.
  - apply verkeys_valid.
  - apply verkeys_distinct.
  - apply verkeys_distinct.
  - intros v [= <-]. exists (entry_of "S"). split; [reflexivity|].
    by apply (key_of_verkey "S").
  - apply elem_of_cons. right. apply elem_of_cons. by left.
  - reflexivity.
  - by apply (key_of_verkey "B").
  - intros vk Hin Hne. apply elem_of_cons in Hin as [->|Hin]; [reflexivity|].
    apply elem_of_cons in Hin as [->|Hin]; [done|]. by apply elem_of_nil in Hin.
Defined.

(** An Authcrypt envelope whose entry lost its [sender] and [iv]: the box
    does not open, and the wallet reports its own error. *)
Lemma wallet_unpack_message_outcomes_witness :
  let env := without_sender (packed_env ["42"] (Some (key_of "S"))) in
  (AskarWallet.unpack_message (Some (wire env)) (holding [key_of "B"])).1
    = Raise (WalletError (literal "Exception when unpacking message")).
Proof.
  intros env.
  pose proof (wallet_unpack_message_outcomes (wire env) (holding [key_of "B"])
                (wire_nonempty env)) as Hwallet.
  assert ((unpack_message (wire env) (holding [key_of "B"])).1
          = Raise (AskarError AskarErrorCode.ENCRYPTION)) as Hraise
    by (run_wire env (holding [key_of "B"]); reflexivity).
  rewrite Hraise in Hwallet. by rewrite Hwallet.
Defined.

(** What is returned for ["hello"] to two recipients. *)
Lemma pack_message_returned_witness :
  ∃ out w' env c,
    pack_message ["41"; "42"] None hello world0 = (Ok out, w') ∧
    out = encode_utf8 (to_json env) ∧
    ciphertext env ++ tag env = c ∧ length (tag env) = min 16 (length c).
Proof.
  destruct (pack_message_ok ["41"; "42"] None hello world0) as (out & w' & Hrun);
    [done|apply verkeys_valid|exact I|].
  destruct (pack_message_returned _ _ _ _ _ _ Hrun)
    as (_ & _ & env & cek & c & Hout & _ & _ & Hjoin & Hlen).
  exists out, w', env, c. split_and!; done.
Defined.

End Examples.
